(** * Resolution pipeline of [main.py]: a shallow embedding

    The development follows [src/main.py]: the DNS probes, the extractor
    configuration builder with its temporary cookie file, the cascading title
    search, the format selector and the troubleshooting recommendations.

    Python values are embedded as a small universe of JSON-like values with the
    dynamic behaviour the program relies on ([dict.get], subscripting, [in],
    truthiness, [or], [>], [!=]).  Everything that talks to the outside (the
    resolver, the extractor, the file system, the environment, [print]) goes
    through a record of oracles and an explicit state with an event trace. *)

From Stdlib Require Import ZArith QArith String Ascii List Bool Lia.
From Stdlib Require Import DecimalString.
Import ListNotations.

Local Open Scope list_scope.
Local Open Scope string_scope.

Set Implicit Arguments.
Set Warnings "-register-all".

(* ===================================================================== *)
(** ** Python values *)
(* ===================================================================== *)

(** Dictionaries keep insertion order, the first binding of a key is the
    binding. *)
Section Dict.
Variable V : Type.

Definition dict := list (string * V).

Fixpoint dict_lookup (k : string) (d : dict) : option V :=
    match d with
    | [] => None
    | (k', v) :: r => if String.eqb k k' then Some v else dict_lookup k r
    end.

Definition dict_mem (k : string) (d : dict) : bool :=
    match dict_lookup k d with Some _ => true | None => false end.

  (** [d[k] = v]: an existing key keeps its place, a new key goes last. *)
Fixpoint dict_set (k : string) (v : V) (d : dict) : dict :=
    match d with
    | [] => [(k, v)]
    | (k', v') :: r =>
        if String.eqb k k' then (k', v) :: r else (k', v') :: dict_set k v r
    end.

  (** [{**d, k1: v1, ...}] and [d.update(...)]. *)
Definition dict_update (d upd : dict) : dict :=
    fold_left (fun acc kv => dict_set (fst kv) (snd kv) acc) upd d.
End Dict.

(** The values the extractor hands back and the program builds.  Numbers are
    [int] and finite [float] (a rational), as Python compares them exactly. *)
Inductive pyval : Type :=
| VNone
| VBool (b : bool)
| VInt (z : Z)
| VFloat (q : Q)
| VStr (s : string)
| VList (l : list pyval)
| VDict (d : list (string * pyval)).

Definition type_name (v : pyval) : string :=
  match v with
  | VNone => "NoneType"
  | VBool _ => "bool"
  | VInt _ => "int"
  | VFloat _ => "float"
  | VStr _ => "str"
  | VList _ => "list"
  | VDict _ => "dict"
  end.

(** Exceptions: [HTTPException] carries a status code and a detail, every
    other [Exception] its class and its text ([str(e)]). *)
Inductive exn_class : Type :=
| GaiError | KeyError | TypeError | AttributeError | IndexError | OSError
| OtherError (name : string).

Inductive exn : Type :=
| HTTPException (status_code : Z) (detail : string)
| PyExc (cls : exn_class) (text : string).

Definition str_of_Z (z : Z) : string := NilZero.string_of_int (Z.to_int z).

(** [str(e)], what an f-string prints for [{e}]. *)
Definition exn_str (e : exn) : string :=
  match e with
  | HTTPException c d => str_of_Z c ++ ": " ++ d
  | PyExc _ t => t
  end.

Definition is_gaierror (e : exn) : bool :=
  match e with PyExc GaiError _ => true | _ => false end.

Inductive result (A : Type) : Type :=
| Ok (a : A)
| Raise (e : exn).
Arguments Ok {A} a.
Arguments Raise {A} e.

Definition rbind {A B} (r : result A) (f : A -> result B) : result B :=
  match r with Ok a => f a | Raise e => Raise e end.

Declare Scope res_scope.
Delimit Scope res_scope with res.
Notation "x <- c1 ;; c2" := (rbind c1 (fun x => c2))
  (at level 61, c1 at next level, right associativity) : res_scope.
Notation "c1 ;; c2" := (rbind c1 (fun _ => c2))
  (at level 61, right associativity) : res_scope.

(** Numeric view: [bool] is a subclass of [int]. *)
Definition as_num (v : pyval) : option Q :=
  match v with
  | VBool b => Some (if b then 1%Q else 0%Q)
  | VInt z => Some (inject_Z z)
  | VFloat q => Some q
  | _ => None
  end.

(** [bool(v)] *)
Definition truthy (v : pyval) : bool :=
  match v with
  | VNone => false
  | VBool b => b
  | VInt z => negb (Z.eqb z 0)
  | VFloat q => negb (Qeq_bool q 0)
  | VStr s => negb (String.eqb s "")
  | VList l => match l with [] => false | _ => true end
  | VDict d => match d with [] => false | _ => true end
  end.

(** [a or b] *)
Definition py_or (a b : pyval) : pyval := if truthy a then a else b.

(** [a == b] *)
Fixpoint py_eq (a b : pyval) {struct a} : bool :=
  match a, b with
  | VNone, VNone => true
  | VStr s, VStr t => String.eqb s t
  | VList l1, VList l2 =>
      (fix go (l1 l2 : list pyval) : bool :=
         match l1, l2 with
         | [], [] => true
         | x :: xs, y :: ys => py_eq x y && go xs ys
         | _, _ => false
         end) l1 l2
  | VDict d1, VDict d2 =>
      Nat.eqb (length d1) (length d2) &&
      (fix all (d : list (string * pyval)) : bool :=
         match d with
         | [] => true
         | (k, v) :: r =>
             match dict_lookup k d2 with
             | Some w => py_eq v w
             | None => false
             end && all r
         end) d1
  | _, _ =>
      match as_num a, as_num b with
      | Some x, Some y => Qeq_bool x y
      | _, _ => false
      end
  end.

(** [a != b] *)
Definition py_ne (a b : pyval) : bool := negb (py_eq a b).

Definition Qgt_bool (x y : Q) : bool := negb (Qle_bool x y).

(** [a > b]: numbers with numbers, strings with strings, lists with lists;
    anything else is a [TypeError]. *)
Fixpoint py_gt (a b : pyval) {struct a} : result bool :=
  match a, b with
  | VStr s, VStr t => Ok (String.ltb t s)
  | VList l1, VList l2 =>
      (fix go (l1 l2 : list pyval) : result bool :=
         match l1, l2 with
         | [], _ => Ok false
         | _ :: _, [] => Ok true
         | x :: xs, y :: ys => if py_eq x y then go xs ys else py_gt x y
         end) l1 l2
  | _, _ =>
      match as_num a, as_num b with
      | Some x, Some y => Ok (Qgt_bool x y)
      | _, _ =>
          Raise (PyExc TypeError
                   ("'>' not supported between instances of '" ++ type_name a
                    ++ "' and '" ++ type_name b ++ "'"))
      end
  end.

Definition no_attribute (v : pyval) (attr : string) : exn :=
  PyExc AttributeError
    ("'" ++ type_name v ++ "' object has no attribute '" ++ attr ++ "'").

(** [v.get(k, dflt)] *)
Definition py_get (v : pyval) (k : string) (dflt : pyval) : result pyval :=
  match v with
  | VDict d => Ok (match dict_lookup k d with Some x => x | None => dflt end)
  | _ => Raise (no_attribute v "get")
  end.

(** [v[k]] for a string key *)
Definition py_getitem (v : pyval) (k : string) : result pyval :=
  match v with
  | VDict d =>
      match dict_lookup k d with
      | Some x => Ok x
      | None => Raise (PyExc KeyError ("'" ++ k ++ "'"))
      end
  | VList _ =>
      Raise (PyExc TypeError "list indices must be integers or slices, not str")
  | VStr _ =>
      Raise (PyExc TypeError "string indices must be integers, not 'str'")
  | _ =>
      Raise (PyExc TypeError ("'" ++ type_name v ++ "' object is not subscriptable"))
  end.

(** [v[0]] *)
Definition py_getitem0 (v : pyval) : result pyval :=
  match v with
  | VList l =>
      match l with
      | x :: _ => Ok x
      | [] => Raise (PyExc IndexError "list index out of range")
      end
  | VStr s =>
      match s with
      | String c _ => Ok (VStr (String c EmptyString))
      | EmptyString => Raise (PyExc IndexError "string index out of range")
      end
  | VDict _ => Raise (PyExc KeyError "0")
  | _ =>
      Raise (PyExc TypeError ("'" ++ type_name v ++ "' object is not subscriptable"))
  end.

Fixpoint is_substring (p s : string) : bool :=
  String.prefix p s ||
  match s with
  | EmptyString => false
  | String _ r => is_substring p r
  end.

(** ['k' in v] *)
Definition py_contains (k : string) (v : pyval) : result bool :=
  match v with
  | VDict d => Ok (dict_mem k d)
  | VStr s => Ok (is_substring k s)
  | VList l => Ok (existsb (py_eq (VStr k)) l)
  | _ =>
      Raise (PyExc TypeError
               ("argument of type '" ++ type_name v ++ "' is not iterable"))
  end.

Fixpoint chars (s : string) : list pyval :=
  match s with
  | EmptyString => []
  | String c r => VStr (String c EmptyString) :: chars r
  end.

(** [for x in v] *)
Definition py_iter (v : pyval) : result (list pyval) :=
  match v with
  | VList l => Ok l
  | VStr s => Ok (chars s)
  | VDict d => Ok (map (fun kv => VStr (fst kv)) d)
  | _ => Raise (PyExc TypeError ("'" ++ type_name v ++ "' object is not iterable"))
  end.

(* ===================================================================== *)
(** ** The outside world *)
(* ===================================================================== *)

(** What the program does to the outside, and what the extractor object does
    to the cookie file when the program leaves its [with] block. *)
Inductive event : Type :=
| EvGethostbyname (host : string)
| EvResolve (nameservers : list string) (host rdtype : string)
| EvTmpCreate
| EvTmpWrite (path content : string)
| EvUnlink (path : pyval)
| EvYoutubeDL (opts : pyval)
| EvExtractInfo (opts : pyval) (query : string)
| EvSaveCookies (path : string)
| EvHttpGet (url : string) (timeout : Z)
| EvPrint (line : string).

Definition is_gethostbyname (e : event) : bool :=
  match e with EvGethostbyname _ => true | _ => false end.
Definition is_resolve (e : event) : bool :=
  match e with EvResolve _ _ _ => true | _ => false end.
Definition is_tmp_create (e : event) : bool :=
  match e with EvTmpCreate => true | _ => false end.
Definition is_tmp_write (e : event) : bool :=
  match e with EvTmpWrite _ _ => true | _ => false end.
Definition is_unlink (e : event) : bool :=
  match e with EvUnlink _ => true | _ => false end.
Definition is_youtubedl (e : event) : bool :=
  match e with EvYoutubeDL _ => true | _ => false end.
Definition is_extract_info (e : event) : bool :=
  match e with EvExtractInfo _ _ => true | _ => false end.
Definition is_http_get (e : event) : bool :=
  match e with EvHttpGet _ _ => true | _ => false end.

(** The answers of the outside.  Every oracle is indexed by the number of
    earlier calls of its kind, so that two calls may be answered differently. *)
Record env : Type := {
  environ : string -> option string;
  sys_gethostbyname : nat -> string -> result string;
  dns_resolve : nat -> list string -> string -> string -> result (list string);
  tmp_create : nat -> result string;
  tmp_write : nat -> string -> string -> option exn;
  unlink_fault : nat -> string -> option exn;
  ydl_init : nat -> pyval -> option exn;
  ydl_extract_info : nat -> pyval -> string -> result pyval;
  http_get : nat -> string -> Z -> result Z
}.

(** The program's state: the trace of events so far, the most recent first,
    and the temporary files that exist. *)
Record state : Type := {
  trace : list event;
  files : list string
}.

Definition initial_state : state := {| trace := []; files := [] |}.

Definition calls (p : event -> bool) (s : state) : nat :=
  length (filter p (trace s)).

Definition M (A : Type) : Type := state -> result A * state.

Definition ret {A} (a : A) : M A := fun s => (Ok a, s).
Definition raise {A} (e : exn) : M A := fun s => (Raise e, s).
Definition bind {A B} (c : M A) (f : A -> M B) : M B :=
  fun s => match c s with
           | (Ok a, s') => f a s'
           | (Raise e, s') => (Raise e, s')
           end.
Definition lift {A} (r : result A) : M A := fun s => (r, s).

(** [try: c  except Exception as e: h e] *)
Definition try_except {A} (c : M A) (h : exn -> M A) : M A :=
  fun s => match c s with
           | (Ok a, s') => (Ok a, s')
           | (Raise e, s') => h e s'
           end.

(** [try: c  except socket.gaierror as e: h e] *)
Definition try_except_gaierror {A} (c : M A) (h : exn -> M A) : M A :=
  try_except c (fun e => if is_gaierror e then h e else raise e).

(** [c] followed by [f] however [c] ends, as the exit of a [with] block: the
    outcome is that of [c], unless [f] itself raises. *)
Definition finally {A} (c : M A) (f : M unit) : M A :=
  fun s => match c s with
           | (r, s') => match f s' with
                        | (Ok _, s'') => (r, s'')
                        | (Raise e, s'') => (Raise e, s'')
                        end
           end.

Declare Scope m_scope.
Delimit Scope m_scope with m.
Notation "x <- c1 ;; c2" := (bind c1 (fun x => c2))
  (at level 61, c1 at next level, right associativity) : m_scope.
Notation "c1 ;; c2" := (bind c1 (fun _ => c2))
  (at level 61, right associativity) : m_scope.

Definition emit (e : event) : M unit :=
  fun s => (Ok tt, {| trace := e :: trace s; files := files s |}).

Definition get_calls (p : event -> bool) : M nat := fun s => (Ok (calls p s), s).

Definition add_file (path : string) : M unit :=
  fun s => (Ok tt, {| trace := trace s; files := path :: files s |}).

Definition remove_file (path : string) : M unit :=
  fun s => (Ok tt, {| trace := trace s;
                      files := filter (fun f => negb (String.eqb f path)) (files s) |}).

(** A file written at [path]: it is there afterwards, created when it was
    not. *)
Definition write_file (path : string) : M unit :=
  fun s => (Ok tt, {| trace := trace s;
                      files := if existsb (String.eqb path) (files s)
                               then files s else path :: files s |}).

Definition file_exists (path : string) : M bool :=
  fun s => (Ok (existsb (String.eqb path) (files s)), s).

Definition print (line : string) : M unit := emit (EvPrint line).

(** [params.get('cookiefile')] of an extractor object built from [opts], when
    it is a path; the program records nothing else under that key. *)
Definition params_cookiefile (opts : pyval) : option string :=
  match opts with
  | VDict d =>
      match dict_lookup "cookiefile" d with
      | Some (VStr path) => Some path
      | _ => None
      end
  | _ => None
  end.

Local Open Scope m_scope.

Section Effects.
Variable W : env.

  (** [os.getenv(name)] *)
Definition os_getenv (name : string) : pyval :=
    match environ W name with Some v => VStr v | None => VNone end.

  (** [socket.gethostbyname(host)] *)
Definition socket_gethostbyname (host : string) : M string :=
    n <- get_calls is_gethostbyname ;;
    emit (EvGethostbyname host) ;;
    lift (sys_gethostbyname W n host).

  (** [Resolver()] with the given name servers, then [resolve(host, rdtype)] *)
Definition resolver_resolve (nameservers : list string) (host rdtype : string)
    : M (list string) :=
    n <- get_calls is_resolve ;;
    emit (EvResolve nameservers host rdtype) ;;
    lift (dns_resolve W n nameservers host rdtype).

  (** [tempfile.NamedTemporaryFile(mode='w', suffix='.txt', delete=False)]:
      on success the file exists. *)
Definition NamedTemporaryFile : M string :=
    n <- get_calls is_tmp_create ;;
    emit EvTmpCreate ;;
    path <- lift (tmp_create W n) ;;
    add_file path ;;
    ret path.

  (** [f.write(content); f.flush(); f.close()] *)
Definition write_flush_close (path content : string) : M unit :=
    n <- get_calls is_tmp_write ;;
    emit (EvTmpWrite path content) ;;
    match tmp_write W n path content with
    | Some e => raise e
    | None => ret tt
    end.

  (** [os.unlink(path)] *)
Definition os_unlink (path : pyval) : M unit :=
    n <- get_calls is_unlink ;;
    emit (EvUnlink path) ;;
    match path with
    | VStr p =>
        there <- file_exists p ;;
        if there then
          match unlink_fault W n p with
          | Some e => raise e
          | None => remove_file p
          end
        else raise (PyExc (OtherError "FileNotFoundError")
                      ("[Errno 2] No such file or directory: '" ++ p ++ "'"))
    | _ => raise (PyExc TypeError
                    ("expected str, bytes or os.PathLike object, not "
                     ++ type_name path))
    end.

  (** Leaving the [with] block: [YoutubeDL.__exit__] closes the extractor
      object, which saves its cookie jar to the file its option [cookiefile]
      names, when the option is set.  The file is on disk afterwards, also
      when it had been unlinked inside the block.  The save is taken to
      succeed: the path is that of the temporary file the program has just
      created and written. *)
Definition YoutubeDL_exit (opts : pyval) : M unit :=
    match params_cookiefile opts with
    | Some path => emit (EvSaveCookies path) ;; write_file path
    | None => ret tt
    end.

  (** [with YoutubeDL(opts) as ydl: body]: the constructor may raise, and then
      the block is not entered; once it is entered, the exit step runs
      however the body is left, by falling through, by [return] or by an
      exception, and the outcome of the body stands. *)
Definition with_YoutubeDL {A} (opts : pyval) (body : M A) : M A :=
    n <- get_calls is_youtubedl ;;
    emit (EvYoutubeDL opts) ;;
    match ydl_init W n opts with
    | Some e => raise e
    | None => finally body (YoutubeDL_exit opts)
    end.

  (** [ydl.extract_info(query, download=False)] *)
Definition extract_info (opts : pyval) (query : string) : M pyval :=
    n <- get_calls is_extract_info ;;
    emit (EvExtractInfo opts query) ;;
    lift (ydl_extract_info W n opts query).

  (** [requests.get(url, timeout=t).status_code] *)
Definition requests_get (url : string) (timeout : Z) : M Z :=
    n <- get_calls is_http_get ;;
    emit (EvHttpGet url timeout) ;;
    lift (http_get W n url timeout).
End Effects.

(* ===================================================================== *)
(** ** The program *)
(* ===================================================================== *)

(** [get_troubleshooting_recommendations(dns_works, http_works, ytdlp_works)]:
    the local list [recommendations] is threaded through the three [if]s. *)
Definition get_troubleshooting_recommendations
  (dns_works http_works ytdlp_works : bool) : list string :=
  let recommendations : list string := [] in
  let recommendations :=
    if negb dns_works then
      (recommendations ++
        [ "Check your internet connection";
          "Try using Google DNS (8.8.8.8, 8.8.4.4) or Cloudflare DNS (1.1.1.1)";
          "Flush your DNS cache";
          "Check if you're behind a firewall or proxy that blocks YouTube" ])%list
    else recommendations in
  let recommendations :=
    if negb http_works then
      (recommendations ++
        [ "Check if YouTube is accessible from your location";
          "Try using a VPN if YouTube is blocked";
          "Check proxy settings if you're in a corporate environment" ])%list
    else recommendations in
  let recommendations :=
    if negb ytdlp_works then
      (recommendations ++
        [ "Update yt-dlp to the latest version";
          "Check if your IP is rate-limited by YouTube";
          "Try using cookies if you have a YouTube account" ])%list
    else recommendations in
  recommendations.

(** *** The format selector: the body of the [try] of [extract_video_info]
    after the extractor has answered.  Each local variable of the source is a
    definition of the same name. *)

Local Open Scope res_scope.

(** The [for thumb in thumbnails] loop, on the pair
    [(best_thumbnail, max_width)]. *)
Fixpoint thumbnail_loop (thumbnails : list pyval) (best_thumbnail max_width : pyval)
  : result (pyval * pyval) :=
  match thumbnails with
  | [] => Ok (best_thumbnail, max_width)
  | thumb :: rest =>
      width <- py_get thumb "width" (VInt 0) ;;
      bigger <- py_gt width max_width ;;
      if bigger : bool then
        url <- py_get thumb "url" VNone ;;
        thumbnail_loop rest url width
      else thumbnail_loop rest best_thumbnail max_width
  end.

(** [best_thumbnail] after the loop started from [None] and [0]. *)
Definition best_thumbnail (thumbnails : pyval) : result pyval :=
  thumbs <- py_iter thumbnails ;;
  r <- thumbnail_loop thumbs VNone (VInt 0) ;;
  Ok (fst r).

(** [fmt.get('acodec') != 'none' and fmt.get('vcodec') != 'none'] *)
Definition is_audio_video (fmt : pyval) : result bool :=
  acodec <- py_get fmt "acodec" VNone ;;
  if py_ne acodec (VStr "none") then
    vcodec <- py_get fmt "vcodec" VNone ;;
    Ok (py_ne vcodec (VStr "none"))
  else Ok false.

(** The dictionary display of the comprehension. *)
Definition audio_video_entry (fmt : pyval) : result pyval :=
  format_id <- py_getitem fmt "format_id" ;;
  resolution <- py_get fmt "resolution" (VStr "N/A") ;;
  filesize <- py_get fmt "filesize" VNone ;;
  filesize_approx <- py_get fmt "filesize_approx" VNone ;;
  url <- py_getitem fmt "url" ;;
  Ok (VDict [ ("format_id", format_id);
              ("resolution", resolution);
              ("filesize", py_or filesize filesize_approx);
              ("url", url) ]).

(** The list comprehension, element by element. *)
Fixpoint audio_video_loop (formats : list pyval) : result (list pyval) :=
  match formats with
  | [] => Ok []
  | fmt :: rest =>
      keep <- is_audio_video fmt ;;
      if keep : bool then
        entry <- audio_video_entry fmt ;;
        tl <- audio_video_loop rest ;;
        Ok (entry :: tl)
      else audio_video_loop rest
  end.

Definition audio_video_formats (formats : pyval) : result pyval :=
  fmts <- py_iter formats ;;
  l <- audio_video_loop fmts ;;
  Ok (VList l).

(** [fmt.get('acodec') != 'none' and fmt.get('vcodec') == 'none'
     and fmt.get('ext') == 'm4a'] *)
Definition is_m4a_audio (fmt : pyval) : result bool :=
  acodec <- py_get fmt "acodec" VNone ;;
  if py_ne acodec (VStr "none") then
    vcodec <- py_get fmt "vcodec" VNone ;;
    if py_eq vcodec (VStr "none") then
      ext <- py_get fmt "ext" VNone ;;
      Ok (py_eq ext (VStr "m4a"))
    else Ok false
  else Ok false.

(** [key=lambda x: x.get('abr', 0)] *)
Definition abr_key (x : pyval) : result pyval := py_get x "abr" (VInt 0).

(** [max(generator, key=abr_key, default=None)]: the generator is consumed
    lazily; the running maximum is replaced only by a strictly greater key. *)
Fixpoint max_loop (formats : list pyval) (current : option (pyval * pyval))
  : result (option (pyval * pyval)) :=
  match formats with
  | [] => Ok current
  | fmt :: rest =>
      candidate <- is_m4a_audio fmt ;;
      if candidate : bool then
        key <- abr_key fmt ;;
        match current with
        | None => max_loop rest (Some (fmt, key))
        | Some (maxitem, maxkey) =>
            bigger <- py_gt key maxkey ;;
            if bigger : bool then max_loop rest (Some (fmt, key))
            else max_loop rest current
        end
      else max_loop rest current
  end.

Definition highest_audio (formats : pyval) : result pyval :=
  fmts <- py_iter formats ;;
  r <- max_loop fmts None ;;
  Ok (match r with Some (maxitem, _) => maxitem | None => VNone end).

(** [{...} if highest_audio else None] *)
Definition highest_audio_info (highest_audio : pyval) : result pyval :=
  if truthy highest_audio then
    format_id <- py_getitem highest_audio "format_id" ;;
    bitrate <- py_get highest_audio "abr" (VStr "Unknown") ;;
    filesize <- py_get highest_audio "filesize" VNone ;;
    filesize_approx <- py_get highest_audio "filesize_approx" VNone ;;
    url <- py_getitem highest_audio "url" ;;
    Ok (VDict [ ("format_id", format_id);
                ("bitrate", bitrate);
                ("filesize", py_or filesize filesize_approx);
                ("url", url) ])
  else Ok VNone.

(** From [title = info.get(...)] to the [result] dictionary. *)
Definition video_info (info : pyval) : result pyval :=
  title <- py_get info "title" (VStr "Unknown Title") ;;
  formats <- py_get info "formats" (VList []) ;;
  thumbnails <- py_get info "thumbnails" (VList []) ;;
  best <- best_thumbnail thumbnails ;;
  default_thumbnail <- py_get info "thumbnail" VNone ;;
  av <- audio_video_formats formats ;;
  ha <- highest_audio formats ;;
  ha_info <- highest_audio_info ha ;;
  Ok (VDict [ ("title", title);
              ("formats", av);
              ("highest_audio", ha_info);
              ("thumbnail", py_or best default_thumbnail) ]).

Local Close Scope res_scope.

Section Program.
Variable W : env.

  (** [YOUTUBE_COOKIES = os.getenv("YOUTUBE_COOKIES", "")] *)
Definition YOUTUBE_COOKIES : string :=
    match environ W "YOUTUBE_COOKIES" with Some v => v | None => "" end.

Definition test_dns_resolution : M (bool * string) :=
    try_except_gaierror
      (socket_gethostbyname W "www.youtube.com" ;;
       ret (true, "DNS resolution working"))
      (fun e => ret (false, "DNS resolution failed: " ++ exn_str e)).

Definition try_alternative_dns : M (bool * string) :=
    try_except
      (answer <- resolver_resolve W ["8.8.8.8"; "8.8.4.4"] "www.youtube.com" "A" ;;
       first <- lift match answer with
                     | x :: _ => Ok x
                     | [] => Raise (PyExc IndexError "list index out of range")
                     end ;;
       ret (true, "Alternative DNS works: " ++ first))
      (fun e => ret (false, "Alternative DNS failed: " ++ exn_str e)).

Definition create_cookie_file : M pyval :=
    if negb (truthy (VStr YOUTUBE_COOKIES)) then ret VNone
    else
      try_except
        (name <- NamedTemporaryFile W ;;
         write_flush_close W name YOUTUBE_COOKIES ;;
         ret (VStr name))
        (fun e =>
           print ("Warning: Failed to create cookie file: " ++ exn_str e) ;;
           ret VNone).

Definition user_agent : string :=
    "Mozilla/5.0 (Windows NT 10.0; Win64; x64) AppleWebKit/537.36 (KHTML, like Gecko) Chrome/120.0.0.0 Safari/537.36".

Definition get_ydl_opts : M (dict pyval) :=
    r <- test_dns_resolution ;;
    let '(dns_works, dns_msg) := r in
    (if negb dns_works then
       print ("DNS Issue: " ++ dns_msg) ;;
       alt <- try_alternative_dns ;;
       let '(alt_dns_works, alt_dns_msg) := alt in
       print ("Alternative DNS: " ++ alt_dns_msg)
     else ret tt) ;;
    let base_opts :=
      [ ("quiet", VBool true);
        ("user_agent", VStr user_agent);
        ("socket_timeout", VInt 30);
        ("retries", VInt 5);
        ("fragment_retries", VInt 5);
        ("extractor_retries", VInt 3);
        ("file_access_retries", VInt 3);
        ("sleep_interval", VInt 1);
        ("max_sleep_interval", VInt 5);
        ("force_ipv4", VBool true);
        ("source_address", VStr "0.0.0.0") ] in
    let proxy := py_or (os_getenv W "HTTP_PROXY") (os_getenv W "HTTPS_PROXY") in
    let base_opts :=
      if truthy proxy then dict_set "proxy" proxy base_opts else base_opts in
    cookie_file <- create_cookie_file ;;
    let base_opts :=
      if truthy cookie_file then dict_set "cookiefile" cookie_file base_opts
      else base_opts in
    ret base_opts.

Definition cleanup_cookie_file (ydl_opts : pyval) : M unit :=
    has <- lift (py_contains "cookiefile" ydl_opts) ;;
    if has : bool then
      try_except
        (path <- lift (py_getitem ydl_opts "cookiefile") ;;
         os_unlink W path)
        (fun _ => ret tt)
    else ret tt.

  (** [search_results and 'entries' in search_results
       and search_results['entries']], as a truth value *)
Definition has_entries (search_results : pyval) : result bool :=
    if truthy search_results then
      rbind (py_contains "entries" search_results) (fun present =>
      if present : bool then
        rbind (py_getitem search_results "entries") (fun entries =>
        Ok (truthy entries))
      else Ok false)
    else Ok false.

  (** [first_entry and 'url' in first_entry], as a truth value *)
Definition has_url (first_entry : pyval) : result bool :=
    if truthy first_entry then py_contains "url" first_entry else Ok false.

  (** The [if search_results and ...] statement of the loop body: [Some v]
      when it executes [return v], [None] when it falls through. *)
Definition first_entry_url (ydl_opts search_results : pyval)
    : M (option pyval) :=
    found <- lift (has_entries search_results) ;;
    if found : bool then
      entries <- lift (py_getitem search_results "entries") ;;
      first_entry <- lift (py_getitem0 entries) ;;
      usable <- lift (has_url first_entry) ;;
      if usable : bool then
        result <- lift (py_getitem first_entry "url") ;;
        cleanup_cookie_file ydl_opts ;;
        ret (Some result)
      else ret None
    else ret None.

  (** One turn of the [for search_query in search_queries] loop: [Some v] when
      the body executes [return v], [None] when the loop goes on. *)
Definition search_attempt (ydl_opts : pyval) (search_query : string)
    : M (option pyval) :=
    try_except
      (with_YoutubeDL W ydl_opts
         (print ("Searching with query: " ++ search_query) ;;
          search_results <- extract_info W ydl_opts search_query ;;
          first_entry_url ydl_opts search_results))
      (fun e =>
         print ("Search attempt failed with " ++ search_query ++ ": " ++ exn_str e) ;;
         ret None).

Fixpoint search_loop (ydl_opts : pyval) (search_queries : list string)
    : M (option pyval) :=
    match search_queries with
    | [] => ret None
    | search_query :: rest =>
        r <- search_attempt ydl_opts search_query ;;
        match r with
        | Some v => ret (Some v)
        | None => search_loop ydl_opts rest
        end
    end.

Definition search_queries (title : string) : list string :=
    [ "ytsearch1:" ++ title; "ytsearch5:" ++ title ].

Definition search_video_by_title (title : string) : M pyval :=
    r <- test_dns_resolution ;;
    let '(dns_works, dns_msg) := r in
    if negb dns_works then
      raise (HTTPException 503
               ("DNS resolution failed for YouTube: " ++ dns_msg
                ++ ". Please check your network connection or DNS settings."))
    else
      base <- get_ydl_opts ;;
      let ydl_opts :=
        VDict (dict_update base [ ("extract_flat", VBool true);
                                  ("playlist_items", VStr "1");
                                  ("no_warnings", VBool true) ]) in
      r <- search_loop ydl_opts (search_queries title) ;;
      match r with
      | Some v => ret v
      | None =>
          cleanup_cookie_file ydl_opts ;;
          raise (HTTPException 404
                   ("No videos found for '" ++ title
                    ++ "'. This might be due to network issues or the video not existing."))
      end.

Definition works_message (works : bool) (message : string) : pyval :=
    VDict [ ("works", VBool works); ("message", VStr message) ].

Definition test_youtube_access : M pyval :=
    try_except
      (r <- test_dns_resolution ;;
       let '(dns_works, dns_msg) := r in
       h <- try_except
              (status_code <- requests_get W "https://www.youtube.com" 10 ;;
               ret (Z.eqb status_code 200,
                    "HTTP connection successful: " ++ str_of_Z status_code))
              (fun e => ret (false, "HTTP connection failed: " ++ exn_str e)) ;;
       let '(http_works, http_msg) := h in
       y <- try_except
              (base <- get_ydl_opts ;;
               let ydl_opts := VDict base in
               with_YoutubeDL W ydl_opts
                 (let test_url := "https://www.youtube.com/watch?v=dQw4w9WgXcQ" in
                  info <- extract_info W ydl_opts test_url ;;
                  ret (match info with VNone => false | _ => true end,
                       "yt-dlp working correctly")))
              (fun e => ret (false, "yt-dlp failed: " ++ exn_str e)) ;;
       let '(ytdlp_works, ytdlp_msg) := y in
       ret (VDict
              [ ("dns_resolution", works_message dns_works dns_msg);
                ("http_connection", works_message http_works http_msg);
                ("ytdlp_functionality", works_message ytdlp_works ytdlp_msg);
                ("recommendations",
                  VList (map VStr (get_troubleshooting_recommendations
                                     dns_works http_works ytdlp_works))) ]))
      (fun e =>
         ret (VDict [ ("error", VStr (exn_str e)); ("status", VStr "failed") ])).

Definition extract_video_info (url : string) : M pyval :=
    r <- test_dns_resolution ;;
    let '(dns_works, dns_msg) := r in
    if negb dns_works then
      raise (HTTPException 503 ("DNS resolution failed: " ++ dns_msg))
    else
      base <- get_ydl_opts ;;
      let ydl_opts := VDict (dict_update base [ ("extract_flat", VBool false) ]) in
      with_YoutubeDL W ydl_opts
        (try_except
           (info <- extract_info W ydl_opts url ;;
            result <- lift (video_info info) ;;
            cleanup_cookie_file ydl_opts ;;
            ret result)
           (fun e =>
              cleanup_cookie_file ydl_opts ;;
              raise (HTTPException 500
                       ("Error extracting video info: " ++ exn_str e)))).
End Program.

(* ===================================================================== *)
(** ** Vocabulary of the statements *)
(* ===================================================================== *)

(** Field access on a descriptor, total. *)
Definition lookup (v : pyval) (k : string) : option pyval :=
  match v with VDict d => dict_lookup k d | _ => None end.

Definition is_dict (v : pyval) : bool :=
  match v with VDict _ => true | _ => false end.

Definition field_or (v : pyval) (k : string) (dflt : pyval) : pyval :=
  match lookup v k with Some x => x | None => dflt end.

(** The field is absent or holds anything but the string ["none"]. *)
Definition not_none (v : pyval) (k : string) : bool :=
  match lookup v k with
  | Some (VStr s) => negb (String.eqb s "none")
  | _ => true
  end.

(** The field holds exactly the string [s]. *)
Definition holds_str (v : pyval) (k s : string) : bool :=
  match lookup v k with
  | Some (VStr t) => String.eqb t s
  | _ => false
  end.

(** The field is there and is not the string ["none"]. *)
Definition present_codec (v : pyval) (k : string) : bool :=
  match lookup v k with
  | Some (VStr s) => negb (String.eqb s "none")
  | Some _ => true
  | None => false
  end.

(** Numeric value of a field, with a default for a missing field. *)
Definition num_field (v : pyval) (k : string) (dflt : Q) : option Q :=
  match lookup v k with
  | Some x => as_num x
  | None => Some dflt
  end.

(** A descriptor whose field [k], when there, is a number. *)
Definition numeric_or_missing (v : pyval) (k : string) : bool :=
  is_dict v && match num_field v k 0 with Some _ => true | None => false end.

(** The number compared for a descriptor: the field, [0] when missing. *)
Definition num_key (k : string) (v : pyval) : Q :=
  match num_field v k 0 with Some q => q | None => 0%Q end.

(** *** Combined formats *)

(** What the comprehension keeps. *)
Definition selected_av (fmt : pyval) : bool :=
  not_none fmt "acodec" && not_none fmt "vcodec".

(** What the comprehension builds for a kept descriptor. *)
Definition av_entry (fmt : pyval) : pyval :=
  VDict [ ("format_id", field_or fmt "format_id" VNone);
          ("resolution", field_or fmt "resolution" (VStr "N/A"));
          ("filesize", py_or (field_or fmt "filesize" VNone)
                             (field_or fmt "filesize_approx" VNone));
          ("url", field_or fmt "url" VNone) ].

Definition has_id_and_url (fmt : pyval) : bool :=
  match lookup fmt "format_id", lookup fmt "url" with
  | Some _, Some _ => true
  | _, _ => false
  end.

(** The specification's reading: both codecs present, neither absent nor
    marked ["none"]; the file size is the exact one, else the approximate one,
    else null. *)
Definition spec_both_codecs_present (fmt : pyval) : bool :=
  present_codec fmt "acodec" && present_codec fmt "vcodec".

Definition spec_filesize (fmt : pyval) : pyval :=
  match lookup fmt "filesize" with
  | Some VNone | None => field_or fmt "filesize_approx" VNone
  | Some v => v
  end.

Definition spec_combined_entry (fmt : pyval) : pyval :=
  VDict [ ("format_id", field_or fmt "format_id" VNone);
          ("resolution", field_or fmt "resolution" (VStr "N/A"));
          ("filesize", spec_filesize fmt);
          ("url", field_or fmt "url" VNone) ].

Definition spec_combined_formats (formats : list pyval) : list pyval :=
  map spec_combined_entry (filter spec_both_codecs_present formats).

(** *** Best audio *)

(** What the generator passed to [max] keeps. *)
Definition audio_candidate (fmt : pyval) : bool :=
  not_none fmt "acodec" && holds_str fmt "vcodec" "none" && holds_str fmt "ext" "m4a".

(** A descriptor with the key [max] compares it by. *)
Definition with_abr (x : pyval) : pyval * pyval := (x, field_or x "abr" (VInt 0)).

(** The specification's reading: an audio codec present, the video codec
    ["none"], the extension ["m4a"]. *)
Definition spec_audio_candidate (fmt : pyval) : bool :=
  present_codec fmt "acodec" && holds_str fmt "vcodec" "none"
  && holds_str fmt "ext" "m4a".

(** First element of greatest key, [None] on the empty list. *)
Fixpoint first_max {A} (key : A -> Q) (l : list A) (best : option A) : option A :=
  match l with
  | [] => best
  | x :: r =>
      match best with
      | None => first_max key r (Some x)
      | Some b => if Qgt_bool (key x) (key b) then first_max key r (Some x)
                  else first_max key r best
      end
  end.

Definition spec_best_audio (formats : list pyval) : pyval :=
  match first_max (num_key "abr") (filter spec_audio_candidate formats) None with
  | Some x => x
  | None => VNone
  end.

(** *** Thumbnail *)

(** The specification's reading: the entry of greatest declared width, a
    missing width counting as 0, gives its URL; the default thumbnail is used
    when that entry gives none. *)
Definition spec_thumbnail (thumbnails : list pyval) (default_thumbnail : pyval)
  : pyval :=
  match first_max (num_key "width") thumbnails None with
  | Some t => py_or (field_or t "url" VNone) default_thumbnail
  | None => default_thumbnail
  end.

(** *** Cascading search *)

(** The specification's reading of a usable response: a non-empty list of
    entries whose first entry carries a [url]. *)
Definition usable_url (response : pyval) : option pyval :=
  match lookup response "entries" with
  | Some (VList (first_entry :: _)) => lookup first_entry "url"
  | _ => None
  end.

(** The decisions of the loop body on a response, without its effects. *)
Definition first_entry_choice (search_results : pyval) : result (option pyval) :=
  rbind (has_entries search_results) (fun found =>
  if found : bool then
    rbind (py_getitem search_results "entries") (fun entries =>
    rbind (py_getitem0 entries) (fun first_entry =>
    rbind (has_url first_entry) (fun usable =>
    if usable : bool then
      rbind (py_getitem first_entry "url") (fun result => Ok (Some result))
    else Ok None)))
  else Ok None).

(** What one attempt gets from the extractor, constructor included, when the
    constructor has been called [ny] times and [extract_info] [ne] times
    before; with the number of [extract_info] calls after it. *)
Definition attempt_response (W : env) (ny ne : nat) (opts : pyval) (query : string)
  : result pyval * nat :=
  match ydl_init W ny opts with
  | Some e => (Raise e, ne)
  | None => (ydl_extract_info W ne opts query, S ne)
  end.

Definition usable (r : result pyval) : option pyval :=
  match r with Ok response => usable_url response | Raise _ => None end.

(** The query an attempt sends: none when the constructor raises. *)
Definition sent (W : env) (ny : nat) (opts : pyval) (query : string) : list string :=
  match ydl_init W ny opts with Some _ => [] | None => [query] end.

Definition not_found (title : string) : exn :=
  HTTPException 404
    ("No videos found for '" ++ title
     ++ "'. This might be due to network issues or the video not existing.").

(** The specification's cascade over the answers to the two attempts: the
    first usable one decides, [NotFound] when neither is usable. *)
Definition cascade_result (title : string) (r1 r2 : result pyval) : result pyval :=
  match usable r1 with
  | Some url => Ok url
  | None =>
      match usable r2 with
      | Some url => Ok url
      | None => Raise (not_found title)
      end
  end.

(** The options of the search: the base options and the three search keys. *)
Definition search_opts (base : dict pyval) : pyval :=
  VDict (dict_update base [ ("extract_flat", VBool true);
                            ("playlist_items", VStr "1");
                            ("no_warnings", VBool true) ]).

(** The queries sent to the extractor, in the order they were sent. *)
Definition query_of (e : event) : option string :=
  match e with EvExtractInfo _ q => Some q | _ => None end.

Fixpoint queries (t : list event) : list string :=
  match t with
  | [] => []
  | e :: r => match query_of e with
              | Some q => q :: queries r
              | None => queries r
              end
  end.

Definition extractor_queries (s : state) : list string := rev (queries (trace s)).

(** The state after one more event. *)
Definition emitted (e : event) (s : state) : state :=
  {| trace := e :: trace s; files := files s |}.

(** The state after the exit step of an extractor object built from [opts]. *)
Definition exited (opts : pyval) (s : state) : state :=
  snd (YoutubeDL_exit opts s).

(** Two states between which the extractor was not used. *)
Definition same_extractor (s s' : state) : Prop :=
  calls is_youtubedl s' = calls is_youtubedl s
  /\ calls is_extract_info s' = calls is_extract_info s
  /\ queries (trace s') = queries (trace s).

(** The paths handed to [os.unlink], most recent first. *)
Definition unlinked (s : state) : list event := filter is_unlink (trace s).

(** Two states between which nothing was unlinked and no file disappeared. *)
Definition nothing_deleted (s s' : state) : Prop :=
  unlinked s' = unlinked s /\ incl (files s) (files s').

(** The later trace has the earlier one as a suffix. *)
Definition trace_extends (s s' : state) : Prop :=
  exists delta, trace s' = (delta ++ trace s)%list.

(** A computation whose every run relates the state before to the state
    after by [R]. *)
Definition frames {A} (R : state -> state -> Prop) (c : M A) : Prop :=
  forall s, R s (snd (c s)).

(** *** Recommendations *)

Definition dns_recommendations : list string :=
  [ "Check your internet connection";
    "Try using Google DNS (8.8.8.8, 8.8.4.4) or Cloudflare DNS (1.1.1.1)";
    "Flush your DNS cache";
    "Check if you're behind a firewall or proxy that blocks YouTube" ].

Definition http_recommendations : list string :=
  [ "Check if YouTube is accessible from your location";
    "Try using a VPN if YouTube is blocked";
    "Check proxy settings if you're in a corporate environment" ].

Definition extractor_recommendations : list string :=
  [ "Update yt-dlp to the latest version";
    "Check if your IP is rate-limited by YouTube";
    "Try using cookies if you have a YouTube account" ].

Definition when_failing (works : bool) (l : list string) : list string :=
  if works then [] else l.

(* ===================================================================== *)
(** ** Example worlds and inputs *)
(* ===================================================================== *)

(** A world in which everything works and nothing is configured. *)
Definition quiet_world : env := {|
  environ := fun _ => None;
  sys_gethostbyname := fun _ _ => Ok "142.250.74.78";
  dns_resolve := fun _ _ _ _ => Ok ["142.250.74.78"];
  tmp_create := fun _ => Ok "/tmp/tmpq1w2e3.txt";
  tmp_write := fun _ _ _ => None;
  unlink_fault := fun _ _ => None;
  ydl_init := fun _ _ => None;
  ydl_extract_info := fun _ _ _ => Ok VNone;
  http_get := fun _ _ _ => Ok 200%Z
|}.

(** Both resolvers fail. *)
Definition no_dns_world : env := {|
  environ := environ quiet_world;
  sys_gethostbyname :=
    fun _ _ => Raise (PyExc GaiError "[Errno -2] Name or service not known");
  dns_resolve :=
    fun _ _ _ _ => Raise (PyExc (OtherError "LifetimeTimeout")
                            "The resolution lifetime expired");
  tmp_create := tmp_create quiet_world;
  tmp_write := tmp_write quiet_world;
  unlink_fault := unlink_fault quiet_world;
  ydl_init := ydl_init quiet_world;
  ydl_extract_info := ydl_extract_info quiet_world;
  http_get := http_get quiet_world
|}.

(** A combined stream and two audio-only streams, as the extractor lists them. *)
Definition fmt_combined : pyval :=
  VDict [ ("format_id", VStr "18"); ("ext", VStr "mp4");
          ("acodec", VStr "aac"); ("vcodec", VStr "h264");
          ("resolution", VStr "640x360"); ("filesize", VInt 9532110);
          ("url", VStr "https://x/18") ].

Definition fmt_audio_128 : pyval :=
  VDict [ ("format_id", VStr "140"); ("ext", VStr "m4a");
          ("acodec", VStr "aac"); ("vcodec", VStr "none"); ("abr", VInt 128);
          ("filesize_approx", VInt 3400000); ("url", VStr "https://x/140") ].

Definition fmt_audio_256 : pyval :=
  VDict [ ("format_id", VStr "141"); ("ext", VStr "m4a");
          ("acodec", VStr "aac"); ("vcodec", VStr "none"); ("abr", VInt 256);
          ("url", VStr "https://x/141") ].

Definition three_formats : list pyval :=
  [ fmt_combined; fmt_audio_128; fmt_audio_256 ].

(** A video stream whose descriptor has no [acodec] field at all. *)
Definition fmt_no_acodec : pyval :=
  VDict [ ("format_id", VStr "22"); ("ext", VStr "mp4");
          ("vcodec", VStr "avc1.64001F"); ("resolution", VStr "1280x720");
          ("url", VStr "https://x/22") ].

(** An audio-only stream whose descriptor has no [acodec] field at all. *)
Definition fmt_m4a_no_acodec : pyval :=
  VDict [ ("format_id", VStr "139"); ("ext", VStr "m4a");
          ("vcodec", VStr "none"); ("abr", VInt 48);
          ("url", VStr "https://x/139") ].

(** An audio-only stream without bitrate. *)
Definition fmt_m4a_no_abr : pyval :=
  VDict [ ("format_id", VStr "140-drc"); ("ext", VStr "m4a");
          ("acodec", VStr "mp4a.40.2"); ("vcodec", VStr "none");
          ("url", VStr "https://x/140-drc") ].

Definition info_three_formats : pyval :=
  VDict [ ("title", VStr "lofi hip hop radio");
          ("formats", VList three_formats) ].

Definition info_no_abr : pyval :=
  VDict [ ("title", VStr "lofi hip hop radio");
          ("formats", VList [ fmt_combined; fmt_m4a_no_abr ]) ].

(** Thumbnails: one without width, and a list with widths. *)
Definition thumb_no_width : pyval := VDict [ ("url", VStr "https://i/a.jpg") ].

Definition thumbs_with_widths : list pyval :=
  [ VDict [ ("url", VStr "https://i/120.jpg"); ("width", VInt 120) ];
    VDict [ ("url", VStr "https://i/none.jpg") ];
    VDict [ ("url", VStr "https://i/1280.jpg"); ("width", VInt 1280) ];
    VDict [ ("url", VStr "https://i/1280b.jpg"); ("width", VInt 1280) ] ].

Definition info_thumb_no_width : pyval :=
  VDict [ ("title", VStr "lofi hip hop radio");
          ("thumbnails", VList [ thumb_no_width ]);
          ("thumbnail", VStr "https://i/default.jpg") ].

(** The narrow search fails, the broad search answers with one entry. *)
Definition entry_a : pyval :=
  VDict [ ("id", VStr "a"); ("url", VStr "https://x/a") ].


(** The narrow search answers with an entry whose [url] is null. *)
Definition null_url_world : env := {|
  environ := environ quiet_world;
  sys_gethostbyname := sys_gethostbyname quiet_world;
  dns_resolve := dns_resolve quiet_world;
  tmp_create := tmp_create quiet_world;
  tmp_write := tmp_write quiet_world;
  unlink_fault := unlink_fault quiet_world;
  ydl_init := ydl_init quiet_world;
  ydl_extract_info :=
    fun _ _ _ => Ok (VDict [ ("_type", VStr "playlist");
                             ("entries", VList [ VDict [ ("id", VStr "a");
                                                         ("url", VNone) ] ]) ]);
  http_get := http_get quiet_world
|}.

(** A cookie blob is configured. *)
Definition cookie_world : env := {|
  environ := fun name =>
    if String.eqb name "YOUTUBE_COOKIES" then Some "# Netscape HTTP Cookie File"
    else None;
  sys_gethostbyname := sys_gethostbyname quiet_world;
  dns_resolve := dns_resolve quiet_world;
  tmp_create := tmp_create quiet_world;
  tmp_write := tmp_write quiet_world;
  unlink_fault := unlink_fault quiet_world;
  ydl_init := ydl_init quiet_world;
  ydl_extract_info :=
    fun _ _ _ => Ok (VDict [ ("id", VStr "dQw4w9WgXcQ");
                             ("title", VStr "Never Gonna Give You Up") ]);
  http_get := http_get quiet_world
|}.

(** A cookie blob is configured and the extractor object cannot be built. *)
Definition broken_extractor_world : env := {|
  environ := environ cookie_world;
  sys_gethostbyname := sys_gethostbyname quiet_world;
  dns_resolve := dns_resolve quiet_world;
  tmp_create := tmp_create quiet_world;
  tmp_write := tmp_write quiet_world;
  unlink_fault := unlink_fault quiet_world;
  ydl_init := fun _ _ => Some (PyExc (OtherError "CookieLoadError")
                                 "Cookies file must be Netscape formatted");
  ydl_extract_info := ydl_extract_info quiet_world;
  http_get := http_get quiet_world
|}.

(** A cookie blob is configured and the disk is full. *)
Definition full_disk_world : env := {|
  environ := environ cookie_world;
  sys_gethostbyname := sys_gethostbyname quiet_world;
  dns_resolve := dns_resolve quiet_world;
  tmp_create := tmp_create quiet_world;
  tmp_write := fun _ _ _ => Some (PyExc OSError "[Errno 28] No space left on device");
  unlink_fault := unlink_fault quiet_world;
  ydl_init := ydl_init quiet_world;
  ydl_extract_info := ydl_extract_info quiet_world;
  http_get := http_get quiet_world
|}.

(** [HTTP_PROXY] is set but empty, [HTTPS_PROXY] names a proxy. *)
Definition proxy_world : env := {|
  environ := fun name =>
    if String.eqb name "HTTP_PROXY" then Some ""
    else if String.eqb name "HTTPS_PROXY" then Some "http://10.0.0.1:3128"
    else None;
  sys_gethostbyname := sys_gethostbyname quiet_world;
  dns_resolve := dns_resolve quiet_world;
  tmp_create := tmp_create quiet_world;
  tmp_write := tmp_write quiet_world;
  unlink_fault := unlink_fault quiet_world;
  ydl_init := ydl_init quiet_world;
  ydl_extract_info := ydl_extract_info quiet_world;
  http_get := http_get quiet_world
|}.

(** The cookie file cannot be deleted. *)
Definition sticky_file_world : env := {|
  environ := environ cookie_world;
  sys_gethostbyname := sys_gethostbyname quiet_world;
  dns_resolve := dns_resolve quiet_world;
  tmp_create := tmp_create quiet_world;
  tmp_write := tmp_write quiet_world;
  unlink_fault :=
    fun _ _ => Some (PyExc (OtherError "PermissionError")
                       "[Errno 13] Permission denied");
  ydl_init := ydl_init quiet_world;
  ydl_extract_info := ydl_extract_info cookie_world;
  http_get := http_get quiet_world
|}.

(** No DNS, no HTTP, but an extractor that answers. *)
Definition offline_world : env := {|
  environ := environ quiet_world;
  sys_gethostbyname := sys_gethostbyname no_dns_world;
  dns_resolve := dns_resolve no_dns_world;
  tmp_create := tmp_create quiet_world;
  tmp_write := tmp_write quiet_world;
  unlink_fault := unlink_fault quiet_world;
  ydl_init := ydl_init quiet_world;
  ydl_extract_info := ydl_extract_info cookie_world;
  http_get := fun _ _ _ => Ok 403%Z
|}.

(** The primary resolver fails in an unexpected way. *)
Definition odd_resolver_world : env := {|
  environ := environ quiet_world;
  sys_gethostbyname :=
    fun _ _ => Raise (PyExc (OtherError "UnicodeError")
                        "encoding with 'idna' codec failed");
  dns_resolve := dns_resolve quiet_world;
  tmp_create := tmp_create quiet_world;
  tmp_write := tmp_write quiet_world;
  unlink_fault := unlink_fault quiet_world;
  ydl_init := ydl_init quiet_world;
  ydl_extract_info := ydl_extract_info quiet_world;
  http_get := http_get quiet_world
|}.

(* ===================================================================== *)
(** ** The health endpoint and further vocabulary *)
(* ===================================================================== *)

(** [health_check()]: the two probes, one after the other, and the time of
    the answer.
    [time.time()] is read from a clock of the outside, indexed by the number
    of events so far. *)
Definition health_check (W : env) (clock : nat -> Q) : M pyval :=
  r <- test_dns_resolution W ;;
  let '(dns_works, dns_msg) := r in
  alt <- try_alternative_dns W ;;
  let '(alt_dns_works, alt_dns_msg) := alt in
  now <- (fun s => (Ok (clock (length (trace s))), s)) ;;
  ret (VDict [ ("status", VStr (if dns_works : bool then "healthy" else "unhealthy"));
               ("dns_resolution", VStr dns_msg);
               ("alternative_dns", VStr alt_dns_msg);
               ("timestamp", VFloat now) ]).

(** The options every configuration starts from. *)
Definition baseline_opts : dict pyval :=
  [ ("quiet", VBool true);
    ("user_agent", VStr user_agent);
    ("socket_timeout", VInt 30);
    ("retries", VInt 5);
    ("fragment_retries", VInt 5);
    ("extractor_retries", VInt 3);
    ("file_access_retries", VInt 3);
    ("sleep_interval", VInt 1);
    ("max_sleep_interval", VInt 5);
    ("force_ipv4", VBool true);
    ("source_address", VStr "0.0.0.0") ].

(** The proxy the environment asks for: [HTTP_PROXY] when it is set and not
    empty, else [HTTPS_PROXY] when it is set and not empty. *)
Definition env_proxy (W : env) : option string :=
  match environ W "HTTP_PROXY" with
  | Some (String c r) => Some (String c r)
  | _ =>
      match environ W "HTTPS_PROXY" with
      | Some (String c r) => Some (String c r)
      | _ => None
      end
  end.

(** The options of the URL extraction. *)
Definition extract_opts (base : dict pyval) : pyval :=
  VDict (dict_update base [ ("extract_flat", VBool false) ]).

(** The 500 error of [extract_video_info] for a cause. *)
Definition extraction_failed (cause : exn) : exn :=
  HTTPException 500 ("Error extracting video info: " ++ exn_str cause).

(** What [extract_video_info] makes of the extractor's answer. *)
Definition resolved (answer : result pyval) : result pyval :=
  match answer with
  | Ok info =>
      match video_info info with
      | Ok r => Ok r
      | Raise e => Raise (extraction_failed e)
      end
  | Raise e => Raise (extraction_failed e)
  end.

(** The file system without the file [p]. *)
Definition without (p : string) (fs : list string) : list string :=
  filter (fun f => negb (String.eqb f p)) fs.




(** The file system with the file [p] written. *)
Definition saved (p : string) (fs : list string) : list string :=
  if existsb (String.eqb p) fs then fs else p :: fs.

Definition smoke_test_url : string := "https://www.youtube.com/watch?v=dQw4w9WgXcQ".

(** What the alternative probe reports when it is the [n]-th query. *)
Definition alt_message (W : env) (n : nat) : string :=
  match dns_resolve W n ["8.8.8.8"; "8.8.4.4"] "www.youtube.com" "A" with
  | Ok (first :: _) => "Alternative DNS works: " ++ first
  | Ok [] => "Alternative DNS failed: list index out of range"
  | Raise e => "Alternative DNS failed: " ++ exn_str e
  end.

(** The options [get_ydl_opts] returns for a cookie file [cookie_file]
    ([None] when there is none). *)
Definition opts_with (W : env) (cookie_file : pyval) : dict pyval :=
  let proxy := py_or (os_getenv W "HTTP_PROXY") (os_getenv W "HTTPS_PROXY") in
  let base_opts :=
    if truthy proxy then dict_set "proxy" proxy baseline_opts else baseline_opts in
  if truthy cookie_file then dict_set "cookiefile" cookie_file base_opts
  else base_opts.

(** The warning of [create_cookie_file]. *)
Definition cookie_warning (e : exn) : event :=
  EvPrint ("Warning: Failed to create cookie file: " ++ exn_str e).

(** The state after the DNS preamble of [get_ydl_opts]: the probe, and on a
    failed probe the two printed lines around the alternative probe. *)
Definition dns_logged (W : env) (s : state) : state :=
  let s1 := emitted (EvGethostbyname "www.youtube.com") s in
  match sys_gethostbyname W (calls is_gethostbyname s) "www.youtube.com" with
  | Ok _ => s1
  | Raise e =>
      emitted (EvPrint ("Alternative DNS: " ++ alt_message W (calls is_resolve s)))
        (emitted (EvResolve ["8.8.8.8"; "8.8.4.4"] "www.youtube.com" "A")
           (emitted (EvPrint ("DNS Issue: DNS resolution failed: " ++ exn_str e))
              s1))
  end.

(** The primary resolver fails with [socket.gaierror] only. *)
Definition gaierror_only (W : env) : Prop :=
  forall n e, sys_gethostbyname W n "www.youtube.com" = Raise e ->
              is_gaierror e = true.

(** The three tests of [test_youtube_access], by what the outside answers:
    the flag and the message of each. *)
Definition dns_outcome (W : env) (n : nat) : bool * string :=
  match sys_gethostbyname W n "www.youtube.com" with
  | Ok _ => (true, "DNS resolution working")
  | Raise e => (false, "DNS resolution failed: " ++ exn_str e)
  end.

Definition http_outcome (W : env) (n : nat) : bool * string :=
  match http_get W n "https://www.youtube.com" 10 with
  | Ok status_code =>
      (Z.eqb status_code 200,
       "HTTP connection successful: " ++ str_of_Z status_code)
  | Raise e => (false, "HTTP connection failed: " ++ exn_str e)
  end.

Definition ytdlp_outcome (W : env) (ny ne : nat) (opts : pyval) : bool * string :=
  match ydl_init W ny opts with
  | Some e => (false, "yt-dlp failed: " ++ exn_str e)
  | None =>
      match ydl_extract_info W ne opts smoke_test_url with
      | Ok info =>
          (match info with VNone => false | _ => true end,
           "yt-dlp working correctly")
      | Raise e => (false, "yt-dlp failed: " ++ exn_str e)
      end
  end.

(** The report of [test_youtube_access] for three outcomes. *)
Definition report (dns http ytdlp : bool * string) : pyval :=
  VDict [ ("dns_resolution", works_message (fst dns) (snd dns));
          ("http_connection", works_message (fst http) (snd http));
          ("ytdlp_functionality", works_message (fst ytdlp) (snd ytdlp));
          ("recommendations",
            VList (map VStr (get_troubleshooting_recommendations
                               (fst dns) (fst http) (fst ytdlp)))) ].

(** The answer of [test_youtube_access] to an unexpected failure. *)
Definition failed_report (e : exn) : pyval :=
  VDict [ ("error", VStr (exn_str e)); ("status", VStr "failed") ].

(** Options that record a cookie file, and a state in which it exists beside
    another file. *)
Definition opts_with_cookie : list (string * pyval) :=
  dict_set "cookiefile" (VStr "/tmp/tmpq1w2e3.txt") baseline_opts.

Definition state_with_cookie : state :=
  {| trace := []; files := [ "/tmp/other.txt"; "/tmp/tmpq1w2e3.txt" ] |}.

(** A combined stream whose descriptor has no [url]. *)
Definition fmt_without_url : pyval :=
  VDict [ ("format_id", VStr "22"); ("acodec", VStr "aac");
          ("vcodec", VStr "h264") ].

(** An audio-only stream whose bitrate is an explicit null. *)
Definition fmt_m4a_null_abr : pyval :=
  VDict [ ("format_id", VStr "599"); ("ext", VStr "m4a");
          ("acodec", VStr "mp4a.40.5"); ("vcodec", VStr "none");
          ("abr", VNone); ("url", VStr "https://x/599") ].

(** A thumbnail whose width is an explicit null. *)
Definition thumb_null_width : pyval :=
  VDict [ ("url", VStr "https://i/x.jpg"); ("width", VNone) ].

(** A cookie blob is configured and the narrow search answers with one
    entry. *)
Definition cookie_search_world : env := {|
  environ := environ cookie_world;
  sys_gethostbyname := sys_gethostbyname quiet_world;
  dns_resolve := dns_resolve quiet_world;
  tmp_create := tmp_create quiet_world;
  tmp_write := tmp_write quiet_world;
  unlink_fault := unlink_fault quiet_world;
  ydl_init := ydl_init quiet_world;
  ydl_extract_info :=
    fun _ _ _ => Ok (VDict [ ("_type", VStr "playlist");
                             ("entries", VList [ entry_a ]) ]);
  http_get := http_get quiet_world
|}.

(** The system resolver fails, the public resolvers answer. *)
Definition offline_primary_world : env := {|
  environ := environ quiet_world;
  sys_gethostbyname := sys_gethostbyname no_dns_world;
  dns_resolve := dns_resolve quiet_world;
  tmp_create := tmp_create quiet_world;
  tmp_write := tmp_write quiet_world;
  unlink_fault := unlink_fault quiet_world;
  ydl_init := ydl_init quiet_world;
  ydl_extract_info := ydl_extract_info quiet_world;
  http_get := http_get quiet_world
|}.

(* ===================================================================== *)
(** ** Recommendations *)
(* ===================================================================== *)

(** C8: the recommendations are a function of the three outcomes alone: each
    failing dimension contributes its own fixed list (4 strings for DNS, 3 for
    HTTP, 3 for the extractor), the contributions are concatenated in the
    order DNS, HTTP, extractor, nothing is dropped or merged, and three
    successes give the empty list. *)
Theorem recommendations_by_dimension :
  forall dns_works http_works ytdlp_works : bool,
    get_troubleshooting_recommendations dns_works http_works ytdlp_works
    = (when_failing dns_works dns_recommendations
       ++ when_failing http_works http_recommendations
       ++ when_failing ytdlp_works extractor_recommendations)%list
    /\ length (get_troubleshooting_recommendations dns_works http_works ytdlp_works)
       = ((if dns_works then 0 else 4) + (if http_works then 0 else 3)
          + (if ytdlp_works then 0 else 3))%nat
    /\ length dns_recommendations = 4%nat
    /\ length http_recommendations = 3%nat
    /\ length extractor_recommendations = 3%nat
    /\ get_troubleshooting_recommendations true true true = [].
Proof.
  intros d h y.
  repeat split; try reflexivity;
    destruct d, h, y; reflexivity.
Qed.

(* ===================================================================== *)
(** ** DNS probes *)
(* ===================================================================== *)

Lemma test_dns_resolution_run (W : env) (s : state) :
  test_dns_resolution W s
  = (match sys_gethostbyname W (calls is_gethostbyname s) "www.youtube.com" with
     | Ok _ => Ok (true, "DNS resolution working")
     | Raise e =>
         if is_gaierror e then Ok (false, "DNS resolution failed: " ++ exn_str e)
         else Raise e
     end,
     emitted (EvGethostbyname "www.youtube.com") s).
Proof.
  unfold test_dns_resolution, try_except_gaierror, try_except,
    socket_gethostbyname, bind, get_calls, emit, lift, ret, raise, emitted.
  destruct (sys_gethostbyname W (calls is_gethostbyname s) "www.youtube.com")
    as [a | e]; [reflexivity |].
  destruct (is_gaierror e); reflexivity.
Qed.

Lemma try_alternative_dns_run (W : env) (s : state) :
  try_alternative_dns W s
  = (match dns_resolve W (calls is_resolve s) ["8.8.8.8"; "8.8.4.4"]
             "www.youtube.com" "A" with
     | Ok (first :: _) => Ok (true, "Alternative DNS works: " ++ first)
     | Ok [] => Ok (false, "Alternative DNS failed: list index out of range")
     | Raise e => Ok (false, "Alternative DNS failed: " ++ exn_str e)
     end,
     emitted (EvResolve ["8.8.8.8"; "8.8.4.4"] "www.youtube.com" "A") s).
Proof.
  unfold try_alternative_dns, try_except, resolver_resolve, bind, get_calls,
    emit, lift, ret, emitted.
  destruct (dns_resolve W (calls is_resolve s) ["8.8.8.8"; "8.8.4.4"]
              "www.youtube.com" "A") as [[| first rest] | e]; reflexivity.
Qed.

(** C7, as the code has it, each probe on its own and whatever the other
    resolver does.  The primary probe turns every [socket.gaierror] of the
    resolution call into a negative result, and what it lets through is
    exactly what that call raises otherwise, unchanged.  The alternative
    probe never raises: every exception of the resolver, and the missing
    first record of an empty answer, become a negative result.  The message
    of a negative result is the probe's fixed prefix followed by the text of
    the error. *)
Theorem probes_convert_failures (W : env) (s : state) :
  (forall text,
      sys_gethostbyname W (calls is_gethostbyname s) "www.youtube.com"
        = Raise (PyExc GaiError text) ->
      fst (test_dns_resolution W s)
      = Ok (false, "DNS resolution failed: " ++ text))
  /\ (forall e,
         fst (test_dns_resolution W s) = Raise e
         <-> sys_gethostbyname W (calls is_gethostbyname s) "www.youtube.com"
               = Raise e
             /\ is_gaierror e = false)
  /\ (forall e,
         dns_resolve W (calls is_resolve s) ["8.8.8.8"; "8.8.4.4"]
           "www.youtube.com" "A" = Raise e ->
         fst (try_alternative_dns W s)
         = Ok (false, "Alternative DNS failed: " ++ exn_str e))
  /\ (dns_resolve W (calls is_resolve s) ["8.8.8.8"; "8.8.4.4"]
        "www.youtube.com" "A" = Ok [] ->
      fst (try_alternative_dns W s)
      = Ok (false, "Alternative DNS failed: list index out of range"))
  /\ (exists r, fst (try_alternative_dns W s) = Ok r).
Proof.
  rewrite test_dns_resolution_run, try_alternative_dns_run. cbn [fst].
  split; [| split; [| split; [| split]]].
  - intros text H. rewrite H. reflexivity.
  - intros e.
    destruct (sys_gethostbyname W (calls is_gethostbyname s) "www.youtube.com")
      as [a | e0]; [split; [discriminate | intros [H _]; discriminate H] |].
    destruct (is_gaierror e0) eqn:Hg; split.
    + discriminate.
    + intros [H Hf]. injection H as ->. congruence.
    + intros H. injection H as ->. split; [reflexivity | exact Hg].
    + intros [H _]. injection H as ->. reflexivity.
  - intros e H. rewrite H. reflexivity.
  - intros H. rewrite H. reflexivity.
  - destruct (dns_resolve W (calls is_resolve s) ["8.8.8.8"; "8.8.4.4"]
                "www.youtube.com" "A") as [[| first rest] | e']; eauto.
Qed.

Lemma probes_convert_failures_witness :
  fst (test_dns_resolution no_dns_world initial_state)
    = Ok (false, "DNS resolution failed: [Errno -2] Name or service not known")
  /\ fst (try_alternative_dns no_dns_world initial_state)
     = Ok (false, "Alternative DNS failed: The resolution lifetime expired")
  /\ fst (test_dns_resolution offline_primary_world initial_state)
     = Ok (false, "DNS resolution failed: [Errno -2] Name or service not known").
Proof.
  destruct (probes_convert_failures no_dns_world initial_state)
    as (H1 & _ & H2 & _).
  destruct (probes_convert_failures offline_primary_world initial_state)
    as (H3 & _).
  split; [exact (H1 _ eq_refl) |].
  split; [exact (H2 _ eq_refl) | exact (H3 _ eq_refl)].
Defined.

(** C7, as stated, fails twice.  The message of a failed probe is not the
    text of the underlying error: it carries the probe's prefix in front of
    it.  And the primary probe does let an exception escape: it catches
    [socket.gaierror] only, so any other exception of the resolution call
    passes through it. *)
Lemma probe_prefixes_and_primary_lets_through :
  fst (try_alternative_dns no_dns_world initial_state)
    <> Ok (false, "The resolution lifetime expired")
  /\ fst (test_dns_resolution no_dns_world initial_state)
     <> Ok (false, "[Errno -2] Name or service not known")
  /\ fst (test_dns_resolution odd_resolver_world initial_state)
     = Raise (PyExc (OtherError "UnicodeError")
                "encoding with 'idna' codec failed").
Proof.
  split; [| split]; vm_compute; [discriminate | discriminate | reflexivity].
Qed.

(** C5: when the primary DNS probe fails, both entry points raise the 503
    error right after the probe: the state is the one the probe left, so no
    extractor object was built and no extractor call was made. *)
Theorem dns_failure_short_circuits
  (W : env) (title url : string) (s s1 : state) (dns_msg : string) :
  test_dns_resolution W s = (Ok (false, dns_msg), s1) ->
  search_video_by_title W title s
    = (Raise (HTTPException 503
                ("DNS resolution failed for YouTube: " ++ dns_msg
                 ++ ". Please check your network connection or DNS settings.")),
       s1)
  /\ extract_video_info W url s
     = (Raise (HTTPException 503 ("DNS resolution failed: " ++ dns_msg)), s1)
  /\ extractor_queries s1 = extractor_queries s
  /\ calls is_extract_info s1 = calls is_extract_info s
  /\ calls is_youtubedl s1 = calls is_youtubedl s
  /\ files s1 = files s.
Proof.
  intros Hprobe.
  split; [| split].
  - unfold search_video_by_title, bind. rewrite Hprobe. reflexivity.
  - unfold extract_video_info, bind. rewrite Hprobe. reflexivity.
  - rewrite test_dns_resolution_run in Hprobe.
    injection Hprobe as _ Hs1. subst s1.
    repeat split.
Qed.

Lemma dns_failure_short_circuits_witness :
  fst (search_video_by_title no_dns_world "lofi hip hop radio" initial_state)
    = Raise (HTTPException 503
               ("DNS resolution failed for YouTube: DNS resolution failed: [Errno -2] Name or service not known. Please check your network connection or DNS settings."))
  /\ extractor_queries
       (snd (search_video_by_title no_dns_world "lofi hip hop radio" initial_state))
     = [].
Proof.
  destruct (@dns_failure_short_circuits no_dns_world "lofi hip hop radio"
              "https://www.youtube.com/watch?v=dQw4w9WgXcQ" initial_state
              (emitted (EvGethostbyname "www.youtube.com") initial_state)
              "DNS resolution failed: [Errno -2] Name or service not known"
              eq_refl) as [H1 [_ [H3 _]]].
  rewrite H1. split; [reflexivity | exact H3].
Defined.

(* ===================================================================== *)
(** ** Format selector *)
(* ===================================================================== *)

Section ValueFacts.

Lemma py_get_dict (d : list (string * pyval)) (k : string) (dflt : pyval) :
    py_get (VDict d) k dflt = Ok (field_or (VDict d) k dflt).
  Proof. reflexivity. Qed.

Lemma py_get_ok_dict (v : pyval) (k : string) (dflt x : pyval) :
    py_get v k dflt = Ok x -> is_dict v = true.
  Proof. destruct v; simpl; intros H; try discriminate; reflexivity. Qed.

Lemma is_dict_inv (v : pyval) : is_dict v = true -> exists d, v = VDict d.
  Proof. destruct v; simpl; intros H; try discriminate; eauto. Qed.

Lemma py_ne_none (v : pyval) (k : string) :
    py_ne (field_or v k VNone) (VStr "none") = not_none v k.
  Proof.
    unfold py_ne, field_or, not_none.
    destruct (lookup v k) as [x |]; [| reflexivity].
    destruct x; reflexivity.
  Qed.

Lemma py_eq_str (v : pyval) (k s : string) :
    py_eq (field_or v k VNone) (VStr s) = holds_str v k s.
  Proof.
    unfold field_or, holds_str.
    destruct (lookup v k) as [x |]; [| reflexivity].
    destruct x; reflexivity.
  Qed.

Lemma py_gt_num (a b : pyval) (x y : Q) :
    as_num a = Some x -> as_num b = Some y -> py_gt a b = Ok (Qgt_bool x y).
  Proof.
    intros Ha Hb.
    destruct a; simpl in Ha; try discriminate;
      destruct b; simpl in Hb; try discriminate;
      simpl; rewrite ?Ha, ?Hb;
      injection Ha as <-; injection Hb as <-; reflexivity.
  Qed.

Lemma Qgt_bool_true (x y : Q) : Qgt_bool x y = true <-> (y < x)%Q.
  Proof.
    unfold Qgt_bool. rewrite negb_true_iff.
    split; intros H.
    - apply Qnot_le_lt. intros Hle. apply Qle_bool_iff in Hle. congruence.
    - destruct (Qle_bool x y) eqn:E; [| reflexivity].
      apply Qle_bool_iff in E. exfalso. apply (Qlt_not_le _ _ H E).
  Qed.

Lemma Qgt_bool_false (x y : Q) : Qgt_bool x y = false <-> (x <= y)%Q.
  Proof.
    unfold Qgt_bool. rewrite negb_false_iff. apply Qle_bool_iff.
  Qed.

End ValueFacts.

(** The two tests of the source, on a dictionary, are the boolean predicates
    of the statements. *)
Lemma is_audio_video_dict (d : list (string * pyval)) :
  is_audio_video (VDict d) = Ok (selected_av (VDict d)).
Proof.
  unfold is_audio_video, selected_av. rewrite !py_get_dict. cbn [rbind].
  rewrite py_ne_none.
  destruct (not_none (VDict d) "acodec"); [| reflexivity].
  rewrite py_ne_none. reflexivity.
Qed.

Lemma is_m4a_audio_dict (d : list (string * pyval)) :
  is_m4a_audio (VDict d) = Ok (audio_candidate (VDict d)).
Proof.
  unfold is_m4a_audio, audio_candidate. rewrite !py_get_dict. cbn [rbind].
  rewrite py_ne_none.
  destruct (not_none (VDict d) "acodec"); [| reflexivity].
  rewrite py_eq_str.
  destruct (holds_str (VDict d) "vcodec" "none"); [| reflexivity].
  rewrite py_eq_str. reflexivity.
Qed.

Lemma audio_video_entry_dict (d : list (string * pyval)) :
  has_id_and_url (VDict d) = true ->
  audio_video_entry (VDict d) = Ok (av_entry (VDict d)).
Proof.
  unfold has_id_and_url, audio_video_entry, av_entry, field_or, lookup.
  simpl py_getitem. simpl py_get.
  destruct (dict_lookup "format_id" d) as [fid |]; [| discriminate].
  destruct (dict_lookup "url" d) as [u |]; [| discriminate].
  reflexivity.
Qed.

Lemma audio_video_loop_filter_map (fmts : list pyval) :
  Forall (fun f => is_dict f = true) fmts ->
  Forall (fun f => selected_av f = true -> has_id_and_url f = true) fmts ->
  audio_video_loop fmts = Ok (map av_entry (filter selected_av fmts)).
Proof.
  induction fmts as [| fmt rest IH]; intros Hdict Hwf; [reflexivity |].
  inversion Hdict as [| ? ? Hd Hdrest]; subst.
  inversion Hwf as [| ? ? Hw Hwrest]; subst.
  destruct (is_dict_inv _ Hd) as [d ->].
  cbn [audio_video_loop filter]. rewrite is_audio_video_dict. cbn [rbind].
  destruct (selected_av (VDict d)) eqn:Hsel.
  - rewrite (audio_video_entry_dict d (Hw eq_refl)). cbn [rbind].
    rewrite (IH Hdrest Hwrest). reflexivity.
  - apply IH; assumption.
Qed.

(** The result dictionary, field by field. *)
Lemma video_info_inv (info r : pyval) :
  video_info info = Ok r ->
  exists formats thumbnails best av ha ha_info,
    py_get info "formats" (VList []) = Ok formats
    /\ py_get info "thumbnails" (VList []) = Ok thumbnails
    /\ best_thumbnail thumbnails = Ok best
    /\ audio_video_formats formats = Ok av
    /\ highest_audio formats = Ok ha
    /\ highest_audio_info ha = Ok ha_info
    /\ r = VDict [ ("title", field_or info "title" (VStr "Unknown Title"));
                   ("formats", av);
                   ("highest_audio", ha_info);
                   ("thumbnail", py_or best (field_or info "thumbnail" VNone)) ].
Proof.
  unfold video_info. intros H.
  destruct info; try discriminate H.
  rewrite !py_get_dict in H. cbn [rbind] in H.
  destruct (best_thumbnail _) as [best |] eqn:Hb; [| discriminate H].
  cbn [rbind] in H.
  destruct (audio_video_formats _) as [av |] eqn:Hav; [| discriminate H].
  cbn [rbind] in H.
  destruct (highest_audio _) as [ha |] eqn:Hha; [| discriminate H].
  cbn [rbind] in H.
  destruct (highest_audio_info ha) as [hai |] eqn:Hhai; [| discriminate H].
  cbn [rbind] in H. injection H as <-.
  do 6 eexists. rewrite !py_get_dict.
  repeat split; eauto.
Qed.

(** C1, as the code has it: the combined formats are the descriptors whose
    [acodec] and [vcodec] are both different from ["none"], a missing codec
    field counting as different, each turned into its four-field entry
    ([resolution] is ["N/A"] when the field is missing, [filesize] is the exact
    size when it is truthy and the approximate size otherwise), in the order
    of the extractor; this is the [formats] field of the result. *)
Theorem combined_formats_filter_map (fmts : list pyval) :
  Forall (fun f => is_dict f = true) fmts ->
  Forall (fun f => selected_av f = true -> has_id_and_url f = true) fmts ->
  audio_video_formats (VList fmts)
    = Ok (VList (map av_entry (filter selected_av fmts)))
  /\ forall info r : pyval,
       py_get info "formats" (VList []) = Ok (VList fmts) ->
       video_info info = Ok r ->
       lookup r "formats" = Some (VList (map av_entry (filter selected_av fmts))).
Proof.
  intros Hdict Hwf.
  assert (Hav : audio_video_formats (VList fmts)
                = Ok (VList (map av_entry (filter selected_av fmts)))).
  { unfold audio_video_formats. cbn [py_iter rbind].
    rewrite (audio_video_loop_filter_map Hdict Hwf). reflexivity. }
  split; [exact Hav |].
  intros info r Hformats Hinfo.
  destruct (video_info_inv _ Hinfo)
    as (formats & thumbnails & best & av & ha & hai
        & Hf & _ & _ & Hav' & _ & _ & ->).
  rewrite Hformats in Hf. injection Hf as <-.
  rewrite Hav in Hav'. injection Hav' as <-.
  reflexivity.
Qed.

Lemma combined_formats_filter_map_witness :
  audio_video_formats (VList three_formats)
    = Ok (VList [ VDict [ ("format_id", VStr "18");
                          ("resolution", VStr "640x360");
                          ("filesize", VInt 9532110);
                          ("url", VStr "https://x/18") ] ]).
Proof.
  refine (proj1 (@combined_formats_filter_map three_formats _ _)).
  - repeat constructor.
  - repeat constructor.
Defined.

(** C1, as stated, fails: a descriptor without [acodec] field is kept, while
    the claim keeps only descriptors whose two codecs are neither absent nor
    ["none"]. *)
Lemma absent_codec_is_kept :
  audio_video_formats (VList [ fmt_no_acodec ])
    = Ok (VList [ VDict [ ("format_id", VStr "22");
                          ("resolution", VStr "1280x720");
                          ("filesize", VNone);
                          ("url", VStr "https://x/22") ] ])
  /\ spec_combined_formats [ fmt_no_acodec ] = []
  /\ audio_video_formats (VList [ fmt_no_acodec ])
     <> Ok (VList (spec_combined_formats [ fmt_no_acodec ])).
Proof.
  repeat split; try reflexivity.
  vm_compute. discriminate.
Qed.

(** *** The first maximum of a list *)

Section FirstMax.
Variable A : Type.
Variable key : A -> Q.

  (** Where a running maximum [b] ends after the list [l]. *)
Lemma first_max_from (l : list A) :
    forall b : A, exists x,
      first_max key l (Some b) = Some x
      /\ ((x = b /\ forall y, In y l -> (key y <= key b)%Q)
          \/ exists pre post,
               l = (pre ++ x :: post)%list
               /\ (key b < key x)%Q
               /\ (forall y, In y pre -> (key y < key x)%Q)
               /\ (forall y, In y post -> (key y <= key x)%Q)).
  Proof.
    induction l as [| a r IH]; intros b.
    - exists b. split; [reflexivity |]. left. split; [reflexivity |].
      intros y [].
    - cbn [first_max]. destruct (Qgt_bool (key a) (key b)) eqn:Hgt.
      + apply Qgt_bool_true in Hgt.
        destruct (IH a) as (x & Hx & [[-> Hle] | (pre & post & -> & Hlt & Hpre & Hpost)]).
        * exists a. split; [exact Hx |]. right. exists [], r.
          repeat split; try assumption. intros y [].
        * exists x. split; [exact Hx |]. right. exists (a :: pre), post.
          repeat split; try assumption.
          -- apply Qlt_trans with (key a); assumption.
          -- intros y [<- | Hy]; [assumption | apply Hpre; assumption].
      + apply Qgt_bool_false in Hgt.
        destruct (IH b) as (x & Hx & [[-> Hle] | (pre & post & -> & Hlt & Hpre & Hpost)]).
        * exists b. split; [exact Hx |]. left. split; [reflexivity |].
          intros y [<- | Hy]; [assumption | apply Hle; assumption].
        * exists x. split; [exact Hx |]. right. exists (a :: pre), post.
          repeat split; try assumption.
          intros y [<- | Hy]; [| apply Hpre; assumption].
          apply Qle_lt_trans with (key b); assumption.
  Qed.

  (** The first maximum of a non-empty list splits it in a strictly smaller
      prefix and a suffix that is not greater. *)
Lemma first_max_split (l : list A) :
    (l = [] /\ first_max key l None = None)
    \/ exists x pre post,
         first_max key l None = Some x
         /\ l = (pre ++ x :: post)%list
         /\ (forall y, In y pre -> (key y < key x)%Q)
         /\ (forall y, In y post -> (key y <= key x)%Q).
  Proof.
    destruct l as [| a r]; [left; split; reflexivity | right].
    cbn [first_max].
    destruct (first_max_from r a)
      as (x & Hx & [[-> Hle] | (pre & post & -> & Hlt & Hpre & Hpost)]).
    - exists a, [], r. repeat split; try assumption. intros y [].
    - exists x, (a :: pre), post. repeat split; try assumption.
      intros y [<- | Hy]; [assumption | apply Hpre; assumption].
  Qed.
End FirstMax.

(** *** Best audio *)

Lemma abr_key_num (f : pyval) :
  numeric_or_missing f "abr" = true ->
  as_num (field_or f "abr" (VInt 0)) = Some (num_key "abr" f).
Proof.
  unfold numeric_or_missing, num_key, num_field, field_or.
  intros H. apply andb_true_iff in H as [_ H].
  destruct (lookup f "abr") as [x |].
  - destruct (as_num x); [reflexivity | discriminate].
  - reflexivity.
Qed.

Lemma max_loop_first_max (fmts : list pyval) :
  Forall (fun f => is_dict f = true) fmts ->
  Forall (fun f => audio_candidate f = true -> numeric_or_missing f "abr" = true) fmts ->
  forall current : option pyval,
    (forall m, current = Some m -> numeric_or_missing m "abr" = true) ->
    max_loop fmts (option_map with_abr current)
    = Ok (option_map with_abr
            (first_max (num_key "abr") (filter audio_candidate fmts) current)).
Proof.
  induction fmts as [| fmt rest IH]; intros Hdict Hnum current Hcur;
    [reflexivity |].
  inversion Hdict as [| ? ? Hd Hdrest]; subst.
  inversion Hnum as [| ? ? Hn Hnrest]; subst.
  destruct (is_dict_inv _ Hd) as [d ->].
  cbn [max_loop filter]. rewrite is_m4a_audio_dict. cbn [rbind].
  destruct (audio_candidate (VDict d)) eqn:Hcand.
  - unfold abr_key. rewrite py_get_dict. cbn [rbind first_max].
    destruct current as [m |]; cbn [option_map with_abr].
    + rewrite (py_gt_num _ _ (abr_key_num _ (Hn eq_refl))
                 (abr_key_num _ (Hcur m eq_refl))).
      cbn [rbind].
      destruct (Qgt_bool (num_key "abr" (VDict d)) (num_key "abr" m)).
      * apply (IH Hdrest Hnrest (Some (VDict d))).
        intros m' [= <-]. apply Hn. reflexivity.
      * apply (IH Hdrest Hnrest (Some m)). exact Hcur.
    + apply (IH Hdrest Hnrest (Some (VDict d))).
      intros m' [= <-]. apply Hn. reflexivity.
  - apply (IH Hdrest Hnrest current Hcur).
Qed.

Lemma highest_audio_first_max (fmts : list pyval) :
  Forall (fun f => is_dict f = true) fmts ->
  Forall (fun f => audio_candidate f = true -> numeric_or_missing f "abr" = true) fmts ->
  highest_audio (VList fmts)
  = Ok (match first_max (num_key "abr") (filter audio_candidate fmts) None with
        | Some x => x
        | None => VNone
        end).
Proof.
  intros Hdict Hnum. unfold highest_audio. cbn [py_iter rbind].
  change (@None (pyval * pyval)) with (option_map with_abr None).
  rewrite (@max_loop_first_max fmts Hdict Hnum None) by (intros m [=]).
  cbn [rbind].
  destruct (first_max _ _ None); reflexivity.
Qed.

(** C4, as the code has it: among the descriptors whose [acodec] is not
    ["none"] (a missing [acodec] qualifies), whose [vcodec] is ["none"] and
    whose [ext] is ["m4a"], with bitrates that are numbers where present,
    [highest_audio] is the first one of greatest bitrate, a missing bitrate
    counting as 0; without such a descriptor it is [None], and so is the
    [highest_audio] field, without error. *)
Theorem best_audio_is_first_maximum (fmts : list pyval) :
  Forall (fun f => is_dict f = true) fmts ->
  Forall (fun f => audio_candidate f = true -> numeric_or_missing f "abr" = true) fmts ->
  exists best,
    highest_audio (VList fmts) = Ok best
    /\ ((filter audio_candidate fmts = []
         /\ best = VNone /\ highest_audio_info best = Ok VNone)
        \/ exists pre post,
             filter audio_candidate fmts = (pre ++ best :: post)%list
             /\ (forall y, In y pre -> (num_key "abr" y < num_key "abr" best)%Q)
             /\ (forall y, In y post -> (num_key "abr" y <= num_key "abr" best)%Q))
    /\ forall info r : pyval,
         py_get info "formats" (VList []) = Ok (VList fmts) ->
         video_info info = Ok r ->
         exists ha_info,
           highest_audio_info best = Ok ha_info
           /\ lookup r "highest_audio" = Some ha_info.
Proof.
  intros Hdict Hnum.
  pose proof (highest_audio_first_max Hdict Hnum) as Hha.
  assert (Hfield : forall best,
             highest_audio (VList fmts) = Ok best ->
             forall info r : pyval,
               py_get info "formats" (VList []) = Ok (VList fmts) ->
               video_info info = Ok r ->
               exists ha_info,
                 highest_audio_info best = Ok ha_info
                 /\ lookup r "highest_audio" = Some ha_info).
  { intros best Hbest info r Hformats Hinfo.
    destruct (video_info_inv _ Hinfo)
      as (formats & thumbnails & b & av & ha & hai
          & Hf & _ & _ & _ & Hha' & Hhai & ->).
    rewrite Hformats in Hf. injection Hf as <-.
    rewrite Hbest in Hha'. injection Hha' as <-.
    exists hai. split; [exact Hhai | reflexivity]. }
  destruct (first_max_split (num_key "abr") (filter audio_candidate fmts))
    as [[Hnil Hnone] | (x & pre & post & Hx & Hsplit & Hpre & Hpost)].
  - rewrite Hnone in Hha. exists VNone. split; [exact Hha |].
    split; [| exact (Hfield _ Hha)]. left.
    repeat split. exact Hnil.
  - rewrite Hx in Hha. exists x. split; [exact Hha |].
    split; [| exact (Hfield _ Hha)]. right.
    exists pre, post. repeat split; assumption.
Qed.

Lemma best_audio_is_first_maximum_witness :
  highest_audio (VList three_formats) = Ok fmt_audio_256.
Proof.
  destruct (@best_audio_is_first_maximum three_formats) as (best & Hb & _).
  - repeat constructor.
  - repeat constructor.
  - rewrite Hb. vm_compute in Hb. exact (eq_sym Hb).
Defined.

(** C4, as stated, fails: an audio-only descriptor without [acodec] field is
    chosen as best audio, while the claim chooses among descriptors with an
    audio codec present. *)
Lemma absent_acodec_is_best_audio :
  highest_audio (VList [ fmt_m4a_no_acodec ]) = Ok fmt_m4a_no_acodec
  /\ spec_best_audio [ fmt_m4a_no_acodec ] = VNone
  /\ highest_audio (VList [ fmt_m4a_no_acodec ])
     <> Ok (spec_best_audio [ fmt_m4a_no_acodec ]).
Proof.
  repeat split; try reflexivity.
  vm_compute. discriminate.
Qed.

(** What [max] returns passed the generator's test. *)
Lemma is_m4a_audio_true (fmt : pyval) :
  is_m4a_audio fmt = Ok true -> audio_candidate fmt = true.
Proof.
  intros H. destruct fmt; try discriminate H.
  rewrite is_m4a_audio_dict in H. injection H as H. exact H.
Qed.

Lemma max_loop_candidate (fmts : list pyval) :
  forall (current : option (pyval * pyval)) (m k : pyval),
    (forall m' k', current = Some (m', k') -> audio_candidate m' = true) ->
    max_loop fmts current = Ok (Some (m, k)) ->
    audio_candidate m = true.
Proof.
  induction fmts as [| fmt rest IH]; intros current m k Hcur H.
  - cbn in H. injection H as H. eapply Hcur; eassumption.
  - cbn [max_loop] in H.
    destruct (is_m4a_audio fmt) as [[|] |] eqn:Hc; cbn [rbind] in H;
      try discriminate H.
    + apply is_m4a_audio_true in Hc.
      destruct (abr_key fmt) as [key |]; cbn [rbind] in H; [| discriminate H].
      destruct current as [[maxitem maxkey] |].
      * destruct (py_gt key maxkey) as [[|] |]; cbn [rbind] in H;
          try discriminate H.
        -- eapply (IH (Some (fmt, key))); [| exact H].
           intros m' k' [= <- <-]. exact Hc.
        -- eapply (IH (Some (maxitem, maxkey))); eassumption.
      * eapply (IH (Some (fmt, key))); [| exact H].
        intros m' k' [= <- <-]. exact Hc.
    + eapply IH; eassumption.
Qed.

Lemma highest_audio_candidate (formats x : pyval) :
  highest_audio formats = Ok x -> x = VNone \/ audio_candidate x = true.
Proof.
  unfold highest_audio. intros H.
  destruct (py_iter formats) as [fmts |]; cbn [rbind] in H; [| discriminate H].
  destruct (max_loop fmts None) as [[[m k] |] |] eqn:Hloop; cbn [rbind] in H;
    try discriminate H; injection H as <-.
  - right. eapply max_loop_candidate; [| exact Hloop]. intros m' k' [=].
  - left. reflexivity.
Qed.

(** C9: when the descriptor chosen as best audio has no [abr] field, the
    [bitrate] of the returned [highest_audio] is the string ["Unknown"], while
    the key under which it was compared is the number 0. *)
Theorem missing_abr_reports_unknown
  (info r formats : pyval) (d : list (string * pyval)) :
  py_get info "formats" (VList []) = Ok formats ->
  highest_audio formats = Ok (VDict d) ->
  dict_lookup "abr" d = None ->
  video_info info = Ok r ->
  abr_key (VDict d) = Ok (VInt 0)
  /\ exists ha_info,
       lookup r "highest_audio" = Some ha_info
       /\ lookup ha_info "bitrate" = Some (VStr "Unknown").
Proof.
  intros Hformats Hha Habr Hinfo.
  split.
  { unfold abr_key. rewrite py_get_dict. unfold field_or, lookup.
    rewrite Habr. reflexivity. }
  destruct (video_info_inv _ Hinfo)
    as (formats' & thumbnails & best & av & ha & hai
        & Hf & _ & _ & _ & Hha' & Hhai & ->).
  rewrite Hformats in Hf. injection Hf as <-.
  rewrite Hha in Hha'. injection Hha' as <-.
  exists hai. split; [reflexivity |].
  destruct (highest_audio_candidate _ Hha) as [Hnone | Hcand];
    [discriminate Hnone |].
  assert (Htruthy : truthy (VDict d) = true).
  { destruct d; [discriminate Hcand | reflexivity]. }
  unfold highest_audio_info in Hhai. rewrite Htruthy in Hhai.
  destruct (py_getitem (VDict d) "format_id") as [fid |]; cbn [rbind] in Hhai;
    [| discriminate Hhai].
  rewrite !py_get_dict in Hhai. cbn [rbind] in Hhai.
  destruct (py_getitem (VDict d) "url") as [u |]; cbn [rbind] in Hhai;
    [| discriminate Hhai].
  injection Hhai as <-.
  unfold field_or at 1. unfold lookup at 2. rewrite Habr. reflexivity.
Qed.

Lemma missing_abr_reports_unknown_witness :
  exists r,
    video_info info_no_abr = Ok r
    /\ exists ha_info,
         lookup r "highest_audio" = Some ha_info
         /\ lookup ha_info "bitrate" = Some (VStr "Unknown").
Proof.
  eexists. split; [reflexivity |].
  exact (proj2 (@missing_abr_reports_unknown info_no_abr _
                  (VList [ fmt_combined; fmt_m4a_no_abr ])
                  [ ("format_id", VStr "140-drc"); ("ext", VStr "m4a");
                    ("acodec", VStr "mp4a.40.2"); ("vcodec", VStr "none");
                    ("url", VStr "https://x/140-drc") ]
                  eq_refl eq_refl eq_refl eq_refl)).
Defined.

(** *** Thumbnail *)

Lemma width_num (t : pyval) :
  numeric_or_missing t "width" = true ->
  exists d, t = VDict d
            /\ as_num (field_or t "width" (VInt 0)) = Some (num_key "width" t).
Proof.
  unfold numeric_or_missing, num_key, num_field, field_or.
  intros H. apply andb_true_iff in H as [Hd H].
  destruct (is_dict_inv _ Hd) as [d ->]. exists d. split; [reflexivity |].
  destruct (lookup (VDict d) "width") as [x |].
  - destruct (as_num x); [reflexivity | discriminate].
  - reflexivity.
Qed.

(** Where the pair [(best_thumbnail, max_width)] ends after the loop. *)
Lemma thumbnail_loop_first_widest (thumbs : list pyval) :
  Forall (fun t => numeric_or_missing t "width" = true) thumbs ->
  forall (best max_width : pyval) (m : Q),
    as_num max_width = Some m ->
    exists best' max_width',
      thumbnail_loop thumbs best max_width = Ok (best', max_width')
      /\ ((best' = best /\ forall y, In y thumbs -> (num_key "width" y <= m)%Q)
          \/ exists pre t post,
               thumbs = (pre ++ t :: post)%list
               /\ (m < num_key "width" t)%Q
               /\ (forall y, In y pre -> (num_key "width" y < num_key "width" t)%Q)
               /\ (forall y, In y post -> (num_key "width" y <= num_key "width" t)%Q)
               /\ best' = field_or t "url" VNone).
Proof.
  induction thumbs as [| a r IH]; intros Hwt best mw m Hm.
  - exists best, mw. split; [reflexivity |]. left. split; [reflexivity |].
    intros y [].
  - inversion Hwt as [| ? ? Ha Hr]; subst.
    destruct (width_num _ Ha) as (d & -> & Hw).
    cbn [thumbnail_loop]. rewrite !py_get_dict. cbn [rbind].
    rewrite (py_gt_num _ _ Hw Hm). cbn [rbind].
    destruct (Qgt_bool (num_key "width" (VDict d)) m) eqn:Hgt.
    + apply Qgt_bool_true in Hgt.
      destruct (IH Hr (field_or (VDict d) "url" VNone)
                  (field_or (VDict d) "width" (VInt 0)) _ Hw)
        as (b' & w' & Hrun & [[-> Hle] | (pre & t & post & -> & Hlt & Hpre & Hpost & ->)]).
      * exists (field_or (VDict d) "url" VNone), w'. split; [exact Hrun |].
        right. exists [], (VDict d), r.
        repeat split; try assumption. intros y [].
      * exists (field_or t "url" VNone), w'. split; [exact Hrun |].
        right. exists (VDict d :: pre), t, post.
        repeat split; try assumption.
        -- apply Qlt_trans with (num_key "width" (VDict d)); assumption.
        -- intros y [<- | Hy]; [assumption | apply Hpre; assumption].
    + apply Qgt_bool_false in Hgt.
      destruct (IH Hr best mw m Hm)
        as (b' & w' & Hrun & [[-> Hle] | (pre & t & post & -> & Hlt & Hpre & Hpost & ->)]).
      * exists best, w'. split; [exact Hrun |]. left. split; [reflexivity |].
        intros y [<- | Hy]; [assumption | apply Hle; assumption].
      * exists (field_or t "url" VNone), w'. split; [exact Hrun |].
        right. exists (VDict d :: pre), t, post.
        repeat split; try assumption.
        intros y [<- | Hy]; [| apply Hpre; assumption].
        apply Qle_lt_trans with m; assumption.
Qed.

(** C2, as the code has it: with widths that are numbers where present, the
    loop takes the URL of the first entry of greatest width provided that width
    is positive, a missing width counting as 0, and takes nothing when no
    width is positive; the returned thumbnail is that URL when it is truthy and
    the default [thumbnail] field of the result otherwise, null when that is
    missing too. *)
Theorem thumbnail_is_first_widest (thumbs : list pyval) :
  Forall (fun t => numeric_or_missing t "width" = true) thumbs ->
  exists best,
    best_thumbnail (VList thumbs) = Ok best
    /\ ((best = VNone /\ forall y, In y thumbs -> (num_key "width" y <= 0)%Q)
        \/ exists pre t post,
             thumbs = (pre ++ t :: post)%list
             /\ (0 < num_key "width" t)%Q
             /\ (forall y, In y pre -> (num_key "width" y < num_key "width" t)%Q)
             /\ (forall y, In y post -> (num_key "width" y <= num_key "width" t)%Q)
             /\ best = field_or t "url" VNone)
    /\ forall info r : pyval,
         py_get info "thumbnails" (VList []) = Ok (VList thumbs) ->
         video_info info = Ok r ->
         lookup r "thumbnail"
         = Some (py_or best (field_or info "thumbnail" VNone)).
Proof.
  intros Hwt.
  destruct (@thumbnail_loop_first_widest thumbs Hwt VNone (VInt 0) 0%Q eq_refl)
    as (best & w & Hrun & Hshape).
  assert (Hbest : best_thumbnail (VList thumbs) = Ok best).
  { unfold best_thumbnail. cbn [py_iter rbind]. rewrite Hrun. reflexivity. }
  exists best. split; [exact Hbest |]. split; [exact Hshape |].
  intros info r Hthumbs Hinfo.
  destruct (video_info_inv _ Hinfo)
    as (formats & thumbnails & best' & av & ha & hai
        & _ & Ht & Hb & _ & _ & _ & ->).
  rewrite Hthumbs in Ht. injection Ht as <-.
  rewrite Hbest in Hb. injection Hb as <-.
  reflexivity.
Qed.

Lemma thumbnail_is_first_widest_witness :
  best_thumbnail (VList thumbs_with_widths) = Ok (VStr "https://i/1280.jpg").
Proof.
  destruct (@thumbnail_is_first_widest thumbs_with_widths) as (best & Hb & _).
  - repeat constructor.
  - rewrite Hb. vm_compute in Hb. exact (eq_sym Hb).
Defined.

(** C2, as stated, fails: an entry without declared width is never taken, so
    the default thumbnail is returned although a thumbnail-list entry has a
    URL. *)
Lemma widthless_thumbnail_is_skipped :
  (exists r, video_info info_thumb_no_width = Ok r
             /\ lookup r "thumbnail" = Some (VStr "https://i/default.jpg"))
  /\ spec_thumbnail [ thumb_no_width ] (VStr "https://i/default.jpg")
     = VStr "https://i/a.jpg".
Proof.
  split; [eexists; split; reflexivity | reflexivity].
Qed.

(* ===================================================================== *)
(** ** Cascading search *)
(* ===================================================================== *)

Lemma same_extractor_refl (s : state) : same_extractor s s.
Proof. repeat split. Qed.

Lemma same_extractor_trans (s1 s2 s3 : state) :
  same_extractor s1 s2 -> same_extractor s2 s3 -> same_extractor s1 s3.
Proof.
  unfold same_extractor. intros (A1 & B1 & C1) (A2 & B2 & C2).
  repeat split; congruence.
Qed.

(** [cleanup_cookie_file] never raises and leaves the extractor alone. *)
Lemma cleanup_cookie_file_run (W : env) (o : list (string * pyval)) (s : state) :
  exists s', cleanup_cookie_file W (VDict o) s = (Ok tt, s')
             /\ same_extractor s s'.
Proof.
  unfold cleanup_cookie_file, try_except, os_unlink, file_exists, remove_file,
    bind, lift, ret, raise, get_calls, emit, py_contains, py_getitem, dict_mem.
  destruct (dict_lookup "cookiefile" o) as [path |];
    [| exists s; split; [reflexivity | apply same_extractor_refl]].
  destruct path; cbn;
    try (eexists; split; [reflexivity | repeat split]).
  destruct (existsb (String.eqb s0) (files s));
    [destruct (unlink_fault W (calls is_unlink s) s0) |];
    eexists; (split; [reflexivity | repeat split]).
Qed.

Lemma contains_url_char (c : ascii) :
  py_contains "url" (VStr (String c EmptyString)) = Ok false.
Proof.
  unfold py_contains. f_equal.
  unfold is_substring, String.prefix.
  destruct (ascii_dec "u" c); reflexivity.
Qed.

Lemma has_entries_dict (d : list (string * pyval)) :
  has_entries (VDict d)
  = Ok (match dict_lookup "entries" d with
        | Some entries => truthy entries
        | None => false
        end).
Proof.
  unfold has_entries. destruct d as [| [k v] d']; [reflexivity |].
  cbn [truthy]. unfold py_contains, dict_mem, py_getitem, rbind.
  destruct (dict_lookup "entries" ((k, v) :: d')); reflexivity.
Qed.

Lemma has_entries_not_dict (response : pyval) :
  is_dict response = false ->
  has_entries response = Ok false \/ exists e, has_entries response = Raise e.
Proof.
  unfold has_entries. intros Hd.
  destruct response; try discriminate Hd; cbn [truthy]; auto.
  - destruct b; [right; eexists; reflexivity | auto].
  - destruct (negb (z =? 0)%Z); [right; eexists; reflexivity | auto].
  - destruct (negb (Qeq_bool q 0)); [right; eexists; reflexivity | auto].
  - destruct (negb (s =? "")); [| auto].
    unfold py_contains, rbind.
    destruct (is_substring "entries" s); [right; eexists; reflexivity | auto].
  - destruct l; [auto |].
    unfold py_contains, rbind.
    destruct (existsb _ _); [right; eexists; reflexivity | auto].
Qed.

Lemma has_url_dict (e : list (string * pyval)) :
  has_url (VDict e) = Ok (dict_mem "url" e).
Proof.
  unfold has_url. destruct e as [| [k v] e']; reflexivity.
Qed.

Lemma has_url_not_dict (first_entry : pyval) :
  is_dict first_entry = false ->
  has_url first_entry = Ok false
  \/ (exists e, has_url first_entry = Raise e)
  \/ (has_url first_entry = Ok true
      /\ exists e, py_getitem first_entry "url" = Raise e).
Proof.
  unfold has_url. intros Hd.
  destruct first_entry; try discriminate Hd; cbn [truthy]; auto.
  - destruct b; [right; left; eexists; reflexivity | auto].
  - destruct (negb (z =? 0)%Z); [right; left; eexists; reflexivity | auto].
  - destruct (negb (Qeq_bool q 0)); [right; left; eexists; reflexivity | auto].
  - destruct (negb (s =? "")); [| auto].
    unfold py_contains.
    destruct (is_substring "url" s); [| auto].
    right; right. split; [reflexivity | eexists; reflexivity].
  - destruct l; [auto |].
    unfold py_contains.
    destruct (existsb _ _); [| auto].
    right; right. split; [reflexivity | eexists; reflexivity].
Qed.

Lemma first_entry_url_choice
  (W : env) (opts response : pyval) (s : state) :
  first_entry_url W opts response s
  = match first_entry_choice response with
    | Ok (Some v) => (cleanup_cookie_file W opts ;; ret (Some v)) s
    | Ok None => (Ok None, s)
    | Raise e => (Raise e, s)
    end.
Proof.
  unfold first_entry_url, first_entry_choice, bind, lift, ret, rbind.
  destruct (has_entries response) as [[|] |]; try reflexivity.
  destruct (py_getitem response "entries") as [entries |]; try reflexivity.
  destruct (py_getitem0 entries) as [first_entry |]; try reflexivity.
  destruct (has_url first_entry) as [[|] |]; try reflexivity.
  destruct (py_getitem first_entry "url") as [result |]; reflexivity.
Qed.

(** The loop body returns exactly on a usable response. *)
Lemma first_entry_choice_usable (response : pyval) :
  match usable_url response with
  | Some v => first_entry_choice response = Ok (Some v)
  | None =>
      first_entry_choice response = Ok None
      \/ exists e, first_entry_choice response = Raise e
  end.
Proof.
  unfold first_entry_choice.
  destruct (is_dict response) eqn:Hd.
  2:{ replace (usable_url response) with (@None pyval)
        by (destruct response; try reflexivity; discriminate Hd).
      destruct (has_entries_not_dict _ Hd) as [-> | [e ->]];
        [left; reflexivity | right; eexists; reflexivity]. }
  destruct (is_dict_inv _ Hd) as [d ->].
  unfold usable_url, lookup. rewrite has_entries_dict. cbn [py_getitem].
  destruct (dict_lookup "entries" d) as [entries |]; [| left; reflexivity].
  cbn [rbind].
  destruct (truthy entries) eqn:Ht.
  2:{ replace (match entries with
               | VList (first_entry :: _) =>
                   match first_entry with
                   | VDict d0 => dict_lookup "url" d0
                   | _ => None
                   end
               | _ => None
               end) with (@None pyval).
      - left; reflexivity.
      - destruct entries; try reflexivity.
        destruct l; [reflexivity | discriminate Ht]. }
  destruct entries as [| b | z | q | str | [| first_entry rest] | entries];
    cbn [py_getitem0 rbind]; try (right; eexists; reflexivity).
  - destruct str as [| c str]; [cbn in Ht; discriminate Ht |].
    cbn [rbind]. unfold has_url. cbn [truthy String.eqb negb].
    rewrite contains_url_char. left; reflexivity.
  - cbn [py_getitem0 rbind].
    destruct (is_dict first_entry) eqn:Hfe.
    + destruct (is_dict_inv _ Hfe) as [e ->].
      rewrite has_url_dict. cbn [rbind]. unfold dict_mem, py_getitem.
      destruct (dict_lookup "url" e); [reflexivity | left; reflexivity].
    + replace (match first_entry with
               | VDict d0 => dict_lookup "url" d0
               | _ => None
               end) with (@None pyval)
        by (destruct first_entry; try reflexivity; discriminate Hfe).
      destruct (has_url_not_dict _ Hfe) as [-> | [[e ->] | [-> [e ->]]]];
        [ left; reflexivity
        | right; eexists; reflexivity
        | right; eexists; reflexivity ].
Qed.

(** The exit step of the extractor object never raises and makes no call of
    the extractor. *)
Lemma YoutubeDL_exit_run (opts : pyval) (s : state) :
  YoutubeDL_exit opts s = (Ok tt, exited opts s).
Proof.
  unfold exited, YoutubeDL_exit.
  destruct (params_cookiefile opts); reflexivity.
Qed.

Lemma finally_exit_run (A : Type) (c : M A) (opts : pyval) (s : state) :
  finally c (YoutubeDL_exit opts) s = (fst (c s), exited opts (snd (c s))).
Proof.
  unfold finally. destruct (c s) as [r s1].
  rewrite YoutubeDL_exit_run. reflexivity.
Qed.

Lemma exited_trace (opts : pyval) (s : state) :
  trace (exited opts s)
  = match params_cookiefile opts with
    | Some p => EvSaveCookies p :: trace s
    | None => trace s
    end.
Proof.
  unfold exited, YoutubeDL_exit.
  destruct (params_cookiefile opts); reflexivity.
Qed.

Lemma exited_same_extractor (opts : pyval) (s : state) :
  same_extractor s (exited opts s).
Proof.
  unfold same_extractor, calls. rewrite exited_trace.
  destruct (params_cookiefile opts); repeat split.
Qed.

(** Every run of one attempt. *)
Lemma search_attempt_full
  (W : env) (o : list (string * pyval)) (q : string) (s : state) :
  search_attempt W (VDict o) q s
  = let failed e :=
      EvPrint ("Search attempt failed with " ++ q ++ ": " ++ exn_str e) in
    let sY := emitted (EvYoutubeDL (VDict o)) s in
    match ydl_init W (calls is_youtubedl s) (VDict o) with
    | Some e => (Ok None, emitted (failed e) sY)
    | None =>
        let s3 := emitted (EvExtractInfo (VDict o) q)
                    (emitted (EvPrint ("Searching with query: " ++ q)) sY) in
        match ydl_extract_info W (calls is_extract_info s) (VDict o) q with
        | Raise e => (Ok None, emitted (failed e) (exited (VDict o) s3))
        | Ok response =>
            match first_entry_choice response with
            | Ok (Some v) =>
                (Ok (Some v),
                 exited (VDict o) (snd (cleanup_cookie_file W (VDict o) s3)))
            | Ok None => (Ok None, exited (VDict o) s3)
            | Raise e => (Ok None, emitted (failed e) (exited (VDict o) s3))
            end
        end
    end.
Proof.
  unfold search_attempt, with_YoutubeDL, try_except, extract_info, print.
  unfold bind at 1. unfold get_calls at 1. unfold bind at 1. unfold emit at 1.
  cbn zeta.
  destruct (ydl_init W (calls is_youtubedl s) (VDict o)) as [e |];
    [reflexivity |].
  rewrite finally_exit_run.
  unfold bind, emit, get_calls, lift, ret, emitted.
  cbn -[first_entry_url cleanup_cookie_file String.append exited]. unfold calls.
  destruct (ydl_extract_info W _ (VDict o) q) as [response | e];
    [| reflexivity].
  rewrite first_entry_url_choice.
  destruct (first_entry_choice response) as [[v |] | e]; try reflexivity.
  unfold bind, ret.
  destruct (cleanup_cookie_file_run W o
              {| trace := EvExtractInfo (VDict o) q
                          :: EvPrint ("Searching with query: " ++ q)
                          :: EvYoutubeDL (VDict o) :: trace s;
                 files := files s |}) as (s4 & Hrun & _).
  rewrite Hrun. reflexivity.
Qed.

(** One attempt: it never raises, it returns exactly on a usable response, it
    builds one extractor object and makes at most one call. *)
Lemma search_attempt_run
  (W : env) (o : list (string * pyval)) (q : string) (s : state) :
  let ny := calls is_youtubedl s in
  let ne := calls is_extract_info s in
  let R := attempt_response W ny ne (VDict o) q in
  exists s',
    search_attempt W (VDict o) q s = (Ok (usable (fst R)), s')
    /\ calls is_youtubedl s' = S ny
    /\ calls is_extract_info s' = snd R
    /\ queries (trace s')
       = (match ydl_init W ny (VDict o) with Some _ => [] | None => [q] end
          ++ queries (trace s))%list.
Proof.
  intros ny ne R. subst R ny ne.
  rewrite search_attempt_full. unfold attempt_response. cbn zeta.
  destruct (ydl_init W (calls is_youtubedl s) (VDict o)) as [e |].
  - eexists. split; [reflexivity |]. repeat split.
  - cbn [fst snd].
    set (s3 := emitted (EvExtractInfo (VDict o) q)
                 (emitted (EvPrint ("Searching with query: " ++ q))
                    (emitted (EvYoutubeDL (VDict o)) s))).
    assert (H3 : calls is_youtubedl s3 = S (calls is_youtubedl s)
                 /\ calls is_extract_info s3 = S (calls is_extract_info s)
                 /\ queries (trace s3) = q :: queries (trace s))
      by (repeat split).
    destruct H3 as (Hy3 & He3 & Hq3).
    destruct (exited_same_extractor (VDict o) s3) as (Hy & He & Hq).
    rewrite Hy3 in Hy. rewrite He3 in He. rewrite Hq3 in Hq.
    destruct (ydl_extract_info W (calls is_extract_info s) (VDict o) q)
      as [response | e].
    + pose proof (first_entry_choice_usable response) as Hchoice.
      cbn [usable].
      destruct (usable_url response) as [v |].
      * rewrite Hchoice.
        destruct (cleanup_cookie_file_run W o s3) as (s4 & Hrun & Hsame).
        rewrite Hrun. cbn [snd].
        pose proof (same_extractor_trans Hsame (exited_same_extractor (VDict o) s4))
          as (Hy4 & He4 & Hq4).
        rewrite Hy3 in Hy4. rewrite He3 in He4. rewrite Hq3 in Hq4.
        eexists. split; [reflexivity |]. repeat split; assumption.
      * destruct Hchoice as [-> | [e ->]];
          (eexists; split; [reflexivity |]; repeat split; assumption).
    + eexists. split; [reflexivity |]. repeat split; assumption.
Qed.

(** *** Frame rules *)

Section Frames.
Variable R : state -> state -> Prop.
Hypothesis R_refl : forall s, R s s.
Hypothesis R_trans : forall s1 s2 s3, R s1 s2 -> R s2 s3 -> R s1 s3.

Lemma frames_ret (A : Type) (a : A) : frames R (ret a).
  Proof. intros s. apply R_refl. Qed.

Lemma frames_raise (A : Type) (e : exn) : frames R (@raise A e).
  Proof. intros s. apply R_refl. Qed.

Lemma frames_lift (A : Type) (r : result A) : frames R (lift r).
  Proof. intros s. apply R_refl. Qed.

Lemma frames_get_calls (p : event -> bool) : frames R (get_calls p).
  Proof. intros s. apply R_refl. Qed.

Lemma frames_bind (A B : Type) (c : M A) (f : A -> M B) :
    frames R c -> (forall a, frames R (f a)) -> frames R (bind c f).
  Proof.
    intros Hc Hf s. unfold bind. specialize (Hc s).
    destruct (c s) as [[a | e] s1]; cbn [snd] in *.
    - apply R_trans with s1; [exact Hc | apply Hf].
    - exact Hc.
  Qed.

Lemma frames_try_except (A : Type) (c : M A) (h : exn -> M A) :
    frames R c -> (forall e, frames R (h e)) -> frames R (try_except c h).
  Proof.
    intros Hc Hh s. unfold try_except. specialize (Hc s).
    destruct (c s) as [[a | e] s1]; cbn [snd] in *.
    - exact Hc.
    - apply R_trans with s1; [exact Hc | apply Hh].
  Qed.

Lemma frames_finally (A : Type) (c : M A) (f : M unit) :
    frames R c -> frames R f -> frames R (finally c f).
  Proof.
    intros Hc Hf s. unfold finally. specialize (Hc s).
    destruct (c s) as [r s1]. cbn [snd] in Hc.
    specialize (Hf s1).
    destruct (f s1) as [[u | e] s2]; cbn [snd] in *;
      apply R_trans with s1; assumption.
  Qed.

Lemma frames_try_except_gaierror (A : Type) (c : M A) (h : exn -> M A) :
    frames R c -> (forall e, frames R (h e)) -> frames R (try_except_gaierror c h).
  Proof.
    intros Hc Hh. apply frames_try_except; [exact Hc |].
    intros e. destruct (is_gaierror e); [apply Hh | apply frames_raise].
  Qed.
End Frames.

Lemma nothing_deleted_refl (s : state) : nothing_deleted s s.
Proof. split; [reflexivity | apply incl_refl]. Qed.

Lemma nothing_deleted_trans (s1 s2 s3 : state) :
  nothing_deleted s1 s2 -> nothing_deleted s2 s3 -> nothing_deleted s1 s3.
Proof.
  intros [U1 F1] [U2 F2]. split; [congruence |].
  eapply incl_tran; eassumption.
Qed.

Lemma same_extractor_emit (e : event) :
  is_youtubedl e = false -> is_extract_info e = false ->
  frames same_extractor (emit e).
Proof.
  intros Hy He s. unfold same_extractor, calls. cbn.
  rewrite Hy, He. repeat split.
  destruct e; try reflexivity; discriminate He.
Qed.

Lemma nothing_deleted_emit (e : event) :
  is_unlink e = false -> frames nothing_deleted (emit e).
Proof.
  intros Hu s. unfold nothing_deleted, unlinked. cbn.
  rewrite Hu. split; [reflexivity | apply incl_refl].
Qed.

Lemma same_extractor_add_file (p : string) : frames same_extractor (add_file p).
Proof. intros s. repeat split. Qed.

Lemma nothing_deleted_add_file (p : string) : frames nothing_deleted (add_file p).
Proof. intros s. split; [reflexivity | apply incl_tl, incl_refl]. Qed.

Lemma same_extractor_write_file (p : string) : frames same_extractor (write_file p).
Proof. intros s. repeat split. Qed.

Lemma nothing_deleted_write_file (p : string) :
  frames nothing_deleted (write_file p).
Proof.
  intros s. split; [reflexivity |]. cbn.
  destruct (existsb (String.eqb p) (files s));
    [apply incl_refl | apply incl_tl, incl_refl].
Qed.

Lemma trace_extends_refl (s : state) : trace_extends s s.
Proof. exists []. reflexivity. Qed.

Lemma trace_extends_trans (s1 s2 s3 : state) :
  trace_extends s1 s2 -> trace_extends s2 s3 -> trace_extends s1 s3.
Proof.
  intros [d1 H1] [d2 H2]. exists (d2 ++ d1)%list.
  rewrite H2, H1, app_assoc. reflexivity.
Qed.

Lemma trace_extends_emit (e : event) : frames trace_extends (emit e).
Proof. intros s. exists [e]. reflexivity. Qed.

Lemma trace_extends_add_file (p : string) : frames trace_extends (add_file p).
Proof. intros s. exists []. reflexivity. Qed.

Lemma trace_extends_write_file (p : string) : frames trace_extends (write_file p).
Proof. intros s. exists []. reflexivity. Qed.

Lemma trace_extends_in (s s' : state) (e : event) :
  trace_extends s s' -> In e (trace s) -> In e (trace s').
Proof. intros [d ->] H. apply in_or_app. right. exact H. Qed.

Create HintDb frame.

#[local] Hint Resolve same_extractor_refl same_extractor_trans
  nothing_deleted_refl nothing_deleted_trans : frame.
#[local] Hint Resolve trace_extends_refl trace_extends_trans : frame.
#[local] Hint Resolve frames_ret frames_raise frames_lift frames_get_calls
  same_extractor_add_file nothing_deleted_add_file trace_extends_add_file
  same_extractor_write_file nothing_deleted_write_file trace_extends_write_file
  trace_extends_emit : frame.

(** One step of a frame proof: split a composite computation, or close a
    primitive one. *)
Ltac frame_side :=
  first [ exact same_extractor_trans | exact nothing_deleted_trans
        | exact trace_extends_trans
        | exact same_extractor_refl | exact nothing_deleted_refl
        | exact trace_extends_refl ].

Ltac frame_step :=
  match goal with
  | |- frames _ (bind _ _) => apply frames_bind; [frame_side .. | | intros ?]
  | |- frames _ (try_except _ _) =>
      apply frames_try_except; [frame_side .. | | intros ?]
  | |- frames _ (try_except_gaierror _ _) =>
      apply frames_try_except_gaierror; [frame_side .. | | intros ?]
  | |- frames _ (finally _ _) => apply frames_finally; [frame_side .. | |]
  | |- frames _ (YoutubeDL_exit _) => unfold YoutubeDL_exit
  | |- frames same_extractor (emit _) => apply same_extractor_emit; reflexivity
  | |- frames nothing_deleted (emit _) => apply nothing_deleted_emit; reflexivity
  | |- frames _ (print _) => unfold print
  | |- frames _ (if ?b then _ else _) => destruct b
  | |- frames _ (match ?x with _ => _ end) => destruct x
  | |- frames _ _ => solve [auto with frame]
  end.

Ltac frame := repeat frame_step.

Lemma frames_YoutubeDL_exit_nothing_deleted (opts : pyval) :
  frames nothing_deleted (YoutubeDL_exit opts).
Proof. frame. Qed.

Lemma get_ydl_opts_same_extractor (W : env) : frames same_extractor (get_ydl_opts W).
Proof.
  unfold get_ydl_opts, test_dns_resolution, try_alternative_dns,
    create_cookie_file, socket_gethostbyname, resolver_resolve,
    NamedTemporaryFile, write_flush_close.
  frame.
Qed.

Lemma get_ydl_opts_nothing_deleted (W : env) :
  frames nothing_deleted (get_ydl_opts W).
Proof.
  unfold get_ydl_opts, test_dns_resolution, try_alternative_dns,
    create_cookie_file, socket_gethostbyname, resolver_resolve,
    NamedTemporaryFile, write_flush_close.
  frame.
Qed.

Lemma extractor_queries_same (s s' : state) :
  same_extractor s s' -> extractor_queries s' = extractor_queries s.
Proof. intros (_ & _ & Hq). unfold extractor_queries. rewrite Hq. reflexivity. Qed.

Lemma length_sent (W : env) (ny : nat) (opts : pyval) (q : string) :
  (length (sent W ny opts q) <= 1)%nat.
Proof. unfold sent. destruct (ydl_init W ny opts); cbn; lia. Qed.

Lemma rev_sent (W : env) (ny : nat) (opts : pyval) (q : string) :
  rev (sent W ny opts q) = sent W ny opts q.
Proof. unfold sent. destruct (ydl_init W ny opts); reflexivity. Qed.

(** The whole search after a successful probe, in terms of what the
    extractor answers to the two attempts. *)
Lemma search_video_by_title_run
  (W : env) (title : string) (s s1 s2 : state) (dns_msg : string)
  (base : dict pyval) :
  test_dns_resolution W s = (Ok (true, dns_msg), s1) ->
  get_ydl_opts W s1 = (Ok base, s2) ->
  let ydl_opts := search_opts base in
  let narrow := "ytsearch1:" ++ title in
  let broad := "ytsearch5:" ++ title in
  let ny := calls is_youtubedl s2 in
  let R1 := attempt_response W ny (calls is_extract_info s2) ydl_opts narrow in
  let R2 := attempt_response W (S ny) (snd R1) ydl_opts broad in
  let made :=
    (sent W ny ydl_opts narrow
     ++ match usable (fst R1) with
        | Some _ => []
        | None => sent W (S ny) ydl_opts broad
        end)%list in
  exists s',
    search_video_by_title W title s
    = (cascade_result title (fst R1) (fst R2), s')
    /\ extractor_queries s' = (extractor_queries s ++ made)%list
    /\ (length made <= 2)%nat
    /\ (calls is_youtubedl s2 < calls is_youtubedl s')%nat.
Proof.
  intros Hdns Hopts ydl_opts narrow broad ny R1 R2 made.
  assert (Hsame : extractor_queries s2 = extractor_queries s).
  { rewrite test_dns_resolution_run in Hdns. injection Hdns as _ <-.
    pose proof (get_ydl_opts_same_extractor W
                  (emitted (EvGethostbyname "www.youtube.com") s)) as H.
    rewrite Hopts in H. cbn [snd] in H.
    rewrite (extractor_queries_same H). reflexivity. }
  assert (Hlen : (length made <= 2)%nat).
  { subst made. rewrite length_app.
    pose proof (length_sent W ny ydl_opts narrow).
    pose proof (length_sent W (S ny) ydl_opts broad).
    destruct (usable (fst R1)); cbn [length]; lia. }
  subst made R2 R1 ny.
  unfold search_video_by_title. unfold bind at 1. rewrite Hdns. cbn [negb].
  unfold bind at 1. rewrite Hopts.
  fold (search_opts base). fold ydl_opts.
  unfold search_queries. fold narrow. fold broad.
  cbn [search_loop]. unfold bind at 1. unfold bind at 1.
  destruct (search_attempt_run W
              (dict_update base [ ("extract_flat", VBool true);
                                  ("playlist_items", VStr "1");
                                  ("no_warnings", VBool true) ]) narrow s2)
    as (s3 & Hrun1 & Hy1 & He1 & Hq1).
  fold (search_opts base) in Hrun1, He1, Hq1. fold ydl_opts in Hrun1, He1, Hq1.
  fold (sent W (calls is_youtubedl s2) ydl_opts narrow) in Hq1.
  rewrite Hrun1. unfold cascade_result.
  destruct (usable (fst (attempt_response W (calls is_youtubedl s2)
                           (calls is_extract_info s2) ydl_opts narrow)))
    as [url |].
  - exists s3. split; [reflexivity |]. split; [| split; [exact Hlen | lia]].
    unfold extractor_queries in *.
    rewrite Hq1, rev_app_distr, Hsame, rev_sent, app_nil_r.
    reflexivity.
  - unfold bind at 1.
    destruct (search_attempt_run W
                (dict_update base [ ("extract_flat", VBool true);
                                    ("playlist_items", VStr "1");
                                    ("no_warnings", VBool true) ]) broad s3)
      as (s4 & Hrun2 & Hy2 & He2 & Hq2).
    fold (search_opts base) in Hrun2, He2, Hq2. fold ydl_opts in Hrun2, He2, Hq2.
    rewrite Hy1, He1 in Hrun2. rewrite Hy1 in Hq2.
    fold (sent W (S (calls is_youtubedl s2)) ydl_opts broad) in Hq2.
    rewrite Hrun2.
    assert (Hq4 : extractor_queries s4
                  = (extractor_queries s
                     ++ sent W (calls is_youtubedl s2) ydl_opts narrow
                     ++ sent W (S (calls is_youtubedl s2)) ydl_opts broad)%list).
    { unfold extractor_queries in *.
      rewrite Hq2, Hq1, !rev_app_distr, !rev_sent.
      rewrite Hsame, app_assoc. reflexivity. }
    destruct (usable (fst (attempt_response W (S (calls is_youtubedl s2))
                             (snd (attempt_response W (calls is_youtubedl s2)
                                     (calls is_extract_info s2) ydl_opts narrow))
                             ydl_opts broad))) as [url |].
    + exists s4. split; [reflexivity |].
      split; [exact Hq4 | split; [exact Hlen | lia]].
    + unfold ret at 1. unfold bind at 1.
      destruct (cleanup_cookie_file_run W
                  (dict_update base [ ("extract_flat", VBool true);
                                      ("playlist_items", VStr "1");
                                      ("no_warnings", VBool true) ]) s4)
        as (s5 & Hrun3 & Hsame5).
      fold (search_opts base) in Hrun3. fold ydl_opts in Hrun3.
      rewrite Hrun3. exists s5. split; [reflexivity |].
      split; [| split; [exact Hlen | destruct Hsame5 as (Hy5 & _); lia]].
      rewrite (extractor_queries_same Hsame5). exact Hq4.
Qed.



(** C10: the search tests that the first entry has a [url] key, not what the
    key holds: when the first entry of the narrow response carries an explicit
    null [url], the search returns null as the URL, after that single call. *)
Theorem null_url_is_returned
  (W : env) (title : string) (s s1 s2 : state) (dns_msg : string)
  (base : dict pyval) (response first_entry : pyval) (rest : list pyval) :
  test_dns_resolution W s = (Ok (true, dns_msg), s1) ->
  get_ydl_opts W s1 = (Ok base, s2) ->
  ydl_init W (calls is_youtubedl s2) (search_opts base) = None ->
  ydl_extract_info W (calls is_extract_info s2) (search_opts base)
    ("ytsearch1:" ++ title) = Ok response ->
  lookup response "entries" = Some (VList (first_entry :: rest)) ->
  lookup first_entry "url" = Some VNone ->
  exists s',
    search_video_by_title W title s = (Ok VNone, s')
    /\ extractor_queries s'
       = (extractor_queries s ++ [ ("ytsearch1:" ++ title)%string ])%list.
Proof.
  intros Hdns Hopts Hinit Hresp Hentries Hurl.
  destruct (@search_video_by_title_run W title s s1 s2 dns_msg base Hdns Hopts)
    as (s' & Hrun & Hq & _).
  exists s'.
  unfold cascade_result, attempt_response, sent in Hrun, Hq.
  rewrite Hinit in Hrun, Hq. cbn [fst snd] in Hrun, Hq.
  rewrite Hresp in Hrun, Hq. cbn [usable] in Hrun, Hq.
  unfold usable_url in Hrun, Hq. rewrite Hentries, Hurl in Hrun, Hq.
  split; [exact Hrun | exact Hq].
Qed.

Lemma null_url_is_returned_witness :
  exists s',
    search_video_by_title null_url_world "lofi hip hop radio" initial_state
    = (Ok VNone, s')
    /\ extractor_queries s' = [ "ytsearch1:lofi hip hop radio" ].
Proof.
  destruct (@null_url_is_returned null_url_world "lofi hip hop radio"
              initial_state _ _ _ _ _ _ _
              eq_refl eq_refl eq_refl eq_refl eq_refl eq_refl)
    as (s' & Hrun & Hq).
  exists s'. split; [exact Hrun | exact Hq].
Defined.

(* ===================================================================== *)
(** ** The cookie file *)
(* ===================================================================== *)

Lemma dict_lookup_set (V : Type) (k : string) (v : V) (d : dict V) :
  dict_lookup k (dict_set k v d) = Some v.
Proof.
  induction d as [| [k' v'] r IH]; cbn.
  - rewrite String.eqb_refl. reflexivity.
  - destruct (String.eqb k k') eqn:E; cbn; rewrite E; [reflexivity | exact IH].
Qed.

(** With a cookie blob configured and a temporary file that can be written,
    the configuration builder creates the file and records it. *)
Lemma get_ydl_opts_creates (W : env) (s : state) (p : string) :
  YOUTUBE_COOKIES W <> "" ->
  p <> "" ->
  (forall n e, sys_gethostbyname W n "www.youtube.com" = Raise e ->
               is_gaierror e = true) ->
  tmp_create W (calls is_tmp_create s) = Ok p ->
  tmp_write W (calls is_tmp_write s) p (YOUTUBE_COOKIES W) = None ->
  exists base s',
    get_ydl_opts W s = (Ok base, s')
    /\ In p (files s')
    /\ dict_lookup "cookiefile" base = Some (VStr p).
Proof.
  intros Hcookies Hp Hgai Hcreate Hwrite.
  assert (Hc : negb (truthy (VStr (YOUTUBE_COOKIES W))) = false).
  { cbn. destruct (String.eqb_spec (YOUTUBE_COOKIES W) ""); [contradiction | reflexivity]. }
  assert (Ht : truthy (VStr p) = true).
  { cbn. destruct (String.eqb_spec p ""); [contradiction | reflexivity]. }
  unfold get_ydl_opts. unfold bind at 1. rewrite test_dns_resolution_run.
  unfold create_cookie_file. rewrite Hc.
  unfold try_except, NamedTemporaryFile, write_flush_close, add_file, print.
  unfold calls in Hcreate, Hwrite.
  destruct (sys_gethostbyname W (calls is_gethostbyname s) "www.youtube.com")
    as [addr | e] eqn:Hprobe.
  - unfold bind, get_calls, emit, lift, ret, calls, emitted.
    cbn -[String.append user_agent truthy py_or dict_set].
    rewrite Hcreate. cbn -[String.append user_agent truthy py_or dict_set].
    rewrite Hwrite. rewrite Ht.
    do 2 eexists. split; [reflexivity |]. split; [left; reflexivity |].
    apply dict_lookup_set.
  - rewrite (Hgai _ _ Hprobe).
    unfold bind at 1. cbn [negb]. unfold bind at 1. unfold bind at 1.
    unfold emit at 1. unfold bind at 1. rewrite try_alternative_dns_run.
    unfold bind, get_calls, emit, lift, ret, calls, emitted.
    destruct (dns_resolve W _ _ _ _) as [[| first rest] | e'];
      cbn -[String.append user_agent truthy py_or dict_set];
      rewrite Hcreate; cbn -[String.append user_agent truthy py_or dict_set];
      rewrite Hwrite, Ht;
      (do 2 eexists; split; [reflexivity |]; split; [left; reflexivity |];
       apply dict_lookup_set).
Qed.

Lemma smoke_test_body_frames (W : env) (R : state -> state -> Prop) (opts : pyval) :
  (forall s, R s s) ->
  (forall s1 s2 s3, R s1 s2 -> R s2 s3 -> R s1 s3) ->
  (forall e, is_unlink e = false -> frames R (emit e)) ->
  (forall p, frames R (write_file p)) ->
  frames R
    (with_YoutubeDL W opts
       (info <- extract_info W opts "https://www.youtube.com/watch?v=dQw4w9WgXcQ" ;;
        ret (match info with VNone => false | _ => true end,
             "yt-dlp working correctly"))).
Proof.
  intros Hrefl Htrans Hemit Hwrite.
  unfold with_YoutubeDL, YoutubeDL_exit, extract_info.
  repeat first
    [ apply frames_bind; [exact Htrans | | intros ?]
    | apply frames_finally; [exact Htrans | |]
    | apply frames_get_calls; exact Hrefl
    | apply frames_lift; exact Hrefl
    | apply frames_ret; exact Hrefl
    | apply frames_raise; exact Hrefl
    | apply Hemit; reflexivity
    | apply Hwrite
    | match goal with |- frames _ (match ?x with _ => _ end) => destruct x end ].
Qed.

Lemma smoke_test_body_event (W : env) (opts : pyval) (s : state) :
  In (EvYoutubeDL opts)
    (trace (snd (with_YoutubeDL W opts
                   (info <- extract_info W opts
                              "https://www.youtube.com/watch?v=dQw4w9WgXcQ" ;;
                    ret (match info with VNone => false | _ => true end,
                         "yt-dlp working correctly")) s))).
Proof.
  unfold with_YoutubeDL.
  unfold bind at 1. unfold get_calls at 1. unfold bind at 1. unfold emit at 1.
  destruct (ydl_init W _ opts); [left; reflexivity |].
  rewrite finally_exit_run. cbn [snd].
  rewrite exited_trace.
  assert (H : In (EvYoutubeDL opts)
                (trace (snd ((info <- extract_info W opts
                                "https://www.youtube.com/watch?v=dQw4w9WgXcQ" ;;
                              ret (match info with VNone => false | _ => true end,
                                   "yt-dlp working correctly"))
                             {| trace := EvYoutubeDL opts :: trace s;
                                files := files s |})))).
  { unfold extract_info, bind, get_calls, emit, lift, ret.
    cbn -[String.append].
    destruct (ydl_extract_info W _ opts _); cbn; auto. }
  destruct (params_cookiefile opts); [right |]; exact H.
Qed.

Lemma http_check_run (W : env) (s : state) :
  exists h,
    try_except
      (status_code <- requests_get W "https://www.youtube.com" 10 ;;
       ret (Z.eqb status_code 200,
            "HTTP connection successful: " ++ str_of_Z status_code))
      (fun e => ret (false, "HTTP connection failed: " ++ exn_str e)) s
    = (Ok h, emitted (EvHttpGet "https://www.youtube.com" 10) s).
Proof.
  unfold try_except, requests_get, bind, get_calls, emit, lift, ret, emitted.
  destruct (http_get W (calls is_http_get s) "https://www.youtube.com" 10);
    eexists; reflexivity.
Qed.

(** C3 fails on the diagnostic smoke test: with a cookie blob configured,
    [test_youtube_access] builds a configuration whose [cookiefile] is the
    temporary file, hands it to the extractor, and returns normally with the
    file still there and without any call of [os.unlink]. *)
Theorem smoke_test_keeps_cookie_file (W : env) (s : state) (p : string) :
  YOUTUBE_COOKIES W <> "" ->
  p <> "" ->
  (forall n e, sys_gethostbyname W n "www.youtube.com" = Raise e ->
               is_gaierror e = true) ->
  tmp_create W (calls is_tmp_create s) = Ok p ->
  tmp_write W (calls is_tmp_write s) p (YOUTUBE_COOKIES W) = None ->
  exists r s' base,
    test_youtube_access W s = (Ok r, s')
    /\ In (EvYoutubeDL (VDict base)) (trace s')
    /\ dict_lookup "cookiefile" base = Some (VStr p)
    /\ In p (files s')
    /\ unlinked s' = unlinked s.
Proof.
  intros Hcookies Hp Hgai Hcreate Hwrite.
  unfold test_youtube_access. unfold try_except at 1.
  unfold bind at 1. rewrite test_dns_resolution_run.
  assert (Hprobe : exists dns,
             match sys_gethostbyname W (calls is_gethostbyname s) "www.youtube.com" with
             | Ok _ => Ok (true, "DNS resolution working")
             | Raise e =>
                 if is_gaierror e
                 then Ok (false, "DNS resolution failed: " ++ exn_str e)
                 else Raise e
             end = Ok dns).
  { destruct (sys_gethostbyname W _ _) as [a | e] eqn:E; [eauto |].
    rewrite (Hgai _ _ E). eauto. }
  destruct Hprobe as [[dns_works dns_msg] ->].
  unfold bind at 1.
  destruct (http_check_run W (emitted (EvGethostbyname "www.youtube.com") s))
    as [[http_works http_msg] ->].
  unfold bind at 1. unfold try_except at 1. unfold bind at 1.
  set (s2 := emitted (EvHttpGet "https://www.youtube.com" 10)
               (emitted (EvGethostbyname "www.youtube.com") s)).
  destruct (@get_ydl_opts_creates W s2 p Hcookies Hp Hgai Hcreate Hwrite)
    as (base & s3 & Hrun & Hin & Hlook).
  pose proof (get_ydl_opts_nothing_deleted W s2) as [Hu3 _].
  rewrite Hrun in *. cbn [snd] in Hu3.
  pose proof (@smoke_test_body_frames W nothing_deleted (VDict base)
                nothing_deleted_refl nothing_deleted_trans
                nothing_deleted_emit nothing_deleted_write_file s3)
    as [Hu4 Hf4].
  pose proof (smoke_test_body_event W (VDict base) s3) as Hev.
  destruct (with_YoutubeDL W (VDict base) _ s3) as [[[ytdlp_works ytdlp_msg] | e] s4];
    cbn [snd] in Hu4, Hf4, Hev;
    (do 3 eexists; split; [reflexivity |]; split; [exact Hev |];
     split; [exact Hlook |]; split; [apply Hf4; exact Hin |];
     rewrite Hu4, Hu3; reflexivity).
Qed.

Lemma smoke_test_keeps_cookie_file_witness :
  exists r s' base,
    test_youtube_access cookie_world initial_state = (Ok r, s')
    /\ In (EvYoutubeDL (VDict base)) (trace s')
    /\ dict_lookup "cookiefile" base = Some (VStr "/tmp/tmpq1w2e3.txt")
    /\ In "/tmp/tmpq1w2e3.txt" (files s')
    /\ unlinked s' = unlinked initial_state.
Proof.
  apply (@smoke_test_keeps_cookie_file cookie_world initial_state
           "/tmp/tmpq1w2e3.txt").
  - discriminate.
  - discriminate.
  - intros n e H. discriminate H.
  - reflexivity.
  - reflexivity.
Defined.

(** The two resolution entry points, in the same world, call [os.unlink] on
    the file.  The search finds nothing here and unlinks after its last
    extractor object is closed.  The extraction unlinks inside the [with]
    block; the exit step of the extractor object follows and saves the cookie
    jar to the same path. *)
Example search_releases_cookie_file :
  let s' := snd (search_video_by_title cookie_world "lofi hip hop radio"
                   initial_state) in
  files s' = [] /\ unlinked s' = [ EvUnlink (VStr "/tmp/tmpq1w2e3.txt") ].
Proof. vm_compute. split; reflexivity. Qed.

Example extract_releases_cookie_file :
  let s' := snd (extract_video_info cookie_world "https://x/watch?v=a"
                   initial_state) in
  unlinked s' = [ EvUnlink (VStr "/tmp/tmpq1w2e3.txt") ].
Proof. vm_compute. reflexivity. Qed.

Example extract_exit_saves_cookie_file :
  let s' := snd (extract_video_info cookie_world "https://x/watch?v=a"
                   initial_state) in
  files s' = [ "/tmp/tmpq1w2e3.txt" ]
  /\ hd_error (trace s') = Some (EvSaveCookies "/tmp/tmpq1w2e3.txt").
Proof. vm_compute. split; reflexivity. Qed.

Example smoke_test_leaves_cookie_file :
  let s' := snd (test_youtube_access cookie_world initial_state) in
  files s' = [ "/tmp/tmpq1w2e3.txt" ] /\ unlinked s' = [].
Proof. vm_compute. split; reflexivity. Qed.

(** Should the constructor of the extractor object raise, [extract_video_info]
    leaves by the [with] statement, outside its [try], and the file stays. *)
Example constructor_failure_leaves_cookie_file :
  let s' := snd (extract_video_info broken_extractor_world "https://x/watch?v=a"
                   initial_state) in
  files s' = [ "/tmp/tmpq1w2e3.txt" ] /\ unlinked s' = [].
Proof. vm_compute. split; reflexivity. Qed.

(* ===================================================================== *)
(** ** Life of the cookie file *)
(* ===================================================================== *)

Lemma dict_lookup_set_other (V : Type) (k k' : string) (v : V) (d : dict V) :
  k <> k' -> dict_lookup k' (dict_set k v d) = dict_lookup k' d.
Proof.
  intros Hne. induction d as [| [k0 v0] r IH]; cbn.
  - destruct (String.eqb_spec k' k); [congruence | reflexivity].
  - destruct (String.eqb_spec k k0) as [-> | Hk].
    + cbn. destruct (String.eqb_spec k' k0); [congruence | reflexivity].
    + cbn. destruct (String.eqb k' k0); [reflexivity | exact IH].
Qed.

Lemma truthy_str (p : string) : truthy (VStr p) = true <-> p <> "".
Proof.
  cbn. destruct (String.eqb_spec p ""); split; intros H;
    try reflexivity; try discriminate; congruence.
Qed.

(** Every run of [create_cookie_file], by what the outside answers. *)
Lemma create_cookie_file_run (W : env) (s : state) :
  create_cookie_file W s
  = if String.eqb (YOUTUBE_COOKIES W) "" then (Ok VNone, s)
    else
      match tmp_create W (calls is_tmp_create s) with
      | Raise e =>
          (Ok VNone, emitted (cookie_warning e) (emitted EvTmpCreate s))
      | Ok p =>
          let s1 := {| trace := EvTmpWrite p (YOUTUBE_COOKIES W)
                                :: EvTmpCreate :: trace s;
                       files := p :: files s |} in
          match tmp_write W (calls is_tmp_write s) p (YOUTUBE_COOKIES W) with
          | Some e => (Ok VNone, emitted (cookie_warning e) s1)
          | None => (Ok (VStr p), s1)
          end
      end.
Proof.
  unfold create_cookie_file. cbn [truthy negb].
  destruct (String.eqb (YOUTUBE_COOKIES W) ""); cbn [negb]; [reflexivity |].
  unfold try_except, NamedTemporaryFile, write_flush_close, add_file, print,
    bind, get_calls, emit, lift, ret, raise, emitted, cookie_warning, calls.
  destruct (tmp_create W _) as [p | e]; cbn -[String.append]; [| reflexivity].
  destruct (tmp_write W _ p _); reflexivity.
Qed.

Lemma create_cookie_file_ok (W : env) (s : state) :
  exists v s', create_cookie_file W s = (Ok v, s').
Proof.
  rewrite create_cookie_file_run.
  destruct (String.eqb (YOUTUBE_COOKIES W) ""); [eauto |].
  destruct (tmp_create W _) as [p | e]; cbn zeta; [| eauto].
  destruct (tmp_write W _ p _); eauto.
Qed.

(** X1: [create_cookie_file] never raises; a path it returns names a file
    that exists; with no cookie blob configured it returns [None] and does
    nothing at all. *)
Theorem create_cookie_file_safe (W : env) (s : state) :
  exists v s',
    create_cookie_file W s = (Ok v, s')
    /\ (v = VNone \/ exists p, v = VStr p /\ In p (files s'))
    /\ incl (files s) (files s')
    /\ (YOUTUBE_COOKIES W = "" -> v = VNone /\ s' = s).
Proof.
  rewrite create_cookie_file_run.
  destruct (String.eqb_spec (YOUTUBE_COOKIES W) "") as [He | Hne].
  - exists VNone, s. repeat split; auto using incl_refl.
  - destruct (tmp_create W _) as [p | e].
    + cbn zeta. destruct (tmp_write W _ p _).
      * do 2 eexists. split; [reflexivity |]. cbn.
        repeat split; auto using incl_tl, incl_refl; contradiction.
      * do 2 eexists. split; [reflexivity |]. cbn.
        split; [right; exists p; auto |].
        split; [auto using incl_tl, incl_refl | contradiction].
    + do 2 eexists. split; [reflexivity |]. cbn.
      repeat split; auto using incl_refl; contradiction.
Qed.

(** X2: when the temporary file is created but writing the cookie blob fails,
    [create_cookie_file] prints the warning with the error text and returns
    [None], and the file it created stays on disk. *)
Theorem failed_write_leaves_file (W : env) (s : state) (p : string) (e : exn) :
  YOUTUBE_COOKIES W <> "" ->
  tmp_create W (calls is_tmp_create s) = Ok p ->
  tmp_write W (calls is_tmp_write s) p (YOUTUBE_COOKIES W) = Some e ->
  exists s',
    create_cookie_file W s = (Ok VNone, s')
    /\ In p (files s')
    /\ hd_error (trace s')
       = Some (EvPrint ("Warning: Failed to create cookie file: " ++ exn_str e))
    /\ unlinked s' = unlinked s.
Proof.
  intros Hne Hcreate Hwrite. rewrite create_cookie_file_run.
  destruct (String.eqb_spec (YOUTUBE_COOKIES W) ""); [contradiction |].
  rewrite Hcreate. cbn zeta. rewrite Hwrite.
  eexists. split; [reflexivity |]. cbn. auto.
Qed.

Lemma failed_write_leaves_file_witness :
  exists s',
    create_cookie_file full_disk_world initial_state = (Ok VNone, s')
    /\ In "/tmp/tmpq1w2e3.txt" (files s').
Proof.
  destruct (@failed_write_leaves_file full_disk_world initial_state
              "/tmp/tmpq1w2e3.txt"
              (PyExc OSError "[Errno 28] No space left on device"))
    as (s' & Hrun & Hin & _).
  - discriminate.
  - reflexivity.
  - reflexivity.
  - exists s'. split; [exact Hrun | exact Hin].
Defined.

Lemma create_cookie_file_safe_witness :
  exists v s',
    create_cookie_file quiet_world initial_state = (Ok v, s')
    /\ v = VNone /\ s' = initial_state.
Proof.
  destruct (create_cookie_file_safe quiet_world initial_state)
    as (v & s' & Hrun & _ & _ & Hempty).
  destruct (Hempty eq_refl) as [Hv Hs].
  exists v, s'. repeat split; assumption.
Defined.

(** Every run of [get_ydl_opts]: only an exception of the primary probe that
    is not a [socket.gaierror] makes it raise. *)
Lemma get_ydl_opts_run (W : env) (s : state) :
  get_ydl_opts W s
  = let continue :=
      let (c, s2) := create_cookie_file W (dns_logged W s) in
      match c with
      | Ok cookie_file => (Ok (opts_with W cookie_file), s2)
      | Raise e => (Raise e, s2)
      end in
    match sys_gethostbyname W (calls is_gethostbyname s) "www.youtube.com" with
    | Ok _ => continue
    | Raise e =>
        if is_gaierror e then continue
        else (Raise e, emitted (EvGethostbyname "www.youtube.com") s)
    end.
Proof.
  unfold get_ydl_opts. unfold bind at 1. rewrite test_dns_resolution_run.
  unfold dns_logged.
  destruct (sys_gethostbyname W (calls is_gethostbyname s) "www.youtube.com")
    as [addr | e].
  - cbn [negb]. unfold bind at 1. unfold ret at 1. unfold bind at 1.
    destruct (create_cookie_file W _) as [[c | e] s2]; reflexivity.
  - destruct (is_gaierror e); [| reflexivity].
    cbn [negb]. unfold bind at 1. unfold bind at 1. unfold print at 1.
    unfold emit at 1. unfold bind at 1. rewrite try_alternative_dns_run.
    unfold alt_message.
    match goal with
    | |- context [dns_resolve W (calls is_resolve ?st)] =>
        change (calls is_resolve st) with (calls is_resolve s)
    end.
    destruct (dns_resolve W (calls is_resolve s) ["8.8.8.8"; "8.8.4.4"]
                "www.youtube.com" "A") as [[| first rest] | e'];
      unfold print, emit; unfold bind at 1;
      destruct (create_cookie_file W _) as [[c | e''] s2]; reflexivity.
Qed.

Lemma dns_logged_facts (W : env) (s : state) :
  files (dns_logged W s) = files s
  /\ calls is_tmp_create (dns_logged W s) = calls is_tmp_create s
  /\ calls is_tmp_write (dns_logged W s) = calls is_tmp_write s
  /\ unlinked (dns_logged W s) = unlinked s
  /\ same_extractor s (dns_logged W s)
  /\ calls is_resolve (dns_logged W s)
     = (calls is_resolve s
        + match sys_gethostbyname W (calls is_gethostbyname s) "www.youtube.com" with
          | Ok _ => 0
          | Raise _ => 1
          end)%nat.
Proof.
  unfold dns_logged.
  destruct (sys_gethostbyname W (calls is_gethostbyname s) "www.youtube.com");
    unfold calls, unlinked, same_extractor, emitted; cbn;
    repeat split; lia.
Qed.

(** [create_cookie_file] only creates, writes and prints. *)
Lemma create_cookie_file_calls (W : env) (s : state) (p : event -> bool) :
  p EvTmpCreate = false ->
  (forall path content, p (EvTmpWrite path content) = false) ->
  (forall line, p (EvPrint line) = false) ->
  filter p (trace (snd (create_cookie_file W s))) = filter p (trace s).
Proof.
  intros Hc Hw Hp. rewrite create_cookie_file_run.
  destruct (String.eqb (YOUTUBE_COOKIES W) ""); [reflexivity |].
  destruct (tmp_create W _) as [path | e]; cbn zeta.
  - destruct (tmp_write W _ path _); unfold cookie_warning; cbn;
      rewrite ?Hp, Hw, Hc; reflexivity.
  - unfold cookie_warning. cbn. rewrite Hp, Hc. reflexivity.
Qed.

Lemma get_ydl_opts_ok_inv (W : env) (s s' : state) (base : dict pyval) :
  get_ydl_opts W s = (Ok base, s') ->
  exists cookie_file,
    create_cookie_file W (dns_logged W s) = (Ok cookie_file, s')
    /\ base = opts_with W cookie_file.
Proof.
  rewrite get_ydl_opts_run. cbn zeta. intros H.
  assert (Hcont : (let (c, s2) := create_cookie_file W (dns_logged W s) in
                   match c with
                   | Ok cookie_file => (Ok (opts_with W cookie_file), s2)
                   | Raise e => (Raise e, s2)
                   end) = (Ok base, s')).
  { destruct (sys_gethostbyname W _ _) as [a | e]; [exact H |].
    destruct (is_gaierror e); [exact H | discriminate H]. }
  destruct (create_cookie_file W (dns_logged W s)) as [[c | e] s2];
    [| discriminate Hcont].
  injection Hcont as <- <-. exists c. split; reflexivity.
Qed.

Lemma baseline_key_not_special (k : string) (v : pyval) :
  dict_lookup k baseline_opts = Some v -> k <> "proxy" /\ k <> "cookiefile".
Proof.
  intros H. split; intros ->; discriminate H.
Qed.

(** X3: whatever the environment holds, the options [get_ydl_opts] returns
    carry every baseline setting with its fixed value (30 s socket timeout,
    5 retries, forced IPv4, ...): neither the proxy nor the cookie file
    overwrites one. *)
Theorem baseline_options_kept
  (W : env) (s s' : state) (base : dict pyval) (k : string) (v : pyval) :
  get_ydl_opts W s = (Ok base, s') ->
  dict_lookup k baseline_opts = Some v ->
  dict_lookup k base = Some v.
Proof.
  intros Hrun Hk.
  destruct (get_ydl_opts_ok_inv _ _ Hrun) as (c & _ & ->).
  destruct (baseline_key_not_special _ Hk) as [Hp Hc].
  unfold opts_with.
  destruct (truthy c); [rewrite dict_lookup_set_other by congruence |];
    (destruct (truthy (py_or _ _));
     [rewrite dict_lookup_set_other by congruence |]; exact Hk).
Qed.

Lemma baseline_options_kept_witness :
  dict_lookup "socket_timeout"
    (match fst (get_ydl_opts cookie_world initial_state) with
     | Ok base => base
     | Raise _ => []
     end) = Some (VInt 30).
Proof.
  exact (@baseline_options_kept cookie_world initial_state _ _
           "socket_timeout" (VInt 30) eq_refl eq_refl).
Defined.

(** X4: the [proxy] option is [HTTP_PROXY] when that variable is set and not
    empty, else [HTTPS_PROXY] when that one is set and not empty, and is
    absent otherwise. *)
Theorem proxy_option_from_environment
  (W : env) (s s' : state) (base : dict pyval) :
  get_ydl_opts W s = (Ok base, s') ->
  dict_lookup "proxy" base = option_map VStr (env_proxy W).
Proof.
  intros Hrun.
  destruct (get_ydl_opts_ok_inv _ _ Hrun) as (c & _ & ->).
  unfold opts_with.
  assert (Hp : dict_lookup "proxy"
                 (if truthy (py_or (os_getenv W "HTTP_PROXY")
                                   (os_getenv W "HTTPS_PROXY"))
                  then dict_set "proxy"
                         (py_or (os_getenv W "HTTP_PROXY")
                                (os_getenv W "HTTPS_PROXY")) baseline_opts
                  else baseline_opts)
               = option_map VStr (env_proxy W)).
  { unfold os_getenv, env_proxy, py_or.
    destruct (environ W "HTTP_PROXY") as [[| c1 r1] |];
      destruct (environ W "HTTPS_PROXY") as [[| c2 r2] |]; reflexivity. }
  destruct (truthy c); [| exact Hp].
  rewrite dict_lookup_set_other by discriminate. exact Hp.
Qed.

Lemma proxy_option_from_environment_witness :
  dict_lookup "proxy"
    (match fst (get_ydl_opts proxy_world initial_state) with
     | Ok base => base
     | Raise _ => []
     end) = Some (VStr "http://10.0.0.1:3128").
Proof.
  exact (@proxy_option_from_environment proxy_world initial_state _ _ eq_refl).
Defined.

Lemma opts_with_cookiefile (W : env) (c : pyval) :
  dict_lookup "cookiefile" (opts_with W c) = if truthy c then Some c else None.
Proof.
  unfold opts_with.
  destruct (truthy c).
  - apply dict_lookup_set.
  - destruct (truthy (py_or _ _)); [| reflexivity].
    rewrite dict_lookup_set_other by discriminate. reflexivity.
Qed.

(** X5: a [cookiefile] recorded in the options returned by [get_ydl_opts] is
    always a non-empty path of a file that exists at that moment; with no
    cookie blob configured there is no [cookiefile] option and the file
    system is untouched. *)
Theorem recorded_cookie_file_exists
  (W : env) (s s' : state) (base : dict pyval) :
  get_ydl_opts W s = (Ok base, s') ->
  (forall v, dict_lookup "cookiefile" base = Some v ->
             exists p, v = VStr p /\ p <> "" /\ In p (files s'))
  /\ (YOUTUBE_COOKIES W = "" ->
      dict_lookup "cookiefile" base = None /\ files s' = files s).
Proof.
  intros Hrun.
  destruct (get_ydl_opts_ok_inv _ _ Hrun) as (c & Hc & ->).
  rewrite opts_with_cookiefile.
  destruct (dns_logged_facts W s) as (Hfiles & _).
  rewrite create_cookie_file_run in Hc.
  destruct (String.eqb_spec (YOUTUBE_COOKIES W) "") as [He | Hne].
  - injection Hc as <- <-. cbn [truthy]. split; [intros v [=] | auto].
  - split; [| contradiction].
    destruct (tmp_create W _) as [p | e]; cbn zeta in Hc.
    + destruct (tmp_write W _ p _); injection Hc as <- <-;
        [cbn [truthy]; intros v [=] |].
      destruct (truthy (VStr p)) eqn:Ht; [| intros v [=]].
      intros v [= <-]. exists p. apply truthy_str in Ht.
      repeat split; [exact Ht | left; reflexivity].
    + injection Hc as <- <-. cbn [truthy]. intros v [=].
Qed.

Lemma recorded_cookie_file_exists_witness :
  dict_lookup "cookiefile"
    (match fst (get_ydl_opts quiet_world initial_state) with
     | Ok base => base
     | Raise _ => []
     end) = None
  /\ files (snd (get_ydl_opts quiet_world initial_state)) = [].
Proof.
  exact (proj2 (@recorded_cookie_file_exists quiet_world initial_state _ _ eq_refl)
           eq_refl).
Defined.

(** X6: a failed primary probe does not stop [get_ydl_opts]: it prints the
    DNS issue, queries the alternative resolver once and still returns the
    options; after a successful primary probe the alternative resolver is not
    queried. *)
Theorem dns_failure_does_not_block_options (W : env) (s : state) :
  (forall e, sys_gethostbyname W (calls is_gethostbyname s) "www.youtube.com"
             = Raise e ->
             is_gaierror e = true ->
             exists base s',
               get_ydl_opts W s = (Ok base, s')
               /\ calls is_resolve s' = S (calls is_resolve s)
               /\ In (EvPrint ("DNS Issue: DNS resolution failed: " ++ exn_str e))
                    (trace s'))
  /\ (forall addr,
         sys_gethostbyname W (calls is_gethostbyname s) "www.youtube.com"
         = Ok addr ->
         exists base s',
           get_ydl_opts W s = (Ok base, s')
           /\ calls is_resolve s' = calls is_resolve s).
Proof.
  pose proof (create_cookie_file_ok W (dns_logged W s)) as (c & s2 & Hc).
  pose proof (@create_cookie_file_calls W (dns_logged W s) is_resolve eq_refl
                (fun _ _ => eq_refl) (fun _ => eq_refl)) as Hres.
  rewrite Hc in Hres. cbn [snd] in Hres.
  destruct (dns_logged_facts W s) as (_ & _ & _ & _ & _ & Hcount).
  split.
  - intros e He Hgai. exists (opts_with W c), s2.
    rewrite get_ydl_opts_run. cbn zeta. rewrite He, Hgai, Hc.
    split; [reflexivity |]. rewrite He in Hcount.
    split; [unfold calls in *; rewrite Hres; lia |].
    pose proof (create_cookie_file_run W (dns_logged W s)) as Hrun.
    rewrite Hc in Hrun.
    assert (Hin : In (EvPrint ("DNS Issue: DNS resolution failed: " ++ exn_str e))
                    (trace (dns_logged W s))).
    { unfold dns_logged. rewrite He. cbn. auto. }
    destruct (String.eqb (YOUTUBE_COOKIES W) "");
      [injection Hrun as _ ->; exact Hin |].
    destruct (tmp_create W _) as [p | e']; cbn zeta in Hrun.
    + destruct (tmp_write W _ p _); injection Hrun as _ ->; cbn; auto.
    + injection Hrun as _ ->. cbn. auto.
  - intros addr Ha. exists (opts_with W c), s2.
    rewrite get_ydl_opts_run. cbn zeta. rewrite Ha, Hc.
    split; [reflexivity |]. rewrite Ha in Hcount.
    unfold calls in *. rewrite Hres. lia.
Qed.

Lemma dns_failure_does_not_block_options_witness :
  exists base s',
    get_ydl_opts no_dns_world initial_state = (Ok base, s')
    /\ calls is_resolve s' = 1%nat.
Proof.
  destruct (proj1 (dns_failure_does_not_block_options no_dns_world initial_state)
              _ eq_refl eq_refl) as (base & s' & Hrun & Hcalls & _).
  exists base, s'. split; [exact Hrun | exact Hcalls].
Defined.

(** *** Clean-up *)

Lemma existsb_eqb_in (p : string) (fs : list string) :
  existsb (String.eqb p) fs = true <-> In p fs.
Proof.
  rewrite existsb_exists. split.
  - intros (x & Hin & Heq). apply String.eqb_eq in Heq. subst. exact Hin.
  - intros Hin. exists p. split; [exact Hin | apply String.eqb_refl].
Qed.

Lemma in_without (p q : string) (fs : list string) :
  In q (without p fs) <-> In q fs /\ q <> p.
Proof.
  unfold without. rewrite filter_In. rewrite negb_true_iff.
  split; intros [H1 H2]; split; try assumption.
  - intros ->. rewrite String.eqb_refl in H2. discriminate.
  - apply String.eqb_neq. exact H2.
Qed.

Lemma without_absent (p : string) (fs : list string) :
  ~ In p fs -> without p fs = fs.
Proof.
  intros Hn. unfold without. induction fs as [| f r IH]; [reflexivity |].
  cbn. destruct (String.eqb_spec f p) as [-> | Hne].
  - exfalso. apply Hn. left. reflexivity.
  - cbn. f_equal. apply IH. intros H. apply Hn. right. exact H.
Qed.

(** Every run of [cleanup_cookie_file] on a dictionary of options. *)
Lemma cleanup_cookie_file_full (W : env) (o : list (string * pyval)) (s : state) :
  cleanup_cookie_file W (VDict o) s
  = match dict_lookup "cookiefile" o with
    | None => (Ok tt, s)
    | Some path =>
        (Ok tt,
         {| trace := EvUnlink path :: trace s;
            files :=
              match path with
              | VStr p =>
                  if existsb (String.eqb p) (files s) then
                    match unlink_fault W (calls is_unlink s) p with
                    | Some _ => files s
                    | None => without p (files s)
                    end
                  else files s
              | _ => files s
              end |})
    end.
Proof.
  unfold cleanup_cookie_file, try_except, os_unlink, file_exists, remove_file,
    bind, lift, ret, raise, get_calls, emit, py_contains, py_getitem, dict_mem,
    without.
  destruct (dict_lookup "cookiefile" o) as [path |]; [| reflexivity].
  destruct path; cbn; try reflexivity.
  destruct (existsb (String.eqb s0) (files s)); [| reflexivity].
  destruct (unlink_fault W (calls is_unlink s) s0); reflexivity.
Qed.

Lemma cleanup_files_after
  (W : env) (o : list (string * pyval)) (s : state) (p : string) :
  dict_lookup "cookiefile" o = Some (VStr p) ->
  unlink_fault W (calls is_unlink s) p = None ->
  cleanup_cookie_file W (VDict o) s
  = (Ok tt, {| trace := EvUnlink (VStr p) :: trace s;
               files := without p (files s) |}).
Proof.
  intros Hkey Hfault. rewrite cleanup_cookie_file_full, Hkey, Hfault.
  destruct (existsb (String.eqb p) (files s)) eqn:E; [reflexivity |].
  rewrite without_absent; [reflexivity |].
  intros Hin. apply existsb_eqb_in in Hin. congruence.
Qed.

(** X7: [cleanup_cookie_file] never raises and never adds a file; on options
    without [cookiefile] it does nothing at all. *)
Theorem cleanup_never_raises (W : env) (o : list (string * pyval)) (s : state) :
  exists s',
    cleanup_cookie_file W (VDict o) s = (Ok tt, s')
    /\ incl (files s') (files s)
    /\ (dict_lookup "cookiefile" o = None -> s' = s).
Proof.
  rewrite cleanup_cookie_file_full.
  destruct (dict_lookup "cookiefile" o) as [path |].
  - eexists. split; [reflexivity |]. split; [| intros [=]]. cbn [files].
    destruct path; try apply incl_refl.
    destruct (existsb _ _); [| apply incl_refl].
    destruct (unlink_fault W _ _); [apply incl_refl |].
    intros q Hq. apply in_without in Hq. tauto.
  - exists s. split; [reflexivity |]. split; [apply incl_refl | auto].
Qed.

Lemma cleanup_never_raises_witness :
  cleanup_cookie_file quiet_world (VDict baseline_opts) initial_state
  = (Ok tt, initial_state).
Proof.
  destruct (cleanup_never_raises quiet_world baseline_opts initial_state)
    as (s' & Hrun & _ & Hsame).
  rewrite Hrun. rewrite (Hsame eq_refl). reflexivity.
Defined.

(** X8: a deletion error is swallowed: when [os.unlink] fails on the recorded
    file, [cleanup_cookie_file] returns normally after that one attempt and
    the file is still there. *)
Theorem deletion_error_is_swallowed
  (W : env) (o : list (string * pyval)) (s : state) (p : string) (e : exn) :
  dict_lookup "cookiefile" o = Some (VStr p) ->
  In p (files s) ->
  unlink_fault W (calls is_unlink s) p = Some e ->
  exists s',
    cleanup_cookie_file W (VDict o) s = (Ok tt, s')
    /\ trace s' = EvUnlink (VStr p) :: trace s
    /\ files s' = files s.
Proof.
  intros Hkey Hin Hfault. rewrite cleanup_cookie_file_full, Hkey.
  apply existsb_eqb_in in Hin. rewrite Hin, Hfault.
  eexists. repeat split.
Qed.

(** X9: when [os.unlink] succeeds, [cleanup_cookie_file] removes the recorded
    file and no other: afterwards the file is gone and every other file is
    there exactly as before. *)
Theorem cleanup_removes_recorded_file
  (W : env) (o : list (string * pyval)) (s : state) (p : string) :
  dict_lookup "cookiefile" o = Some (VStr p) ->
  unlink_fault W (calls is_unlink s) p = None ->
  exists s',
    cleanup_cookie_file W (VDict o) s = (Ok tt, s')
    /\ ~ In p (files s')
    /\ (forall q, q <> p -> (In q (files s') <-> In q (files s)))
    /\ files s' = without p (files s).
Proof.
  intros Hkey Hfault. rewrite (cleanup_files_after W o s Hkey Hfault).
  eexists. split; [reflexivity |]. cbn [files].
  split; [| split; [| reflexivity]].
  - intros Hin. apply in_without in Hin. tauto.
  - intros q Hq. rewrite in_without. tauto.
Qed.

(** X10: cleaning up twice is harmless: the second call finds no file, its
    [FileNotFoundError] is swallowed, and the file system stays as the first
    call left it. *)
Theorem cleanup_twice
  (W : env) (o : list (string * pyval)) (s : state) (p : string) :
  dict_lookup "cookiefile" o = Some (VStr p) ->
  unlink_fault W (calls is_unlink s) p = None ->
  exists s1 s2,
    cleanup_cookie_file W (VDict o) s = (Ok tt, s1)
    /\ cleanup_cookie_file W (VDict o) s1 = (Ok tt, s2)
    /\ files s2 = files s1
    /\ unlinked s2 = EvUnlink (VStr p) :: EvUnlink (VStr p) :: unlinked s.
Proof.
  intros Hkey Hfault.
  rewrite (cleanup_files_after W o s Hkey Hfault).
  eexists. eexists. split; [reflexivity |].
  rewrite cleanup_cookie_file_full, Hkey. split; [reflexivity |].
  cbn [files trace].
  assert (Hno : existsb (String.eqb p) (without p (files s)) = false).
  { destruct (existsb (String.eqb p) (without p (files s))) eqn:E;
      [| reflexivity].
    apply existsb_eqb_in in E. apply in_without in E. tauto. }
  rewrite Hno. split; reflexivity.
Qed.

Lemma deletion_error_is_swallowed_witness :
  exists s',
    cleanup_cookie_file sticky_file_world (VDict opts_with_cookie) state_with_cookie
    = (Ok tt, s')
    /\ files s' = [ "/tmp/other.txt"; "/tmp/tmpq1w2e3.txt" ].
Proof.
  destruct (@deletion_error_is_swallowed sticky_file_world opts_with_cookie
              state_with_cookie "/tmp/tmpq1w2e3.txt" _ eq_refl
              (or_intror (or_introl eq_refl)) eq_refl)
    as (s' & Hrun & _ & Hfiles).
  exists s'. split; [exact Hrun | exact Hfiles].
Defined.

Lemma cleanup_removes_recorded_file_witness :
  exists s',
    cleanup_cookie_file quiet_world (VDict opts_with_cookie) state_with_cookie
    = (Ok tt, s')
    /\ files s' = [ "/tmp/other.txt" ].
Proof.
  destruct (@cleanup_removes_recorded_file quiet_world opts_with_cookie
              state_with_cookie "/tmp/tmpq1w2e3.txt" eq_refl eq_refl)
    as (s' & Hrun & _ & _ & Hfiles).
  exists s'. split; [exact Hrun | exact Hfiles].
Defined.

Lemma cleanup_twice_witness :
  exists s1 s2,
    cleanup_cookie_file quiet_world (VDict opts_with_cookie) state_with_cookie
    = (Ok tt, s1)
    /\ cleanup_cookie_file quiet_world (VDict opts_with_cookie) s1 = (Ok tt, s2)
    /\ files s2 = files s1.
Proof.
  destruct (@cleanup_twice quiet_world opts_with_cookie state_with_cookie
              "/tmp/tmpq1w2e3.txt" eq_refl eq_refl)
    as (s1 & s2 & H1 & H2 & H3 & _).
  exists s1, s2. repeat split; assumption.
Defined.

Lemma dict_lookup_update_other
  (V : Type) (k : string) (upd d : dict V) :
  dict_lookup k upd = None ->
  dict_lookup k (dict_update d upd) = dict_lookup k d.
Proof.
  unfold dict_update. revert d.
  induction upd as [| [k0 v0] r IH]; intros d Hk; [reflexivity |].
  cbn in Hk. destruct (String.eqb_spec k k0) as [-> | Hne]; [discriminate |].
  cbn [fold_left fst snd]. rewrite (IH _ Hk).
  apply dict_lookup_set_other. congruence.
Qed.

(** X11: building the options and cleaning up afterwards is a round trip on
    the file system: when the temporary file has a fresh, non-empty name and
    can be written and deleted, the files after [cleanup_cookie_file] on the
    search (or extraction) options are exactly the files before
    [get_ydl_opts]. *)
Theorem build_then_cleanup_restores_files
  (W : env) (s s1 : state) (base : dict pyval) :
  get_ydl_opts W s = (Ok base, s1) ->
  (forall n q, tmp_create W n = Ok q -> q <> "" /\ ~ In q (files s)) ->
  (forall n q c, tmp_write W n q c = None) ->
  (forall n q, unlink_fault W n q = None) ->
  (exists s2, cleanup_cookie_file W (search_opts base) s1 = (Ok tt, s2)
              /\ files s2 = files s)
  /\ (exists s2, cleanup_cookie_file W (extract_opts base) s1 = (Ok tt, s2)
                 /\ files s2 = files s).
Proof.
  intros Hrun Hfresh Hwrite Hunlink.
  assert (Hany : forall o,
             dict_lookup "cookiefile" o = dict_lookup "cookiefile" base ->
             exists s2, cleanup_cookie_file W (VDict o) s1 = (Ok tt, s2)
                        /\ files s2 = files s).
  { intros o Ho.
    destruct (get_ydl_opts_ok_inv _ _ Hrun) as (c & Hc & ->).
    rewrite opts_with_cookiefile in Ho.
    destruct (dns_logged_facts W s) as (Hfiles & _).
    rewrite create_cookie_file_run in Hc.
    rewrite cleanup_cookie_file_full, Ho.
    destruct (String.eqb (YOUTUBE_COOKIES W) "").
    { injection Hc as <- <-. cbn [truthy]. eexists. split; [reflexivity | exact Hfiles]. }
    destruct (tmp_create W _) as [p | e] eqn:Hcreate; cbn zeta in Hc.
    - rewrite Hwrite in Hc. injection Hc as <- <-.
      destruct (Hfresh _ _ Hcreate) as [Hp Hnew].
      apply truthy_str in Hp. rewrite Hp.
      eexists. split; [reflexivity |]. cbn [files].
      rewrite Hunlink. cbn [existsb]. rewrite String.eqb_refl. cbn [orb].
      unfold without. cbn [filter]. rewrite String.eqb_refl. cbn [negb].
      rewrite Hfiles. apply without_absent. exact Hnew.
    - injection Hc as <- <-. cbn [truthy].
      eexists. split; [reflexivity |]. cbn [files emitted]. exact Hfiles. }
  split; apply Hany; apply dict_lookup_update_other; reflexivity.
Qed.

Lemma build_then_cleanup_restores_files_witness :
  let built := get_ydl_opts cookie_world initial_state in
  let base := match fst built with Ok b => b | Raise _ => [] end in
  files (snd built) = [ "/tmp/tmpq1w2e3.txt" ]
  /\ exists s2,
       cleanup_cookie_file cookie_world (search_opts base) (snd built) = (Ok tt, s2)
       /\ files s2 = [].
Proof.
  intros built base. split; [reflexivity |].
  destruct (@build_then_cleanup_restores_files cookie_world initial_state
              (snd built) base eq_refl) as [(s2 & Hrun & Hfiles) _].
  - intros n q H. cbn in H. injection H as <-.
    split; [discriminate | intros []].
  - reflexivity.
  - reflexivity.
  - exists s2. split; [exact Hrun | exact Hfiles].
Defined.

(* ===================================================================== *)
(** ** The cookie file at the exits of the two resolution entry points *)
(* ===================================================================== *)

Lemma exited_cookie (opts : pyval) (s : state) (p : string) :
  params_cookiefile opts = Some p ->
  exited opts s
  = {| trace := EvSaveCookies p :: trace s; files := saved p (files s) |}.
Proof.
  intros H. unfold exited, YoutubeDL_exit. rewrite H. reflexivity.
Qed.

Lemma params_cookiefile_dict (o : list (string * pyval)) (p : string) :
  dict_lookup "cookiefile" o = Some (VStr p) ->
  params_cookiefile (VDict o) = Some p.
Proof. intros H. unfold params_cookiefile. rewrite H. reflexivity. Qed.

Lemma not_in_without (p : string) (fs : list string) : ~ In p (without p fs).
Proof. intros H. apply in_without in H. tauto. Qed.

Lemma saved_without (p : string) (fs : list string) :
  saved p (without p fs) = p :: without p fs.
Proof.
  unfold saved.
  destruct (existsb (String.eqb p) (without p fs)) eqn:E; [| reflexivity].
  apply existsb_eqb_in in E. destruct (@not_in_without p fs E).
Qed.

Lemma without_saved (p : string) (fs : list string) :
  without p (saved p fs) = without p fs.
Proof.
  unfold saved. destruct (existsb (String.eqb p) fs); [reflexivity |].
  unfold without. cbn [filter]. rewrite String.eqb_refl. reflexivity.
Qed.

(** One attempt either returns, after the clean-up and the exit step that
    follows it, or goes on without an [os.unlink] and with at most the cookie
    file written. *)
Lemma search_attempt_files
  (W : env) (o : list (string * pyval)) (q : string) (s : state) (p : string) :
  dict_lookup "cookiefile" o = Some (VStr p) ->
  (forall n, unlink_fault W n p = None) ->
  (exists v s',
      search_attempt W (VDict o) q s = (Ok (Some v), s')
      /\ files s' = p :: without p (files s)
      /\ unlinked s' = EvUnlink (VStr p) :: unlinked s
      /\ hd_error (trace s') = Some (EvSaveCookies p))
  \/ (exists s',
         search_attempt W (VDict o) q s = (Ok None, s')
         /\ without p (files s') = without p (files s)
         /\ unlinked s' = unlinked s).
Proof.
  intros Hkey Hfault.
  pose proof (params_cookiefile_dict _ Hkey) as Hp.
  rewrite search_attempt_full. cbn zeta.
  destruct (ydl_init W (calls is_youtubedl s) (VDict o)) as [e |].
  - right. eexists. repeat split.
  - destruct (ydl_extract_info W _ (VDict o) q) as [response | e].
    + destruct (first_entry_choice response) as [[v |] | e].
      * left. exists v. eexists. split; [reflexivity |].
        rewrite (cleanup_files_after W o _ Hkey (Hfault _)). cbn [snd].
        rewrite (@exited_cookie _ _ _ Hp). cbn [files trace emitted hd_error].
        rewrite saved_without. repeat split.
      * right. eexists. split; [reflexivity |].
        rewrite (@exited_cookie _ _ _ Hp). cbn [files trace emitted].
        rewrite without_saved. repeat split.
      * right. eexists. split; [reflexivity |].
        rewrite (@exited_cookie _ _ _ Hp). cbn [files trace emitted].
        rewrite without_saved. repeat split.
    + right. eexists. split; [reflexivity |].
      rewrite (@exited_cookie _ _ _ Hp). cbn [files trace emitted].
      rewrite without_saved. repeat split.
Qed.

(** X12: [search_video_by_title] calls [os.unlink] on the recorded cookie
    file exactly once on each of its exits after the options are built.  On
    the 404 exit the call comes after the last extractor object is closed,
    and the file is gone.  On the exits that return a URL the call is made
    inside the [with] block; the exit step of the extractor object follows it
    and saves the cookie jar to the same path, so the file is on disk when
    the URL is returned.  No other file is touched. *)
Theorem search_cookie_file_at_exit
  (W : env) (title : string) (s s1 s2 : state) (dns_msg : string)
  (base : dict pyval) (p : string) :
  test_dns_resolution W s = (Ok (true, dns_msg), s1) ->
  get_ydl_opts W s1 = (Ok base, s2) ->
  dict_lookup "cookiefile" base = Some (VStr p) ->
  (forall n, unlink_fault W n p = None) ->
  let run := search_video_by_title W title s in
  unlinked (snd run) = EvUnlink (VStr p) :: unlinked s
  /\ match fst run with
     | Ok _ =>
         In p (files (snd run))
         /\ files (snd run) = p :: without p (files s2)
         /\ hd_error (trace (snd run)) = Some (EvSaveCookies p)
     | Raise _ =>
         ~ In p (files (snd run))
         /\ files (snd run) = without p (files s2)
     end.
Proof.
  intros Hdns Hopts Hkey Hfault.
  assert (Hu2 : unlinked s2 = unlinked s).
  { rewrite test_dns_resolution_run in Hdns. injection Hdns as _ <-.
    pose proof (get_ydl_opts_nothing_deleted W
                  (emitted (EvGethostbyname "www.youtube.com") s)) as [H _].
    rewrite Hopts in H. exact H. }
  assert (Hkey' : dict_lookup "cookiefile"
                    (dict_update base [ ("extract_flat", VBool true);
                                        ("playlist_items", VStr "1");
                                        ("no_warnings", VBool true) ])
                  = Some (VStr p)).
  { rewrite dict_lookup_update_other by reflexivity. exact Hkey. }
  set (o := dict_update base [ ("extract_flat", VBool true);
                               ("playlist_items", VStr "1");
                               ("no_warnings", VBool true) ]) in *.
  cbn zeta.
  remember (search_video_by_title W title s) as run eqn:Hr.
  unfold search_video_by_title in Hr. unfold bind at 1 in Hr.
  rewrite Hdns in Hr. cbn [negb] in Hr.
  unfold bind at 1 in Hr. rewrite Hopts in Hr. fold o in Hr.
  unfold search_queries in Hr. cbn [search_loop] in Hr.
  unfold bind at 1 in Hr. unfold bind at 1 in Hr.
  destruct (@search_attempt_files W o ("ytsearch1:" ++ title) s2 p Hkey' Hfault)
    as [(v & s3 & Hrun & Hf3 & Hu3 & Ht3) | (s3 & Hrun & Hf3 & Hu3)];
    rewrite Hrun in Hr.
  - subst run. unfold ret. cbn [fst snd].
    rewrite Hu3, Hu2, Hf3. repeat split; [apply in_eq | exact Ht3].
  - unfold bind at 1 in Hr.
    destruct (@search_attempt_files W o ("ytsearch5:" ++ title) s3 p Hkey' Hfault)
      as [(v & s4 & Hrun2 & Hf4 & Hu4 & Ht4) | (s4 & Hrun2 & Hf4 & Hu4)];
      rewrite Hrun2 in Hr.
    + subst run. unfold ret. cbn [fst snd].
      rewrite Hu4, Hu3, Hu2, Hf4, Hf3.
      repeat split; [apply in_eq | exact Ht4].
    + unfold ret at 1 in Hr. unfold bind at 1 in Hr.
      rewrite (cleanup_files_after W o s4 Hkey' (Hfault _)) in Hr.
      subst run. unfold raise. cbn [fst snd files].
      rewrite Hf4, Hf3.
      split; [| split; [apply not_in_without | reflexivity]].
      unfold unlinked in *. cbn [trace filter is_unlink].
      rewrite Hu4, Hu3, Hu2. reflexivity.
Qed.

Lemma search_cookie_file_at_exit_witness :
  fst (search_video_by_title cookie_search_world "lofi hip hop radio"
         initial_state) = Ok (VStr "https://x/a")
  /\ files (snd (search_video_by_title cookie_search_world "lofi hip hop radio"
                   initial_state)) = [ "/tmp/tmpq1w2e3.txt" ]
  /\ files (snd (search_video_by_title cookie_world "lofi hip hop radio"
                   initial_state)) = [].
Proof.
  destruct (@search_cookie_file_at_exit cookie_search_world
              "lofi hip hop radio" initial_state _ _ _ _ "/tmp/tmpq1w2e3.txt"
              eq_refl eq_refl eq_refl (fun _ => eq_refl)) as (_ & Hfound).
  destruct (@search_cookie_file_at_exit cookie_world
              "lofi hip hop radio" initial_state _ _ _ _ "/tmp/tmpq1w2e3.txt"
              eq_refl eq_refl eq_refl (fun _ => eq_refl)) as (_ & Hnone).
  split; [reflexivity |].
  split; [exact (proj1 (proj2 Hfound)) | exact (proj2 Hnone)].
Defined.

(** The [try] statement of [extract_video_info]. *)
Lemma extract_body_run
  (W : env) (o : list (string * pyval)) (url : string) (s : state) :
  try_except
    (info <- extract_info W (VDict o) url ;;
     result <- lift (video_info info) ;;
     cleanup_cookie_file W (VDict o) ;;
     ret result)
    (fun e =>
       cleanup_cookie_file W (VDict o) ;;
       raise (HTTPException 500 ("Error extracting video info: " ++ exn_str e))) s
  = (resolved (ydl_extract_info W (calls is_extract_info s) (VDict o) url),
     snd (cleanup_cookie_file W (VDict o)
            (emitted (EvExtractInfo (VDict o) url) s))).
Proof.
  unfold try_except, extract_info.
  unfold bind at 1. unfold bind at 1. unfold get_calls at 1.
  unfold bind at 1. unfold emit at 1. unfold lift at 1.
  fold (emitted (EvExtractInfo (VDict o) url) s).
  set (s3 := emitted (EvExtractInfo (VDict o) url) s).
  destruct (cleanup_cookie_file_run W o s3) as (s4 & Hclean & _).
  unfold resolved, extraction_failed.
  destruct (ydl_extract_info W (calls is_extract_info s) (VDict o) url)
    as [info | e].
  - unfold bind at 1. unfold lift at 1.
    destruct (video_info info) as [r | e].
    + unfold bind, ret. rewrite Hclean. reflexivity.
    + unfold bind, raise. rewrite Hclean. reflexivity.
  - unfold bind, raise. rewrite Hclean. reflexivity.
Qed.

(** Every run of [extract_video_info] once the options are built. *)
Lemma extract_video_info_run
  (W : env) (url : string) (s s1 s2 : state) (dns_msg : string)
  (base : dict pyval) :
  test_dns_resolution W s = (Ok (true, dns_msg), s1) ->
  get_ydl_opts W s1 = (Ok base, s2) ->
  extract_video_info W url s
  = let sY := emitted (EvYoutubeDL (extract_opts base)) s2 in
    match ydl_init W (calls is_youtubedl s2) (extract_opts base) with
    | Some e => (Raise e, sY)
    | None =>
        (resolved (ydl_extract_info W (calls is_extract_info s2)
                     (extract_opts base) url),
         exited (extract_opts base)
           (snd (cleanup_cookie_file W (extract_opts base)
                   (emitted (EvExtractInfo (extract_opts base) url) sY))))
    end.
Proof.
  intros Hdns Hopts.
  unfold extract_video_info. unfold bind at 1. rewrite Hdns. cbn [negb].
  unfold bind at 1. rewrite Hopts. fold (extract_opts base).
  unfold with_YoutubeDL.
  unfold bind at 1. unfold get_calls at 1. unfold bind at 1. unfold emit at 1.
  cbn zeta. fold (emitted (EvYoutubeDL (extract_opts base)) s2).
  destruct (ydl_init W (calls is_youtubedl s2) (extract_opts base)) as [e |];
    [reflexivity |].
  rewrite finally_exit_run. unfold extract_opts.
  rewrite extract_body_run. reflexivity.
Qed.

(** X13: once the options are built and the extractor object exists,
    [extract_video_info] makes exactly one extractor call, for the given URL,
    and its outcome is the selector's result on the answer, or the 500 error
    whose detail is "Error extracting video info: " followed by the text of
    what the extractor or the selector raised. *)
Theorem extraction_wraps_every_failure
  (W : env) (url : string) (s s1 s2 : state) (dns_msg : string)
  (base : dict pyval) :
  test_dns_resolution W s = (Ok (true, dns_msg), s1) ->
  get_ydl_opts W s1 = (Ok base, s2) ->
  ydl_init W (calls is_youtubedl s2) (extract_opts base) = None ->
  let answer :=
    ydl_extract_info W (calls is_extract_info s2) (extract_opts base) url in
  let run := extract_video_info W url s in
  fst run
  = match answer with
    | Ok info =>
        match video_info info with
        | Ok r => Ok r
        | Raise e =>
            Raise (HTTPException 500
                     ("Error extracting video info: " ++ exn_str e))
        end
    | Raise e =>
        Raise (HTTPException 500 ("Error extracting video info: " ++ exn_str e))
    end
  /\ extractor_queries (snd run) = (extractor_queries s ++ [url])%list.
Proof.
  intros Hdns Hopts Hinit answer run. subst run answer.
  rewrite (@extract_video_info_run W url s s1 s2 dns_msg base Hdns Hopts).
  cbn zeta. rewrite Hinit.
  split; [reflexivity |]. cbn [snd].
  destruct (cleanup_cookie_file_run W
              (dict_update base [ ("extract_flat", VBool false) ])
              (emitted (EvExtractInfo (extract_opts base) url)
                 (emitted (EvYoutubeDL (extract_opts base)) s2)))
    as (s4 & Hclean & Hsame).
  fold (extract_opts base) in Hclean. rewrite Hclean. cbn [snd].
  rewrite (extractor_queries_same (exited_same_extractor (extract_opts base) s4)).
  rewrite (extractor_queries_same Hsame).
  unfold extractor_queries. cbn [emitted trace queries query_of rev].
  rewrite test_dns_resolution_run in Hdns. injection Hdns as _ <-.
  pose proof (get_ydl_opts_same_extractor W
                (emitted (EvGethostbyname "www.youtube.com") s)) as H.
  rewrite Hopts in H. destruct H as (_ & _ & Hq). cbn [snd] in Hq.
  rewrite Hq. reflexivity.
Qed.

Lemma extraction_wraps_every_failure_witness :
  fst (extract_video_info cookie_world "https://www.youtube.com/watch?v=dQw4w9WgXcQ"
         initial_state)
  = Ok (VDict [ ("title", VStr "Never Gonna Give You Up");
                ("formats", VList []);
                ("highest_audio", VNone);
                ("thumbnail", VNone) ]).
Proof.
  exact (proj1 (@extraction_wraps_every_failure cookie_world
                  "https://www.youtube.com/watch?v=dQw4w9WgXcQ"
                  initial_state _ _ _ _ eq_refl eq_refl eq_refl)).
Defined.

(** X14: [extract_video_info] calls [os.unlink] on the recorded cookie file
    exactly once, whether the extraction succeeds or fails, and both calls
    sit inside the [with] block: the exit step of the extractor object comes
    last and saves the cookie jar to the same path.  Once the extractor
    object exists, the file is therefore on disk at either exit; no other
    file is touched. *)
Theorem extraction_cookie_file_saved_back
  (W : env) (url : string) (s s1 s2 : state) (dns_msg : string)
  (base : dict pyval) (p : string) :
  test_dns_resolution W s = (Ok (true, dns_msg), s1) ->
  get_ydl_opts W s1 = (Ok base, s2) ->
  ydl_init W (calls is_youtubedl s2) (extract_opts base) = None ->
  dict_lookup "cookiefile" base = Some (VStr p) ->
  (forall n, unlink_fault W n p = None) ->
  let s' := snd (extract_video_info W url s) in
  unlinked s' = EvUnlink (VStr p) :: unlinked s
  /\ In p (files s')
  /\ files s' = p :: without p (files s2)
  /\ trace s'
     = EvSaveCookies p :: EvUnlink (VStr p)
       :: EvExtractInfo (extract_opts base) url
       :: EvYoutubeDL (extract_opts base) :: trace s2.
Proof.
  intros Hdns Hopts Hinit Hkey Hfault. cbn zeta.
  assert (Hkey' : dict_lookup "cookiefile"
                    (dict_update base [ ("extract_flat", VBool false) ])
                  = Some (VStr p)).
  { rewrite dict_lookup_update_other by reflexivity. exact Hkey. }
  pose proof (params_cookiefile_dict _ Hkey') as Hp.
  assert (Hu2 : unlinked s2 = unlinked s).
  { rewrite test_dns_resolution_run in Hdns. injection Hdns as _ <-.
    pose proof (get_ydl_opts_nothing_deleted W
                  (emitted (EvGethostbyname "www.youtube.com") s)) as [H _].
    rewrite Hopts in H. exact H. }
  remember (snd (extract_video_info W url s)) as s' eqn:Hs'.
  rewrite (@extract_video_info_run W url s s1 s2 dns_msg base Hdns Hopts) in Hs'.
  cbn zeta in Hs'. rewrite Hinit in Hs'. cbn [snd] in Hs'.
  unfold extract_opts in Hs'.
  rewrite (cleanup_files_after W _ _ Hkey' (Hfault _)) in Hs'. cbn [snd] in Hs'.
  rewrite (@exited_cookie _ _ _ Hp) in Hs'. cbn [files trace emitted] in Hs'.
  rewrite saved_without in Hs'. subst s'. cbn [files trace].
  split; [| split; [apply in_eq | split; reflexivity]].
  unfold unlinked. cbn [trace filter is_unlink].
  fold (unlinked s2). rewrite Hu2. reflexivity.
Qed.

Lemma extraction_cookie_file_saved_back_witness :
  files (snd (extract_video_info cookie_world "https://x/watch?v=a" initial_state))
  = [ "/tmp/tmpq1w2e3.txt" ].
Proof.
  destruct (@extraction_cookie_file_saved_back cookie_world
              "https://x/watch?v=a" initial_state _ _ _ _ "/tmp/tmpq1w2e3.txt"
              eq_refl eq_refl eq_refl eq_refl (fun _ => eq_refl))
    as (_ & _ & Hfiles & _).
  exact Hfiles.
Defined.

(** X15: when the constructor of the extractor object raises,
    [extract_video_info] lets that exception through as it is, not as the 500
    error, without any extractor call and without the clean-up: no file is
    removed and [os.unlink] is not called. *)
Theorem constructor_failure_escapes
  (W : env) (url : string) (s s1 s2 : state) (dns_msg : string)
  (base : dict pyval) (e : exn) :
  test_dns_resolution W s = (Ok (true, dns_msg), s1) ->
  get_ydl_opts W s1 = (Ok base, s2) ->
  ydl_init W (calls is_youtubedl s2) (extract_opts base) = Some e ->
  exists s',
    extract_video_info W url s = (Raise e, s')
    /\ files s' = files s2
    /\ unlinked s' = unlinked s
    /\ extractor_queries s' = extractor_queries s.
Proof.
  intros Hdns Hopts Hinit.
  rewrite (@extract_video_info_run W url s s1 s2 dns_msg base Hdns Hopts).
  cbn zeta. rewrite Hinit. eexists. split; [reflexivity |].
  rewrite test_dns_resolution_run in Hdns. injection Hdns as _ <-.
  pose proof (get_ydl_opts_nothing_deleted W
                (emitted (EvGethostbyname "www.youtube.com") s)) as [Hu _].
  pose proof (get_ydl_opts_same_extractor W
                (emitted (EvGethostbyname "www.youtube.com") s)) as (_ & _ & Hq).
  rewrite Hopts in Hu, Hq. cbn [snd] in Hu, Hq.
  split; [reflexivity |]. split; [exact Hu |].
  unfold extractor_queries. cbn [emitted trace queries query_of].
  rewrite Hq. reflexivity.
Qed.

Lemma constructor_failure_escapes_witness :
  exists s',
    extract_video_info broken_extractor_world "https://x/watch?v=a" initial_state
    = (Raise (PyExc (OtherError "CookieLoadError")
                "Cookies file must be Netscape formatted"), s')
    /\ files s' = [ "/tmp/tmpq1w2e3.txt" ].
Proof.
  destruct (@constructor_failure_escapes broken_extractor_world
              "https://x/watch?v=a" initial_state _ _ _ _ _
              eq_refl eq_refl eq_refl) as (s' & Hrun & Hfiles & _).
  exists s'. split; [exact Hrun | exact Hfiles].
Defined.

Lemma video_info_not_dict (info : pyval) :
  is_dict info = false -> video_info info = Raise (no_attribute info "get").
Proof.
  intros H. destruct info; try reflexivity. discriminate H.
Qed.

(** X16: an answer of the extractor that is not a dictionary, [None]
    included, is not taken as "nothing found": [extract_video_info] fails with
    the 500 error about the missing [get] attribute of that type. *)
Theorem non_dict_answer_is_a_500
  (W : env) (url : string) (s s1 s2 : state) (dns_msg : string)
  (base : dict pyval) (info : pyval) :
  test_dns_resolution W s = (Ok (true, dns_msg), s1) ->
  get_ydl_opts W s1 = (Ok base, s2) ->
  ydl_init W (calls is_youtubedl s2) (extract_opts base) = None ->
  ydl_extract_info W (calls is_extract_info s2) (extract_opts base) url = Ok info ->
  is_dict info = false ->
  fst (extract_video_info W url s)
  = Raise (HTTPException 500
             ("Error extracting video info: '" ++ type_name info
              ++ "' object has no attribute 'get'")).
Proof.
  intros Hdns Hopts Hinit Hanswer Hnd.
  rewrite (@extract_video_info_run W url s s1 s2 dns_msg base Hdns Hopts).
  cbn zeta. rewrite Hinit, Hanswer. cbn [fst resolved].
  rewrite (video_info_not_dict _ Hnd). reflexivity.
Qed.

Lemma non_dict_answer_is_a_500_witness :
  fst (extract_video_info quiet_world "https://x/watch?v=a" initial_state)
  = Raise (HTTPException 500
             "Error extracting video info: 'NoneType' object has no attribute 'get'").
Proof.
  exact (@non_dict_answer_is_a_500 quiet_world "https://x/watch?v=a"
           initial_state _ _ _ _ VNone eq_refl eq_refl eq_refl eq_refl eq_refl).
Defined.

(* ===================================================================== *)
(** ** Edges of the format selector *)
(* ===================================================================== *)

Lemma filter_cons_split (A : Type) (P : A -> bool) (l : list A) :
  forall x tl,
    filter P l = x :: tl ->
    exists pre post,
      l = (pre ++ x :: post)%list
      /\ filter P pre = [] /\ P x = true /\ filter P post = tl.
Proof.
  induction l as [| a r IH]; intros x tl H; [discriminate H |].
  cbn in H. destruct (P a) eqn:Pa.
  - injection H as -> Htl. exists [], r. repeat split; assumption.
  - destruct (IH _ _ H) as (pre & post & -> & Hpre & Px & Hpost).
    exists (a :: pre), post. cbn. rewrite Pa. repeat split; assumption.
Qed.

Lemma audio_video_loop_app_raise (pre l : list pyval) (e : exn) :
  Forall (fun f => is_dict f = true) pre ->
  Forall (fun f => selected_av f = true -> has_id_and_url f = true) pre ->
  audio_video_loop l = Raise e ->
  audio_video_loop (pre ++ l) = Raise e.
Proof.
  intros Hd Hw Hl. induction pre as [| f r IH]; [exact Hl |].
  inversion Hd as [| ? ? Hf Hr]; subst. inversion Hw as [| ? ? Hwf Hwr]; subst.
  destruct (is_dict_inv _ Hf) as [d ->].
  cbn [app audio_video_loop]. rewrite is_audio_video_dict. cbn [rbind].
  destruct (selected_av (VDict d)) eqn:Hsel.
  - rewrite (audio_video_entry_dict d (Hwf eq_refl)). cbn [rbind].
    rewrite (IH Hr Hwr). reflexivity.
  - apply IH; assumption.
Qed.

(** X17: one kept descriptor without [format_id] or [url] fails the whole
    selection: the comprehension raises the [KeyError] of the missing key, so
    no result is produced for that answer. *)
Theorem kept_descriptor_without_url_fails
  (pre post : list pyval) (d : list (string * pyval)) :
  Forall (fun f => is_dict f = true) pre ->
  Forall (fun f => selected_av f = true -> has_id_and_url f = true) pre ->
  selected_av (VDict d) = true ->
  has_id_and_url (VDict d) = false ->
  let formats := VList (pre ++ VDict d :: post) in
  (audio_video_formats formats = Raise (PyExc KeyError "'format_id'")
   \/ audio_video_formats formats = Raise (PyExc KeyError "'url'"))
  /\ forall info r,
       py_get info "formats" (VList []) = Ok formats -> video_info info <> Ok r.
Proof.
  intros Hd Hw Hsel Hmiss formats.
  assert (Hentry : audio_video_loop (VDict d :: post)
                   = Raise (PyExc KeyError "'format_id'")
                   \/ audio_video_loop (VDict d :: post)
                      = Raise (PyExc KeyError "'url'")).
  { cbn [audio_video_loop]. rewrite is_audio_video_dict, Hsel. cbn [rbind].
    unfold has_id_and_url, lookup in Hmiss.
    unfold audio_video_entry. cbn [py_getitem].
    destruct (dict_lookup "format_id" d); [| left; reflexivity].
    rewrite !py_get_dict. cbn [rbind].
    destruct (dict_lookup "url" d); [discriminate Hmiss | right; reflexivity]. }
  assert (Hraise : audio_video_formats formats = Raise (PyExc KeyError "'format_id'")
                   \/ audio_video_formats formats = Raise (PyExc KeyError "'url'")).
  { unfold audio_video_formats, formats. cbn [py_iter rbind].
    destruct Hentry as [H | H];
      rewrite (@audio_video_loop_app_raise pre _ _ Hd Hw H); auto. }
  split; [exact Hraise |].
  intros info r Hformats Hinfo.
  destruct (video_info_inv _ Hinfo)
    as (formats' & thumbnails & best & av & ha & hai
        & Hf & _ & _ & Hav & _ & _ & _).
  rewrite Hformats in Hf. injection Hf as <-.
  destruct Hraise as [H | H]; rewrite H in Hav; discriminate Hav.
Qed.

Lemma kept_descriptor_without_url_fails_witness :
  audio_video_formats (VList [ fmt_combined; fmt_without_url; fmt_audio_128 ])
  = Raise (PyExc KeyError "'url'").
Proof.
  destruct (@kept_descriptor_without_url_fails [ fmt_combined ] [ fmt_audio_128 ]
              [ ("format_id", VStr "22"); ("acodec", VStr "aac");
                ("vcodec", VStr "h264") ]) as [[H | H] _].
  - repeat constructor.
  - repeat constructor.
  - reflexivity.
  - reflexivity.
  - discriminate H.
  - exact H.
Defined.

(** *** [max] and its comparisons *)

Lemma max_loop_skip (pre l : list pyval) (current : option (pyval * pyval)) :
  Forall (fun f => is_dict f = true) pre ->
  filter audio_candidate pre = [] ->
  max_loop (pre ++ l) current = max_loop l current.
Proof.
  intros Hd Hnone. induction pre as [| f r IH]; [reflexivity |].
  inversion Hd as [| ? ? Hf Hr]; subst.
  destruct (is_dict_inv _ Hf) as [d ->].
  cbn [filter] in Hnone. cbn [app max_loop]. rewrite is_m4a_audio_dict.
  cbn [rbind].
  destruct (audio_candidate (VDict d)); [discriminate Hnone |].
  apply IH; assumption.
Qed.

Lemma Forall_app_inv (A : Type) (P : A -> Prop) (l1 l2 : list A) :
  Forall P (l1 ++ l2) -> Forall P l1 /\ Forall P l2.
Proof. apply Forall_app. Qed.

(** X18: a single qualifying descriptor is returned as best audio whatever
    its [abr] holds, a null or a string included: [max] compares nothing when
    there is one candidate. *)
Theorem single_candidate_is_best_audio (fmts : list pyval) (x : pyval) :
  Forall (fun f => is_dict f = true) fmts ->
  filter audio_candidate fmts = [ x ] ->
  highest_audio (VList fmts) = Ok x.
Proof.
  intros Hd Hone.
  destruct (filter_cons_split _ _ Hone) as (pre & post & -> & Hpre & Hx & Hpost).
  apply Forall_app_inv in Hd as [Hdpre Hd].
  inversion Hd as [| ? ? Hdx Hdpost]; subst.
  destruct (is_dict_inv _ Hdx) as [d ->].
  unfold highest_audio. cbn [py_iter rbind].
  rewrite (@max_loop_skip pre _ _ Hdpre Hpre).
  cbn [max_loop]. rewrite is_m4a_audio_dict, Hx. cbn [rbind].
  unfold abr_key. rewrite py_get_dict. cbn [rbind].
  rewrite <- (app_nil_r post). rewrite (@max_loop_skip post _ _ Hdpost Hpost).
  reflexivity.
Qed.

Lemma single_candidate_is_best_audio_witness :
  highest_audio (VList [ fmt_combined; fmt_m4a_null_abr ]) = Ok fmt_m4a_null_abr.
Proof.
  apply (@single_candidate_is_best_audio [ fmt_combined; fmt_m4a_null_abr ]).
  - repeat constructor.
  - reflexivity.
Defined.

Lemma py_gt_none_right (a : pyval) :
  exists text, py_gt a VNone = Raise (PyExc TypeError text).
Proof. destruct a; cbn; eexists; reflexivity. Qed.

Lemma py_gt_none_left (b : pyval) :
  exists text, py_gt VNone b = Raise (PyExc TypeError text).
Proof. destruct b; cbn; eexists; reflexivity. Qed.

(** X19: with two qualifying descriptors or more, an explicit null [abr] on
    one of the first two makes the selection raise a [TypeError]: [None] is
    not compared as 0, only a missing [abr] is. *)
Theorem null_abr_breaks_comparison
  (fmts : list pyval) (x y : pyval) (rest : list pyval) :
  Forall (fun f => is_dict f = true) fmts ->
  filter audio_candidate fmts = x :: y :: rest ->
  lookup x "abr" = Some VNone \/ lookup y "abr" = Some VNone ->
  exists text, highest_audio (VList fmts) = Raise (PyExc TypeError text).
Proof.
  intros Hd Hcands Hnull.
  destruct (filter_cons_split _ _ Hcands) as (pre & post & -> & Hpre & Hx & Hpost).
  destruct (filter_cons_split _ _ Hpost) as (mid & post' & -> & Hmid & Hy & _).
  apply Forall_app_inv in Hd as [Hdpre Hd].
  inversion Hd as [| ? ? Hdx Hd']; subst.
  apply Forall_app_inv in Hd' as [Hdmid Hd'].
  inversion Hd' as [| ? ? Hdy _]; subst.
  destruct (is_dict_inv _ Hdx) as [dx ->].
  destruct (is_dict_inv _ Hdy) as [dy ->].
  unfold highest_audio. cbn [py_iter rbind].
  rewrite (@max_loop_skip pre _ _ Hdpre Hpre).
  cbn [max_loop]. rewrite is_m4a_audio_dict, Hx. cbn [rbind].
  unfold abr_key. rewrite py_get_dict. cbn [rbind].
  rewrite (@max_loop_skip mid _ _ Hdmid Hmid).
  cbn [max_loop]. rewrite is_m4a_audio_dict, Hy. cbn [rbind].
  unfold abr_key. rewrite py_get_dict. cbn [rbind].
  unfold field_or.
  destruct Hnull as [H | H]; rewrite H.
  - destruct (py_gt_none_right
                match lookup (VDict dy) "abr" with
                | Some v => v
                | None => VInt 0
                end) as [text ->].
    exists text. reflexivity.
  - destruct (py_gt_none_left
                match lookup (VDict dx) "abr" with
                | Some v => v
                | None => VInt 0
                end) as [text ->].
    exists text. reflexivity.
Qed.

Lemma null_abr_breaks_comparison_witness :
  highest_audio (VList [ fmt_audio_128; fmt_combined; fmt_m4a_null_abr ])
  = Raise (PyExc TypeError
             "'>' not supported between instances of 'NoneType' and 'int'").
Proof.
  destruct (@null_abr_breaks_comparison
              [ fmt_audio_128; fmt_combined; fmt_m4a_null_abr ]
              fmt_audio_128 fmt_m4a_null_abr []) as [text H].
  - repeat constructor.
  - reflexivity.
  - right. reflexivity.
  - rewrite H. vm_compute in H. exact (eq_sym H).
Defined.

(** *** Thumbnails *)

Lemma py_gt_not_number (a b : pyval) (y : Q) :
  as_num a = None -> as_num b = Some y ->
  exists text, py_gt a b = Raise (PyExc TypeError text).
Proof.
  intros Ha Hb.
  destruct a; cbn in Ha; try discriminate Ha;
    destruct b; cbn in Hb; try discriminate Hb;
    cbn; eexists; reflexivity.
Qed.

Lemma thumbnail_loop_app (pre l : list pyval) :
  Forall (fun t => numeric_or_missing t "width" = true) pre ->
  forall (best max_width : pyval) (m : Q),
    as_num max_width = Some m ->
    exists best' max_width' m',
      thumbnail_loop (pre ++ l) best max_width
      = thumbnail_loop l best' max_width'
      /\ as_num max_width' = Some m'.
Proof.
  induction pre as [| a r IH]; intros Hwt best mw m Hm.
  - exists best, mw, m. split; [reflexivity | exact Hm].
  - inversion Hwt as [| ? ? Ha Hr]; subst.
    destruct (width_num _ Ha) as (d & -> & Hw).
    cbn [app thumbnail_loop]. rewrite !py_get_dict. cbn [rbind].
    rewrite (py_gt_num _ _ Hw Hm). cbn [rbind].
    destruct (Qgt_bool (num_key "width" (VDict d)) m).
    + apply (IH Hr _ _ _ Hw).
    + apply (IH Hr _ _ _ Hm).
Qed.

(** X20: a thumbnail whose [width] is present but not a number, an explicit
    null for one, makes the thumbnail loop raise a [TypeError] at that entry,
    so no result is produced for that answer. *)
Theorem non_numeric_width_fails
  (pre post : list pyval) (d : list (string * pyval)) (w : pyval) :
  Forall (fun t => numeric_or_missing t "width" = true) pre ->
  dict_lookup "width" d = Some w ->
  as_num w = None ->
  let thumbnails := VList (pre ++ VDict d :: post) in
  (exists text, best_thumbnail thumbnails = Raise (PyExc TypeError text))
  /\ forall info r,
       py_get info "thumbnails" (VList []) = Ok thumbnails ->
       video_info info <> Ok r.
Proof.
  intros Hwt Hw Hnum thumbnails.
  assert (Hraise : exists text,
             best_thumbnail thumbnails = Raise (PyExc TypeError text)).
  { unfold best_thumbnail, thumbnails. cbn [py_iter rbind].
    destruct (@thumbnail_loop_app pre (VDict d :: post) Hwt VNone (VInt 0) 0%Q
                eq_refl) as (b' & mw' & m' & -> & Hm').
    cbn [thumbnail_loop]. rewrite !py_get_dict. unfold field_or at 1.
    unfold lookup at 1. rewrite Hw. cbn [rbind].
    destruct (py_gt_not_number _ _ Hnum Hm') as [text ->].
    exists text. reflexivity. }
  split; [exact Hraise |].
  intros info r Hthumbs Hinfo.
  destruct (video_info_inv _ Hinfo)
    as (formats & thumbnails' & best & av & ha & hai
        & _ & Ht & Hb & _ & _ & _ & _).
  rewrite Hthumbs in Ht. injection Ht as <-.
  destruct Hraise as [text H]. rewrite H in Hb. discriminate Hb.
Qed.

Lemma non_numeric_width_fails_witness :
  best_thumbnail (VList (thumbs_with_widths ++ [ thumb_null_width ]))
  = Raise (PyExc TypeError
             "'>' not supported between instances of 'NoneType' and 'int'").
Proof.
  destruct (@non_numeric_width_fails thumbs_with_widths []
              [ ("url", VStr "https://i/x.jpg"); ("width", VNone) ] VNone)
    as [[text H] _].
  - repeat constructor.
  - reflexivity.
  - reflexivity.
  - unfold thumb_null_width. rewrite H. vm_compute in H. exact (eq_sym H).
Defined.

(** X21: an answer without [formats] and without [thumbnails] is not an
    error: the result has no combined format and no best audio, its title is
    the answer's or "Unknown Title" when there is none, and its thumbnail is
    the answer's default thumbnail, null when there is none. *)
Theorem missing_lists_are_empty (d : list (string * pyval)) :
  dict_lookup "formats" d = None ->
  dict_lookup "thumbnails" d = None ->
  video_info (VDict d)
  = Ok (VDict [ ("title", match dict_lookup "title" d with
                          | Some t => t
                          | None => VStr "Unknown Title"
                          end);
                ("formats", VList []);
                ("highest_audio", VNone);
                ("thumbnail", match dict_lookup "thumbnail" d with
                              | Some t => t
                              | None => VNone
                              end) ]).
Proof.
  intros Hf Ht. unfold video_info. rewrite !py_get_dict.
  unfold field_or, lookup. rewrite Hf, Ht. reflexivity.
Qed.

Lemma missing_lists_are_empty_witness :
  video_info (VDict [ ("id", VStr "a"); ("thumbnail", VStr "https://i/d.jpg") ])
  = Ok (VDict [ ("title", VStr "Unknown Title");
                ("formats", VList []);
                ("highest_audio", VNone);
                ("thumbnail", VStr "https://i/d.jpg") ]).
Proof.
  exact (@missing_lists_are_empty
           [ ("id", VStr "a"); ("thumbnail", VStr "https://i/d.jpg") ]
           eq_refl eq_refl).
Defined.

(* ===================================================================== *)
(** ** Diagnostic endpoints *)
(* ===================================================================== *)

Lemma http_check_full (W : env) (s : state) :
  try_except
    (status_code <- requests_get W "https://www.youtube.com" 10 ;;
     ret (Z.eqb status_code 200,
          "HTTP connection successful: " ++ str_of_Z status_code))
    (fun e => ret (false, "HTTP connection failed: " ++ exn_str e)) s
  = (Ok (http_outcome W (calls is_http_get s)),
     emitted (EvHttpGet "https://www.youtube.com" 10) s).
Proof.
  unfold try_except, requests_get, bind, get_calls, emit, lift, ret, emitted,
    http_outcome.
  destruct (http_get W (calls is_http_get s) "https://www.youtube.com" 10);
    reflexivity.
Qed.

Lemma smoke_test_body_full (W : env) (opts : pyval) (s : state) :
  exists s',
    try_except
      (with_YoutubeDL W opts
         (info <- extract_info W opts smoke_test_url ;;
          ret (match info with VNone => false | _ => true end,
               "yt-dlp working correctly")))
      (fun e => ret (false, "yt-dlp failed: " ++ exn_str e)) s
    = (Ok (ytdlp_outcome W (calls is_youtubedl s) (calls is_extract_info s) opts),
       s')
    /\ incl (files s) (files s')
    /\ queries (trace s')
       = (match ydl_init W (calls is_youtubedl s) opts with
          | Some _ => []
          | None => [ smoke_test_url ]
          end ++ queries (trace s))%list.
Proof.
  unfold try_except, with_YoutubeDL, ytdlp_outcome.
  unfold bind at 1. unfold get_calls at 1. unfold bind at 1. unfold emit at 1.
  destruct (ydl_init W (calls is_youtubedl s) opts) as [e |].
  - eexists. repeat split. apply incl_refl.
  - rewrite finally_exit_run.
    pose proof (frames_YoutubeDL_exit_nothing_deleted opts
                  {| trace := EvExtractInfo opts smoke_test_url
                              :: EvYoutubeDL opts :: trace s;
                     files := files s |}) as [_ Hf].
    pose proof (exited_same_extractor opts
                  {| trace := EvExtractInfo opts smoke_test_url
                              :: EvYoutubeDL opts :: trace s;
                     files := files s |}) as (_ & _ & Hq).
    unfold extract_info, bind, get_calls, emit, lift, ret.
    cbn -[String.append smoke_test_url exited]. unfold calls.
    cbn [snd files] in Hf. cbn [trace] in Hq.
    destruct (ydl_extract_info W _ opts smoke_test_url) as [info | e];
      cbn [fst snd]; (eexists; split; [reflexivity |]; split; [exact Hf |]);
      rewrite Hq; reflexivity.
Qed.

Lemma get_ydl_opts_ok (W : env) (s : state) :
  gaierror_only W ->
  exists base s', get_ydl_opts W s = (Ok base, s').
Proof.
  intros Hgai. rewrite get_ydl_opts_run. cbn zeta.
  destruct (create_cookie_file_ok W (dns_logged W s)) as (c & s2 & Hc).
  rewrite Hc.
  destruct (sys_gethostbyname W _ _) as [a | e] eqn:E; [eauto |].
  rewrite (Hgai _ _ E). eauto.
Qed.

(** X22: [test_youtube_access] never raises; when the primary probe fails in
    an unexpected way (not a [socket.gaierror]), the answer is the
    error-shaped dictionary with the text of that exception, and neither the
    HTTP check nor the extractor is tried. *)
Theorem smoke_test_never_raises (W : env) (s : state) :
  (exists r s', test_youtube_access W s = (Ok r, s'))
  /\ forall e,
       sys_gethostbyname W (calls is_gethostbyname s) "www.youtube.com" = Raise e ->
       is_gaierror e = false ->
       test_youtube_access W s
       = (Ok (failed_report e), emitted (EvGethostbyname "www.youtube.com") s).
Proof.
  split.
  - unfold test_youtube_access, try_except.
    match goal with
    | |- context [let (_, _) := ?c s in _] => destruct (c s) as [[r | e] s']
    end; do 2 eexists; reflexivity.
  - intros e He Hgai.
    unfold test_youtube_access. unfold try_except at 1. unfold bind at 1.
    rewrite test_dns_resolution_run, He, Hgai. reflexivity.
Qed.

Lemma smoke_test_never_raises_witness :
  fst (test_youtube_access odd_resolver_world initial_state)
  = Ok (VDict [ ("error", VStr "encoding with 'idna' codec failed");
                ("status", VStr "failed") ]).
Proof.
  rewrite (proj2 (smoke_test_never_raises odd_resolver_world initial_state)
             _ eq_refl eq_refl).
  reflexivity.
Defined.

(** Every run of the smoke test in which the primary resolver fails with
    [socket.gaierror] only. *)
Lemma test_youtube_access_run (W : env) (s : state) :
  gaierror_only W ->
  exists base s',
    fst (get_ydl_opts W (emitted (EvHttpGet "https://www.youtube.com" 10)
                           (emitted (EvGethostbyname "www.youtube.com") s)))
    = Ok base
    /\ test_youtube_access W s
       = (Ok (report (dns_outcome W (calls is_gethostbyname s))
                     (http_outcome W (calls is_http_get s))
                     (ytdlp_outcome W (calls is_youtubedl s)
                        (calls is_extract_info s) (VDict base))),
          s')
    /\ extractor_queries s'
       = (extractor_queries s
          ++ match ydl_init W (calls is_youtubedl s) (VDict base) with
             | Some _ => []
             | None => [ smoke_test_url ]
             end)%list.
Proof.
  intros Hgai.
  set (s2 := emitted (EvHttpGet "https://www.youtube.com" 10)
               (emitted (EvGethostbyname "www.youtube.com") s)).
  destruct (get_ydl_opts_ok s2 Hgai) as (base & s3 & Hopts).
  exists base.
  pose proof (get_ydl_opts_same_extractor W s2) as (Hy & He & Hq).
  rewrite Hopts in Hy, He, Hq. cbn [snd] in Hy, He, Hq.
  change (calls is_youtubedl s2) with (calls is_youtubedl s) in Hy.
  change (calls is_extract_info s2) with (calls is_extract_info s) in He.
  change (queries (trace s2)) with (queries (trace s)) in Hq.
  destruct (smoke_test_body_full W (VDict base) s3) as (s4 & Hbody & _ & Hq4).
  rewrite Hy, He in Hbody. rewrite Hy, Hq in Hq4.
  exists s4. split; [rewrite Hopts; reflexivity |].
  split.
  - unfold test_youtube_access. unfold try_except at 1. unfold bind at 1.
    rewrite test_dns_resolution_run.
    assert (Hdns : match sys_gethostbyname W (calls is_gethostbyname s)
                           "www.youtube.com" with
                   | Ok _ => Ok (true, "DNS resolution working")
                   | Raise e =>
                       if is_gaierror e
                       then Ok (false, "DNS resolution failed: " ++ exn_str e)
                       else Raise e
                   end = Ok (dns_outcome W (calls is_gethostbyname s))).
    { unfold dns_outcome.
      destruct (sys_gethostbyname W _ _) as [a | e] eqn:E; [reflexivity |].
      rewrite (Hgai _ _ E). reflexivity. }
    rewrite Hdns.
    destruct (dns_outcome W (calls is_gethostbyname s)) as [dns_works dns_msg].
    unfold bind at 1. rewrite http_check_full.
    change (calls is_http_get (emitted (EvGethostbyname "www.youtube.com") s))
      with (calls is_http_get s).
    destruct (http_outcome W (calls is_http_get s)) as [http_works http_msg].
    fold s2. unfold bind at 1.
    unfold try_except in Hbody. unfold smoke_test_url in Hbody.
    unfold try_except at 1. unfold bind at 1. rewrite Hopts.
    destruct (with_YoutubeDL W (VDict base) _ s3) as [[y | e] s4'];
      injection Hbody as Hy4 <-; rewrite <- Hy4; try destruct y; reflexivity.
  - unfold extractor_queries. rewrite Hq4, rev_app_distr.
    destruct (ydl_init W (calls is_youtubedl s) (VDict base)); reflexivity.
Qed.

(** X23: when the primary resolver fails with [socket.gaierror] only,
    [test_youtube_access] answers with the full report: DNS works when the
    probe resolved, HTTP works exactly when the GET answered with status 200,
    the extractor works exactly when it was built and answered something
    other than [None]; the recommendations are those of these three flags;
    and the extraction of the reference URL is tried whatever the DNS and
    HTTP tests gave. *)
Theorem smoke_test_report (W : env) (s : state) :
  gaierror_only W ->
  exists base s',
    fst (get_ydl_opts W (emitted (EvHttpGet "https://www.youtube.com" 10)
                           (emitted (EvGethostbyname "www.youtube.com") s)))
    = Ok base
    /\ test_youtube_access W s
       = (Ok (report (dns_outcome W (calls is_gethostbyname s))
                     (http_outcome W (calls is_http_get s))
                     (ytdlp_outcome W (calls is_youtubedl s)
                        (calls is_extract_info s) (VDict base))),
          s')
    /\ extractor_queries s'
       = (extractor_queries s
          ++ match ydl_init W (calls is_youtubedl s) (VDict base) with
             | Some _ => []
             | None => [ smoke_test_url ]
             end)%list.
Proof.
  intros Hgai. exact (test_youtube_access_run s Hgai).
Qed.

Lemma smoke_test_report_witness :
  exists s',
    test_youtube_access offline_world initial_state
    = (Ok (VDict
             [ ("dns_resolution",
                 works_message false
                   "DNS resolution failed: [Errno -2] Name or service not known");
               ("http_connection",
                 works_message false "HTTP connection successful: 403");
               ("ytdlp_functionality",
                 works_message true "yt-dlp working correctly");
               ("recommendations",
                 VList (map VStr (dns_recommendations ++ http_recommendations))) ]),
       s')
    /\ extractor_queries s' = [ smoke_test_url ].
Proof.
  destruct (@smoke_test_report offline_world initial_state)
    as (base & s' & Hbase & Hrun & Hq).
  - intros n e H. injection H as <-. reflexivity.
  - exists s'. vm_compute in Hbase. injection Hbase as <-.
    split; [exact Hrun | exact Hq].
Defined.

(** X24: when the extractor is built and answers [None], the report marks
    the extractor as not working, yet with the message "yt-dlp working
    correctly", and the recommendations end with the three extractor
    ones. *)
Theorem none_answer_reported_as_working_message (W : env) (s : state) :
  gaierror_only W ->
  (forall opts, ydl_init W (calls is_youtubedl s) opts = None) ->
  (forall opts, ydl_extract_info W (calls is_extract_info s) opts smoke_test_url
                = Ok VNone) ->
  exists r s' l,
    test_youtube_access W s = (Ok r, s')
    /\ lookup r "ytdlp_functionality"
       = Some (works_message false "yt-dlp working correctly")
    /\ lookup r "recommendations"
       = Some (VList (l ++ map VStr extractor_recommendations)).
Proof.
  intros Hgai Hinit Hnone.
  destruct (test_youtube_access_run s Hgai) as (base & s' & _ & Hrun & _).
  unfold ytdlp_outcome in Hrun. rewrite Hinit, Hnone in Hrun.
  eexists. exists s'.
  exists (map VStr (when_failing (fst (dns_outcome W (calls is_gethostbyname s)))
                      dns_recommendations
                    ++ when_failing (fst (http_outcome W (calls is_http_get s)))
                         http_recommendations)%list).
  split; [exact Hrun |]. split; [reflexivity |].
  cbn [lookup report dict_lookup String.eqb Ascii.eqb Bool.eqb fst snd].
  f_equal. f_equal. rewrite <- map_app. f_equal.
  destruct (fst (dns_outcome W _)), (fst (http_outcome W _)); reflexivity.
Qed.

Lemma none_answer_reported_as_working_message_witness :
  exists r s',
    test_youtube_access quiet_world initial_state = (Ok r, s')
    /\ lookup r "ytdlp_functionality"
       = Some (works_message false "yt-dlp working correctly")
    /\ lookup r "recommendations"
       = Some (VList (map VStr extractor_recommendations)).
Proof.
  destruct (@none_answer_reported_as_working_message quiet_world initial_state)
    as (r & s' & l & Hrun & Hy & Hrec).
  - intros n e H. discriminate H.
  - reflexivity.
  - reflexivity.
  - exists r, s'. split; [exact Hrun |]. split; [exact Hy |].
    vm_compute in Hrun. injection Hrun as <- _. reflexivity.
Defined.

(** *** The health endpoint *)

(** X25: [health_check] runs the primary probe and, whenever that probe
    returns, after a success as after a [socket.gaierror], the alternative
    probe, and nothing else; its status is "healthy" exactly when the primary
    probe resolved, whatever the alternative probe gave.  When the primary
    probe lets an exception through, one that is not a [socket.gaierror],
    [health_check] raises it right after that probe and the alternative probe
    is not run. *)
Theorem health_status_follows_primary_probe
  (W : env) (clock : nat -> Q) (s : state) :
  (forall e,
      sys_gethostbyname W (calls is_gethostbyname s) "www.youtube.com" = Raise e ->
      is_gaierror e = false ->
      health_check W clock s
      = (Raise e, emitted (EvGethostbyname "www.youtube.com") s))
  /\ ((forall e,
          sys_gethostbyname W (calls is_gethostbyname s) "www.youtube.com"
            = Raise e ->
          is_gaierror e = true) ->
      exists r s',
        health_check W clock s = (Ok r, s')
        /\ lookup r "status"
           = Some (VStr (if fst (dns_outcome W (calls is_gethostbyname s))
                         then "healthy" else "unhealthy"))
        /\ lookup r "dns_resolution"
           = Some (VStr (snd (dns_outcome W (calls is_gethostbyname s))))
        /\ lookup r "alternative_dns"
           = Some (VStr (alt_message W (calls is_resolve s)))
        /\ trace s'
           = EvResolve ["8.8.8.8"; "8.8.4.4"] "www.youtube.com" "A"
             :: EvGethostbyname "www.youtube.com" :: trace s
        /\ files s' = files s).
Proof.
  split.
  - intros e He Hg.
    unfold health_check. unfold bind at 1.
    rewrite test_dns_resolution_run, He, Hg. reflexivity.
  - intros Hgai.
    unfold health_check. unfold bind at 1. rewrite test_dns_resolution_run.
    assert (Hdns : match sys_gethostbyname W (calls is_gethostbyname s)
                           "www.youtube.com" with
                   | Ok _ => Ok (true, "DNS resolution working")
                   | Raise e =>
                       if is_gaierror e
                       then Ok (false, "DNS resolution failed: " ++ exn_str e)
                       else Raise e
                   end = Ok (dns_outcome W (calls is_gethostbyname s))).
    { unfold dns_outcome.
      destruct (sys_gethostbyname W _ _) as [a | e] eqn:E; [reflexivity |].
      rewrite (Hgai _ eq_refl). reflexivity. }
    rewrite Hdns.
    destruct (dns_outcome W (calls is_gethostbyname s)) as [dns_works dns_msg].
    unfold bind at 1. rewrite try_alternative_dns_run.
    change (calls is_resolve (emitted (EvGethostbyname "www.youtube.com") s))
      with (calls is_resolve s).
    unfold alt_message.
    destruct (dns_resolve W (calls is_resolve s) ["8.8.8.8"; "8.8.4.4"]
                "www.youtube.com" "A") as [[| first rest] | e];
      do 2 eexists; (split; [reflexivity |]); repeat split.
Qed.

Lemma health_status_follows_primary_probe_witness :
  (exists r s',
      health_check no_dns_world (fun _ => 0%Q) initial_state = (Ok r, s')
      /\ lookup r "status" = Some (VStr "unhealthy"))
  /\ fst (health_check odd_resolver_world (fun _ => 0%Q) initial_state)
     = Raise (PyExc (OtherError "UnicodeError")
                "encoding with 'idna' codec failed").
Proof.
  split.
  - destruct (proj2 (@health_status_follows_primary_probe no_dns_world
                       (fun _ => 0%Q) initial_state))
      as (r & s' & Hrun & Hstatus & _).
    + intros e H. injection H as <-. reflexivity.
    + exists r, s'. split; [exact Hrun | exact Hstatus].
  - rewrite (proj1 (@health_status_follows_primary_probe odd_resolver_world
                      (fun _ => 0%Q) initial_state) _ eq_refl eq_refl).
    reflexivity.
Defined.

(* ===================================================================== *)
(** ** Options of the two entry points, and two facts on the selection *)
(* ===================================================================== *)

(** *** What the entry points hand to the extractor *)


Section Hands.
Variable P : pyval -> Prop.




End Hands.









(** X27: there is no recommendation exactly when the three tests succeed,
    and no recommendation is ever given twice. *)
Theorem recommendations_empty_iff_all_work
  (dns_works http_works ytdlp_works : bool) :
  (get_troubleshooting_recommendations dns_works http_works ytdlp_works = []
   <-> dns_works && http_works && ytdlp_works = true)
  /\ NoDup (get_troubleshooting_recommendations dns_works http_works ytdlp_works).
Proof.
  split.
  - destruct dns_works, http_works, ytdlp_works; cbn; split; intros H;
      try reflexivity; discriminate H.
  - destruct dns_works, http_works, ytdlp_works; cbn;
      repeat (constructor; [cbn; intuition discriminate |]); constructor.
Qed.

Lemma recommendations_empty_iff_all_work_witness :
  get_troubleshooting_recommendations true true true = [].
Proof.
  exact (proj2 (proj1 (recommendations_empty_iff_all_work true true true))
           eq_refl).
Defined.

(** X28: the two selections never share a descriptor: what qualifies as
    audio-only candidate is not kept as a combined format. *)
Theorem audio_candidate_is_not_combined (fmt : pyval) :
  is_m4a_audio fmt = Ok true -> is_audio_video fmt = Ok false.
Proof.
  intros H. destruct fmt; try discriminate H.
  rewrite is_m4a_audio_dict in H. injection H as H.
  rewrite is_audio_video_dict. f_equal.
  unfold audio_candidate in H. unfold selected_av.
  apply andb_true_iff in H as [H _]. apply andb_true_iff in H as [Ha Hv].
  rewrite Ha. cbn [andb].
  unfold holds_str in Hv. unfold not_none.
  destruct (lookup (VDict d) "vcodec") as [[| | | | t | |] |];
    try discriminate Hv.
  rewrite Hv. reflexivity.
Qed.

Lemma audio_candidate_is_not_combined_witness :
  is_audio_video fmt_audio_128 = Ok false.
Proof.
  exact (@audio_candidate_is_not_combined fmt_audio_128 eq_refl).
Defined.
